(** * phased-array-systems: evaluation pipeline, radar model, Pareto frontier

    A shallow embedding of
      - [src/phased_array_systems/evaluate.py]            (evaluate_case,
        evaluate_case_with_report),
      - [src/phased_array_systems/models/radar/*.py]      (RadarModel, detection
        and integration helpers, the standalone detection range),
      - [src/phased_array_systems/scenarios/radar.py]     (field validators,
        computed fields),
      - the Pareto loop of [app/pages/2_Trade_Study.py],
    and the properties of the specification that concern them, followed by
      - [src/phased_array_systems/constants.py]           (decibel conversions),
      - [src/phased_array_systems/models/antenna/metrics.py] (scan loss, array
        gain, directivity),
      - [src/phased_array_systems/models/rf/cascade.py]   (Friis noise figure,
        cascaded intercept point),
      - [src/phased_array_systems/models/digital/scheduling.py] (utilization of
        a timeline),
    and properties read off these sources.

    Modelling conventions.
      - A Python [float] is a real number: rounding is ignored and the values
        [inf] and [nan] do not exist.  Where the source builds an infinity on
        purpose ([float("-inf")]) the computation leaves the model, which is
        recorded as the outcome [NonFinite].
      - Every operation that raises in Python raises here: division by zero,
        the domain errors of [math.log10], [math.log] and [math.sqrt], and the
        [OverflowError] of [**] and of the conversion of an [int] to a [float]
        when the result exceeds the largest finite double.
      - A [dict] with string keys is a [gmap string value]; [d.update(e)] is
        the left-biased union [e ∪ d].  The dict that [evaluate_case] hands to
        the models lives in a store, next to the clock and a trace of the
        calls, so that ordering and absence of mutation can be stated.
      - [scipy.special.erfc], [scipy.special.gammaincinv],
        [scipy.optimize.brentq], the clock [time.perf_counter] and the models
        and classes whose sources are not embedded (antenna adapter, power,
        cost and link models, [RequirementSet.verify]) are parameters of the
        development. *)

From Stdlib Require Import Reals Lra Lia ZArith String.
From stdpp Require Import gmap strings list fin_maps pretty.

Open Scope R_scope.
Open Scope string_scope.

(** ** Python values, exceptions and outcomes *)

Inductive exn : Type :=
| ValueError (msg : string)
| OverflowError
| ZeroDivisionError
| KeyError (key : string)
| TypeError.

Inductive outcome (A : Type) : Type :=
| Returns (a : A)
| Raises (e : exn)
| NonFinite.

Arguments Returns {A} a.
Arguments Raises {A} e.
Arguments NonFinite {A}.

#[global] Instance outcome_ret : MRet outcome := fun A a => Returns a.

#[global] Instance outcome_bind : MBind outcome := fun A B f m =>
  match m with
  | Returns a => f a
  | Raises e => Raises e
  | NonFinite => NonFinite
  end.

(** A number is a real or a complex; the source never looks inside a complex
    number, it only fails on it. *)
Inductive number : Type :=
| Real (r : R)
| Complex.

Definition as_real (x : number) : outcome R :=
  match x with
  | Real r => Returns r
  | Complex => Raises TypeError
  end.

(** ** Float primitives *)

Definition Rltb (x y : R) : bool := if Rlt_dec x y then true else false.
Definition Rleb (x y : R) : bool := if Rle_dec x y then true else false.
Definition Reqb (x y : R) : bool := if Req_dec_T x y then true else false.

(** The largest finite double, [(2 - 2^-52) * 2^1023]. *)
Definition DBL_MAX : R := IZR (2 ^ 1024 - 2 ^ 971).

(** [float(n)] for an [int] operand of a mixed operation. *)
Definition float_of_int (n : Z) : outcome R :=
  if Rltb DBL_MAX (Rabs (IZR n)) then Raises OverflowError else Returns (IZR n).

(** [a / b] on floats. *)
Definition truediv (a b : R) : outcome R :=
  if Reqb b 0 then Raises ZeroDivisionError else Returns (a / b).

(** [10 ** y] for a float [y]. *)
Definition pow10 (y : R) : outcome R :=
  if Rltb DBL_MAX (Rpower 10 y) then Raises OverflowError
  else Returns (Rpower 10 y).

(** [n ** 0.8] for an [int] [n]: the base is converted to a float; a negative
    base with a fractional exponent gives a complex number. *)
Definition int_pow_0_8 (n : Z) : outcome number :=
  x ← float_of_int n;
  if Rltb 0 x then
    if Rltb DBL_MAX (Rpower x 0.8) then Raises OverflowError
    else Returns (Real (Rpower x 0.8))
  else if Reqb x 0 then Returns (Real 0)
  else Returns Complex.

Definition math_log10 (x : R) : outcome R :=
  if Rltb 0 x then Returns (ln x / ln 10)
  else Raises (ValueError "math domain error").

(** [math.log10] of an [int]: no conversion overflow, whatever its size. *)
Definition math_log10_int (n : Z) : outcome R :=
  if (0 <? n)%Z then Returns (ln (IZR n) / ln 10)
  else Raises (ValueError "math domain error").

Definition math_log (x : R) : outcome R :=
  if Rltb 0 x then Returns (ln x)
  else Raises (ValueError "math domain error").

Definition math_sqrt (x : R) : outcome R :=
  if Rltb x 0 then Raises (ValueError "math domain error")
  else Returns (sqrt x).

(** The builtins [min(a, b)] and [max(a, b)]: the first argument is kept
    unless the second is strictly smaller (larger). *)
Definition py_min (a b : R) : R := if Rltb b a then b else a.
Definition py_max (a b : R) : R := if Rltb a b then b else a.

(** ** constants.py *)

Definition C_LIGHT : R := 299792458.
Definition K_B : R := 1.380649e-23.

(** [w_to_dbw]: [10 * math.log10(w) if w > 0 else float("-inf")]. *)
Definition W_TO_DBW (w : R) : outcome R :=
  if Rltb 0 w then l ← math_log10 w; mret (10 * l) else NonFinite.

(** ** models/radar/integration.py *)

Definition coherent_integration_gain (n_pulses : Z) : outcome R :=
  if (n_pulses <? 1)%Z then Raises (ValueError "n_pulses must be >= 1")
  else if (n_pulses =? 1)%Z then Returns 0
  else l ← math_log10_int n_pulses; mret (10 * l).

Definition noncoherent_integration_gain (n_pulses : Z) (pd pfa : R) : outcome R :=
  if (n_pulses <? 1)%Z then Raises (ValueError "n_pulses must be >= 1")
  else if (n_pulses =? 1)%Z then Returns 0
  else
    let efficiency :=
      if Rleb 0.99 pd then 0.7
      else if Rleb 0.9 pd then 0.8
      else if Rleb 0.5 pd then 0.85
      else 0.9 in
    l ← math_log10_int n_pulses; mret (10 * efficiency * l).

Definition integration_loss (n_pulses : Z) (integration_type : string)
    (pd pfa : R) : outcome R :=
  if String.eqb integration_type "coherent" then Returns 0
  else
    coherent ← coherent_integration_gain n_pulses;
    noncoherent ← noncoherent_integration_gain n_pulses pd pfa;
    mret (coherent - noncoherent).

(** ** Facts about the float primitives *)

Lemma Rltb_true x y : x < y -> Rltb x y = true.
Proof. intros H. unfold Rltb. destruct (Rlt_dec x y); [reflexivity | contradiction]. Qed.

Lemma Rltb_false x y : y <= x -> Rltb x y = false.
Proof. intros H. unfold Rltb. destruct (Rlt_dec x y); [lra | reflexivity]. Qed.

Lemma Rleb_true x y : x <= y -> Rleb x y = true.
Proof. intros H. unfold Rleb. destruct (Rle_dec x y); [reflexivity | contradiction]. Qed.

Lemma Rleb_false x y : y < x -> Rleb x y = false.
Proof. intros H. unfold Rleb. destruct (Rle_dec x y); [lra | reflexivity]. Qed.

Lemma Reqb_true x y : x = y -> Reqb x y = true.
Proof. intros H. unfold Reqb. destruct (Req_dec_T x y); [reflexivity | contradiction]. Qed.

Lemma Reqb_false x y : x <> y -> Reqb x y = false.
Proof. intros H. unfold Reqb. destruct (Req_dec_T x y); [contradiction | reflexivity]. Qed.

Lemma ln_10_pos : 0 < ln 10.
Proof. rewrite <- ln_1. apply ln_increasing; lra. Qed.

Lemma ln_nonneg x : 1 <= x -> 0 <= ln x.
Proof.
  intros [H | <-].
  - left. rewrite <- ln_1. apply ln_increasing; lra.
  - rewrite ln_1. lra.
Qed.

Lemma log10_int_nonneg (n : Z) : (1 <= n)%Z -> 0 <= ln (IZR n) / ln 10.
Proof.
  intros H. apply Rmult_le_pos.
  - apply ln_nonneg. apply IZR_le in H. exact H.
  - left. apply Rinv_0_lt_compat, ln_10_pos.
Qed.

Lemma py_min_max_unit (x : R) : 0 <= py_max 0 (py_min 1 x) <= 1.
Proof.
  unfold py_max, py_min, Rltb.
  repeat match goal with |- context [Rlt_dec ?a ?b] => destruct (Rlt_dec a b) end; lra.
Qed.

(** ** Integration gains *)

Lemma noncoherent_efficiency_le_1 (pd : R) :
  0 < (if Rleb 0.99 pd then 0.7 else if Rleb 0.9 pd then 0.8
       else if Rleb 0.5 pd then 0.85 else 0.9) <= 1.
Proof.
  destruct (Rleb 0.99 pd); [lra |].
  destruct (Rleb 0.9 pd); [lra |].
  destruct (Rleb 0.5 pd); lra.
Qed.

(** C10: for [n_pulses >= 1] both gains are returned and the non-coherent gain
    does not exceed the coherent gain; [integration_loss] returns 0 for
    coherent integration and a value [>= 0] for non-coherent integration. *)
Theorem noncoherent_gain_le_coherent_gain (n_pulses : Z) (pd pfa : R) :
  (1 <= n_pulses)%Z ->
  (exists g c,
      noncoherent_integration_gain n_pulses pd pfa = Returns g /\
      coherent_integration_gain n_pulses = Returns c /\
      g <= c) /\
  integration_loss n_pulses "coherent" pd pfa = Returns 0 /\
  (exists l, integration_loss n_pulses "noncoherent" pd pfa = Returns l /\ 0 <= l).
Proof.
  intros Hn.
  unfold integration_loss, noncoherent_integration_gain, coherent_integration_gain.
  destruct (Z.ltb_spec n_pulses 1) as [? | _]; [lia |].
  destruct (Z.eqb_spec n_pulses 1) as [-> | Hne]; simpl.
  - split; [exists 0, 0; repeat split; lra |].
    split; [reflexivity |]. exists (0 - 0). split; [reflexivity | lra].
  - unfold math_log10_int. destruct (Z.ltb_spec 0 n_pulses) as [_ | ?]; [| lia].
    pose proof (log10_int_nonneg n_pulses Hn) as Hl.
    pose proof (noncoherent_efficiency_le_1 pd) as He.
    simpl. set (eff := if Rleb 0.99 pd then _ else _) in *.
    set (l := ln (IZR n_pulses) / ln 10) in *.
    assert (10 * eff * l <= 10 * l) by nra.
    split; [eexists _, _; repeat split; assumption |].
    split; [reflexivity |]. eexists. split; [reflexivity | lra].
Qed.

Lemma noncoherent_gain_le_coherent_gain_witness :
  (1 <= 16)%Z /\
  exists l, integration_loss 16 "noncoherent" 0.9 1e-6 = Returns l /\ 0 <= l.
Proof.
  split; [lia |].
  apply (noncoherent_gain_le_coherent_gain 16 0.9 1e-6). lia.
Defined.

(** ** models/radar/detection.py *)

Section Detection.

(** [scipy.special.erfc] and [scipy.special.gammaincinv]. *)
Variable erfc : R -> R.
Variable gammaincinv : R -> R -> R.

Definition compute_detection_threshold (pfa : R) (n_samples : Z) : outcome R :=
  if negb (Rltb 0 pfa && Rltb pfa 1) then
    Raises (ValueError "pfa must be between 0 and 1")
  else if (n_samples <? 1)%Z then Raises (ValueError "n_samples must be >= 1")
  else Returns (gammaincinv (IZR n_samples) (1 - pfa)).

Definition compute_pd_from_snr (snr_db pfa : R) (swerling n_pulses : Z)
    (integration : string) : outcome R :=
  if negb (Rltb 0 pfa && Rltb pfa 1) then
    Raises (ValueError "pfa must be between 0 and 1")
  else
    snr_linear ← pow10 (snr_db / 10);
    snr_integrated ←
      (if String.eqb integration "coherent" then
         n ← float_of_int n_pulses; mret (Real (snr_linear * n))
       else
         p ← int_pow_0_8 n_pulses;
         mret (match p with Real p => Real (snr_linear * p) | Complex => Complex end));
    threshold ← compute_detection_threshold pfa 1;
    if (swerling =? 0)%Z then
      x ← as_real snr_integrated;
      a ← math_sqrt (2 * x);
      b ← math_sqrt (2 * threshold);
      let pd :=
        if Rltb b a then 0.5 * erfc ((b - a) / sqrt 2)
        else 0.5 * erfc ((b - a) / sqrt 2) in
      mret (py_max 0 (py_min 1 pd))
    else if bool_decide (swerling ∈ [1; 2; 3; 4]%Z) then
      x ← as_real snr_integrated;
      let factor :=
        if (swerling =? 1)%Z then (if Rltb 0 x then 1 + 1 / x else 0)
        else if (swerling =? 2)%Z then (if Rltb 0 x then 1 + 0.5 / x else 0)
        else if (swerling =? 3)%Z then (if Rltb 0 x then 1 + 2 / x else 0)
        else (if Rltb 0 x then 1 + 1 / x else 0) in
      let adj_snr := if Rltb 0 factor then x / factor else x in
      a ← math_sqrt (2 * adj_snr);
      b ← math_sqrt (2 * threshold);
      let pd := 0.5 * erfc ((b - a) / sqrt 2) in
      mret (py_max 0 (py_min 1 pd))
    else Raises (ValueError ("Unknown Swerling model: " ++ pretty swerling)).

Definition albersheim_snr (pd pfa : R) (n_pulses : Z) : outcome R :=
  if negb (Rleb 0.1 pd && Rleb pd 0.9999) then
    Raises (ValueError "pd must be between 0.1 and 0.9999 for Albersheim")
  else if negb (Rleb 1e-10 pfa && Rleb pfa 0.1) then
    Raises (ValueError "pfa must be between 1e-10 and 0.1 for Albersheim")
  else if (n_pulses <? 1)%Z then Raises (ValueError "n_pulses must be >= 1")
  else
    q ← truediv 0.62 pfa;
    A ← math_log q;
    r ← truediv pd (1 - pd);
    B ← math_log r;
    l ← math_log10_int n_pulses;
    n ← float_of_int n_pulses;
    s ← math_sqrt (n + 0.44);
    d ← truediv 4.54 s;
    m ← math_log10 (A + 0.12 * A * B + 1.7 * B);
    mret (-5 * l + (6.2 + d) * m).

(** *** The detection probability is clamped to the unit interval *)

Lemma Rpower_pos x y : 0 < Rpower x y.
Proof. unfold Rpower. apply exp_pos. Qed.

Lemma Rpower_0_8_le (x : R) : 1 <= x -> Rpower x 0.8 <= x.
Proof.
  intros Hx. rewrite <- (Rpower_1 x) at 2 by lra.
  apply Rle_Rpower; lra.
Qed.

Lemma float_of_int_in_range (n : Z) :
  (1 <= n)%Z -> IZR n <= DBL_MAX -> float_of_int n = Returns (IZR n).
Proof.
  intros Hn Hmax. unfold float_of_int.
  apply IZR_le in Hn.
  rewrite Rabs_pos_eq by lra. rewrite Rltb_false by lra. reflexivity.
Qed.

Lemma int_pow_0_8_in_range (n : Z) :
  (1 <= n)%Z -> IZR n <= DBL_MAX ->
  int_pow_0_8 n = Returns (Real (Rpower (IZR n) 0.8)).
Proof.
  intros Hn Hmax. unfold int_pow_0_8.
  rewrite float_of_int_in_range by assumption. simpl.
  pose proof (IZR_le _ _ Hn) as Hn'.
  rewrite Rltb_true by lra.
  pose proof (Rpower_0_8_le (IZR n) Hn').
  rewrite Rltb_false by lra. reflexivity.
Qed.

Lemma math_sqrt_nonneg x : 0 <= x -> math_sqrt x = Returns (sqrt x).
Proof. intros H. unfold math_sqrt. rewrite Rltb_false by lra. reflexivity. Qed.

Lemma pfa_check_passes pfa : 0 < pfa < 1 -> negb (Rltb 0 pfa && Rltb pfa 1) = false.
Proof. intros [? ?]. rewrite !Rltb_true by lra. reflexivity. Qed.

Lemma adjusted_snr_nonneg (x f : R) :
  0 <= x -> 0 <= (if Rltb 0 f then x / f else x).
Proof.
  intros Hx. unfold Rltb. destruct (Rlt_dec 0 f) as [Hf | _]; [| lra].
  apply Rmult_le_pos; [lra | left; apply Rinv_0_lt_compat; lra].
Qed.

Hypothesis gammaincinv_nonneg : forall a y, 0 < y < 1 -> 0 <= gammaincinv a y.

Lemma compute_detection_threshold_nonneg pfa :
  0 < pfa < 1 ->
  exists t, compute_detection_threshold pfa 1 = Returns t /\ 0 <= t.
Proof.
  intros Hpfa. unfold compute_detection_threshold.
  rewrite pfa_check_passes by assumption. simpl.
  eexists. split; [reflexivity |]. apply gammaincinv_nonneg. lra.
Qed.

(** C9, as far as it holds: when [10 ** (snr_db / 10)] and [float(n_pulses)]
    stay within the finite floats, [compute_pd_from_snr] returns, and the value
    lies in the closed interval [0, 1], for every [pfa] strictly between 0 and
    1, every Swerling model 0..4, every [n_pulses >= 1] and either integration
    type. *)
Theorem compute_pd_from_snr_unit_interval
    (snr_db pfa : R) (swerling n_pulses : Z) (integration : string) :
  0 < pfa < 1 ->
  (0 <= swerling <= 4)%Z ->
  (1 <= n_pulses)%Z ->
  integration = "coherent" \/ integration = "noncoherent" ->
  Rpower 10 (snr_db / 10) <= DBL_MAX ->
  IZR n_pulses <= DBL_MAX ->
  exists pd,
    compute_pd_from_snr snr_db pfa swerling n_pulses integration = Returns pd /\
    0 <= pd <= 1.
Proof.
  intros Hpfa Hsw Hn Hint Hsnr Hmax.
  unfold compute_pd_from_snr.
  rewrite pfa_check_passes by assumption.
  unfold pow10. rewrite Rltb_false by lra. simpl.
  pose proof (Rpower_pos 10 (snr_db / 10)) as Hlin.
  pose proof (IZR_le _ _ Hn) as Hn'.
  set (lin := Rpower 10 (snr_db / 10)) in *.
  destruct (compute_detection_threshold_nonneg pfa Hpfa) as (t & Ht & Htpos).
  assert (Hx : exists x,
    (if String.eqb integration "coherent"
     then n ← float_of_int n_pulses; mret (Real (lin * n))
     else p ← int_pow_0_8 n_pulses;
          mret (match p with Real p => Real (lin * p) | Complex => Complex end))
    = Returns (Real x) /\ 0 <= x).
  { destruct Hint as [-> | ->]; simpl.
    - rewrite float_of_int_in_range by assumption. simpl.
      eexists. split; [reflexivity | nra].
    - rewrite int_pow_0_8_in_range by assumption. simpl.
      eexists. split; [reflexivity |].
      pose proof (Rpower_pos (IZR n_pulses) 0.8). nra. }
  destruct Hx as (x & -> & Hxpos). simpl.
  rewrite Ht. simpl.
  destruct (Z.eqb_spec swerling 0) as [-> | Hne0]; simpl.
  - rewrite !math_sqrt_nonneg by lra. simpl.
    eexists. split; [reflexivity |]. apply py_min_max_unit.
  - rewrite bool_decide_eq_true_2
      by (rewrite !elem_of_cons; lia).
    simpl.
    match goal with
    | |- context [math_sqrt (2 * (if Rltb 0 ?f then _ else _))] =>
        pose proof (adjusted_snr_nonneg x f Hxpos) as Hadj
    end.
    rewrite !math_sqrt_nonneg by lra. simpl.
    eexists. split; [reflexivity |]. apply py_min_max_unit.
Qed.

(** The call made by the radar model: a single pulse, Swerling 0. *)
Lemma compute_pd_from_snr_single_pulse (snr_db pfa : R) :
  0 < pfa < 1 ->
  Rpower 10 (snr_db / 10) <= DBL_MAX ->
  exists pd, compute_pd_from_snr snr_db pfa 0 1 "coherent" = Returns pd.
Proof.
  intros Hpfa Hsnr. unfold compute_pd_from_snr.
  rewrite pfa_check_passes by assumption.
  unfold pow10. rewrite Rltb_false by lra. simpl.
  pose proof (Rpower_pos 10 (snr_db / 10)) as Hlin.
  unfold float_of_int. rewrite Rabs_pos_eq by lra.
  rewrite Rltb_false by (unfold DBL_MAX; apply IZR_le; vm_compute; discriminate).
  simpl.
  destruct (compute_detection_threshold_nonneg pfa Hpfa) as (t & -> & Htpos). simpl.
  rewrite !math_sqrt_nonneg by lra. simpl.
  eexists. reflexivity.
Qed.

(** When [10 ** (snr_db / 10)] overflows, the call raises [OverflowError]. *)
Lemma compute_pd_from_snr_overflow
    (snr_db pfa : R) (swerling n_pulses : Z) (integration : string) :
  0 < pfa < 1 ->
  DBL_MAX < Rpower 10 (snr_db / 10) ->
  compute_pd_from_snr snr_db pfa swerling n_pulses integration = Raises OverflowError.
Proof.
  intros Hpfa Hov. unfold compute_pd_from_snr.
  rewrite pfa_check_passes by assumption.
  unfold pow10. rewrite Rltb_true by assumption. reflexivity.
Qed.

End Detection.

(** ** Metrics records *)

(** The values held by a metrics record: numbers and strings. *)
Inductive value : Type :=
| VNum (r : R)
| VStr (s : string).

Abbreviation MetricsDict := (gmap string value).

(** [d.update(e)]: the entries of [e] replace those of [d]. *)
Definition dict_update (d e : MetricsDict) : MetricsDict := e ∪ d.

(** [a - b] on two values of a record. *)
Definition value_sub (a b : value) : outcome value :=
  match a, b with
  | VNum x, VNum y => Returns (VNum (x - y))
  | _, _ => Raises TypeError
  end.

(** A value used as an operand of float arithmetic. *)
Definition value_as_float (v : value) : outcome R :=
  match v with
  | VNum x => Returns x
  | VStr _ => Raises TypeError
  end.

(** ** Designs and scenarios *)

(** The fields of [Architecture] that the embedded sources read.
    [n_elements] is a property of the array configuration. *)
Record ArrayConfig : Type := {
  nx : Z;
  ny : Z;
  dx_lambda : R;
  dy_lambda : R;
  n_elements : Z
}.

Record RFChainConfig : Type := {
  tx_power_w_per_elem : R;
  pa_efficiency : R;
  feed_loss_db : R;
  system_loss_db : R;
  noise_figure_db : R
}.

Record CostConfig : Type := {
  cost_per_elem_usd : R
}.

Record Architecture : Type := {
  array : ArrayConfig;
  rf : RFChainConfig;
  cost : CostConfig
}.

(** scenarios/radar.py *)
Record RadarDetectionScenario : Type := {
  freq_hz : R;
  bandwidth_hz : R;
  range_m : R;
  target_rcs_dbsm : R;
  rx_noise_temp_k : R;
  pfa : R;
  pd_required : R;
  n_pulses : Z;
  scan_angle_deg : R;
  integration_type : string
}.

(** The field validators of [RadarDetectionScenario]; [freq_hz] is declared by
    the base class, a frequency, taken to be positive. *)
Definition RadarDetectionScenario_valid (s : RadarDetectionScenario) : bool :=
  Rltb 0 (freq_hz s)
  && Rltb 0 (bandwidth_hz s)
  && Rltb 0 (range_m s)
  && Rltb 0 (rx_noise_temp_k s)
  && (Rltb 0 (pfa s) && Rltb (pfa s) 1)
  && (Rltb 0 (pd_required s) && Rltb (pd_required s) 1)
  && (1 <=? n_pulses s)%Z
  && (Rleb 0 (scan_angle_deg s) && Rleb (scan_angle_deg s) 90)
  && bool_decide (integration_type s ∈ ["coherent"; "noncoherent"]).

Module CommsLink.

(** The constructor arguments of [CommsLinkScenario] in
    [app/pages/2_Trade_Study.py]. *)
Record CommsLinkScenario : Type := {
  freq_hz : R;
  bandwidth_hz : R;
  range_m : R;
  required_snr_db : R
}.

End CommsLink.

(** A scenario is one of the two variants. *)
Inductive Scenario : Type :=
| CommsLinkScenario (s : CommsLink.CommsLinkScenario)
| RadarScenario (s : RadarDetectionScenario).

(** ** The Python world: dict objects, the clock, and a trace *)

Inductive model : Type := Antenna | Power | Cost | Comms | Radar.

#[global] Instance model_eq_dec : EqDecision model.
Proof. solve_decision. Defined.

(** The trace records each call of a model's [evaluate] with the content of
    the context it was given and its outcome, and each run of the
    verification with the record it was given. *)
Inductive event : Type :=
| Evaluate (m : model) (context : MetricsDict) (result : outcome MetricsDict)
| Verify (metrics : MetricsDict).

Definition loc := nat.

Record World : Type := mkWorld {
  heap : list MetricsDict;   (* the dict objects that models are handed *)
  readings : nat;            (* readings of the clock taken so far *)
  trace : list event
}.

(** A computation may read and change the world. *)
Definition Py (A : Type) : Type := World -> outcome A * World.

#[global] Instance Py_ret : MRet Py := fun A a w => (Returns a, w).

#[global] Instance Py_bind : MBind Py := fun A B f m w =>
  match m w with
  | (Returns a, w') => f a w'
  | (Raises e, w') => (Raises e, w')
  | (NonFinite, w') => (NonFinite, w')
  end.

(** A computation that does not touch the world. *)
Definition lift {A} (o : outcome A) : Py A := fun w => (o, w).

(** [dict(d)] and the literal [{}]: a new dict object. *)
Definition new_dict (d : MetricsDict) : Py loc := fun w =>
  (Returns (length (heap w)),
   mkWorld (heap w ++ [d]) (readings w) (trace w)).

(** [key in d] *)
Definition dict_contains (d : loc) (key : string) : Py bool := fun w =>
  (Returns (bool_decide (is_Some ((heap w !!! d) !! key))), w).

(** [d[key]] *)
Definition dict_getitem (d : loc) (key : string) : Py value := fun w =>
  match (heap w !!! d) !! key with
  | Some v => (Returns v, w)
  | None => (Raises (KeyError key), w)
  end.

(** The content of a dict object. *)
Definition dict_content (d : loc) : Py MetricsDict := fun w =>
  (Returns (heap w !!! d), w).

Definition log (e : event) : Py unit := fun w =>
  (Returns tt, mkWorld (heap w) (readings w) (trace w ++ [e])).

(** ** models/radar/equation.py *)

Section RadarModel.

Variable erfc : R -> R.
Variable gammaincinv : R -> R -> R.

Definition RadarModel_evaluate (arch : Architecture)
    (scenario : RadarDetectionScenario) (context : loc) : Py MetricsDict :=
  has_gain ← dict_contains context "g_peak_db";
  g_ant_db ←
    (if has_gain : bool then
       g_ant_db ← dict_getitem context "g_peak_db";
       has_loss ← dict_contains context "scan_loss_db";
       if has_loss : bool then
         scan_loss_db ← dict_getitem context "scan_loss_db";
         lift (value_sub g_ant_db scan_loss_db)
       else mret g_ant_db
     else
       lift (
         nx_f ← float_of_int (nx (array arch));
         ny_f ← float_of_int (ny (array arch));
         let aperture_lambda_sq :=
           nx_f * dx_lambda (array arch) * ny_f * dy_lambda (array arch) in
         let g_ant_linear := 4 * PI * aperture_lambda_sq in
         l ← math_log10 g_ant_linear;
         mret (VNum (10 * l))));
  lift (
    n_elements_f ← float_of_int (n_elements (array arch));
    let peak_power_w := tx_power_w_per_elem (rf arch) * n_elements_f in
    peak_power_dbw ← W_TO_DBW peak_power_w;
    wavelength_m ← truediv C_LIGHT (freq_hz scenario);
    wavelength_db ← (l ← math_log10 wavelength_m; mret (10 * l));
    let system_loss_db := feed_loss_db (rf arch) + system_loss_db (rf arch) in
    let rcs_dbsm := target_rcs_dbsm scenario in
    rcs_m2 ← pow10 (rcs_dbsm / 10);
    let range_m := range_m scenario in
    range_db ← (l ← math_log10 range_m; mret (10 * l));
    let noise_temp_k := rx_noise_temp_k scenario in
    let noise_power_w := K_B * noise_temp_k * bandwidth_hz scenario in
    noise_power_dbw ←
      (n ← W_TO_DBW noise_power_w; mret (n + noise_figure_db (rf arch)));
    radar_constant_db ← (l ← math_log10 (4 * PI); mret (30 * l));
    g ← value_as_float g_ant_db;
    let snr_single_db :=
      peak_power_dbw + 2 * g + 2 * wavelength_db + rcs_dbsm
      - 4 * range_db - system_loss_db - radar_constant_db - noise_power_dbw in
    let n_pulses := n_pulses scenario in
    integration_gain_db ←
      (if String.eqb (integration_type scenario) "coherent" then
         coherent_integration_gain n_pulses
       else
         noncoherent_integration_gain n_pulses (pd_required scenario) (pfa scenario));
    let snr_integrated_db := snr_single_db + integration_gain_db in
    snr_required_db ← albersheim_snr (pd_required scenario) (pfa scenario) 1;
    let snr_margin_db := snr_integrated_db - snr_required_db in
    pd_achieved ←
      compute_pd_from_snr erfc gammaincinv snr_integrated_db (pfa scenario)
        0 1 "coherent";
    detection_range_m ←
      (if Rltb (-40) snr_margin_db then
         p ← pow10 (snr_margin_db / 40); mret (range_m * p)
       else mret 0);
    mret (list_to_map [
      ("peak_power_w", VNum peak_power_w);
      ("peak_power_dbw", VNum peak_power_dbw);
      ("g_ant_db", VNum g);
      ("wavelength_m", VNum wavelength_m);
      ("target_rcs_dbsm", VNum rcs_dbsm);
      ("target_rcs_m2", VNum rcs_m2);
      ("range_m", VNum range_m);
      ("noise_power_dbw", VNum noise_power_dbw);
      ("system_loss_db", VNum system_loss_db);
      ("snr_single_pulse_db", VNum snr_single_db);
      ("integration_gain_db", VNum integration_gain_db);
      ("snr_integrated_db", VNum snr_integrated_db);
      ("snr_required_db", VNum snr_required_db);
      ("snr_margin_db", VNum snr_margin_db);
      ("pd_achieved", VNum pd_achieved);
      ("pd_required", VNum (pd_required scenario));
      ("pfa", VNum (pfa scenario));
      ("n_pulses", VNum (IZR n_pulses));
      ("integration_type", VStr (integration_type scenario));
      ("detection_range_m", VNum detection_range_m)
    ] : MetricsDict)).

End RadarModel.

(** *** The radar model reads its context and changes nothing *)

(** [reads_as context c f]: the computation [c] leaves the world as it found
    it, and its outcome is [f] of the content of the dict [context]. *)
Definition reads_as {A} (context : loc) (c : Py A)
    (f : MetricsDict -> outcome A) : Prop :=
  forall w, c w = (f (heap w !!! context), w).

Lemma reads_as_ret {A} context (a : A) :
  reads_as context (mret a) (fun _ => Returns a).
Proof. intros w. reflexivity. Qed.

Lemma reads_as_lift {A} context (o : outcome A) :
  reads_as context (lift o) (fun _ => o).
Proof. intros w. reflexivity. Qed.

Lemma reads_as_contains context key :
  reads_as context (dict_contains context key)
    (fun d => Returns (bool_decide (is_Some (d !! key)))).
Proof. intros w. reflexivity. Qed.

Lemma reads_as_getitem context key :
  reads_as context (dict_getitem context key)
    (fun d => match d !! key with
              | Some v => Returns v
              | None => Raises (KeyError key)
              end).
Proof. intros w. unfold dict_getitem. destruct (_ !! key); reflexivity. Qed.

Lemma reads_as_bind {A B} context (c : Py A) (k : A -> Py B) f g :
  reads_as context c f ->
  (forall a, reads_as context (k a) (g a)) ->
  reads_as context (c ≫= k) (fun d => f d ≫= fun a => g a d).
Proof.
  intros Hc Hk w. unfold mbind at 1, Py_bind. rewrite Hc.
  destruct (f (heap w !!! context)) as [a | e |]; simpl; [apply Hk | reflexivity ..].
Qed.

Lemma reads_as_if {A} context (b : bool) (c1 c2 : Py A) f1 f2 :
  reads_as context c1 f1 ->
  reads_as context c2 f2 ->
  reads_as context (if b then c1 else c2) (fun d => if b then f1 d else f2 d).
Proof. intros H1 H2. destruct b; assumption. Qed.

Section RadarModelPurity.

Variable erfc : R -> R.
Variable gammaincinv : R -> R -> R.

Definition RadarModel_result (arch : Architecture)
    (scenario : RadarDetectionScenario) (context : MetricsDict)
    : outcome MetricsDict :=
  fst (RadarModel_evaluate erfc gammaincinv arch scenario 0%nat
         (mkWorld [context] 0 [])).

Lemma RadarModel_evaluate_reads arch scenario :
  exists f, forall context,
    reads_as context (RadarModel_evaluate erfc gammaincinv arch scenario context) f.
Proof.
  eexists. intros context. unfold RadarModel_evaluate.
  repeat first
    [ apply reads_as_contains | apply reads_as_getitem
    | exact (reads_as_lift _ _) | exact (reads_as_ret _ _)
    | apply reads_as_if
    | eapply reads_as_bind; [| intros ?] ].
Qed.

Lemma RadarModel_evaluate_run arch scenario (context : loc) (w : World) :
  RadarModel_evaluate erfc gammaincinv arch scenario context w
  = (RadarModel_result arch scenario (heap w !!! context), w).
Proof.
  destruct (RadarModel_evaluate_reads arch scenario) as [f Hf].
  unfold RadarModel_result. rewrite !Hf. reflexivity.
Qed.

End RadarModelPurity.

(** ** evaluate.py *)

(** A requirement and the report of a verification (data model of the
    requirements package). *)
Inductive severity : Type := Must | Should.

Inductive comparison_op : Type := OpGe | OpLe | OpGt | OpLt | OpEq.

Record Requirement : Type := {
  req_id : string;
  req_name : string;
  req_metric_key : string;
  req_op : comparison_op;
  req_threshold : R;
  req_severity : severity
}.

Abbreviation RequirementSet := (list Requirement).

Record VerificationReport : Type := {
  passes : bool;
  must_pass_count : nat;
  must_total_count : nat;
  failed_ids : list string
}.

Section EvaluateCase.

Variable erfc : R -> R.
Variable gammaincinv : R -> R -> R.

(** [time.perf_counter()]: the value of the n-th reading of the clock. *)
Variable clock : nat -> R.

(** The [evaluate] methods of the antenna adapter and of the power, cost and
    communications-link models, and [RequirementSet.verify]. *)
Variable antenna_model : Architecture -> Scenario -> MetricsDict -> outcome MetricsDict.
Variable power_model : Architecture -> Scenario -> MetricsDict -> outcome MetricsDict.
Variable cost_model : Architecture -> Scenario -> MetricsDict -> outcome MetricsDict.
Variable comms_model :
  Architecture -> CommsLink.CommsLinkScenario -> MetricsDict -> outcome MetricsDict.
Variable verify : RequirementSet -> MetricsDict -> VerificationReport.

Definition perf_counter : Py R := fun w =>
  (Returns (clock (readings w)),
   mkWorld (heap w) (S (readings w)) (trace w)).

(** Modelled from the spec: the models whose sources are not embedded follow
    the contract "[evaluate(design, scenario, context) -> mapping], pure,
    side-effect-free, deterministic": a call reads the context and returns or
    raises. *)
Definition pure_evaluate {S} (f : Architecture -> S -> MetricsDict -> outcome MetricsDict)
    (arch : Architecture) (scenario : S) (context : loc) : Py MetricsDict :=
  d ← dict_content context;
  lift (f arch scenario d).

(** A call [m.evaluate(arch, scenario, context)], entered in the trace. *)
Definition call (m : model) (context : loc) (evaluate : loc -> Py MetricsDict)
    : Py MetricsDict := fun w =>
  let (result, w') := evaluate context w in
  (result,
   mkWorld (heap w') (readings w')
     (trace w' ++ [Evaluate m (heap w !!! context) result])).

(** [requirements.verify(metrics)] *)
Definition requirements_verify (requirements : RequirementSet)
    (metrics : MetricsDict) : Py VerificationReport :=
  _ ← log (Verify metrics);
  mret (verify requirements metrics).

Definition evaluate_case (arch : Architecture) (scenario : Scenario)
    (requirements : option RequirementSet) (case_id : option string)
    : Py MetricsDict :=
  start_time ← perf_counter;
  let metrics : MetricsDict := ∅ in
  let metrics :=
    match case_id with
    | Some case_id => <["meta.case_id" := VStr case_id]> metrics
    | None => metrics
    end in
  empty ← new_dict ∅;
  antenna_metrics ← call Antenna empty (pure_evaluate antenna_model arch scenario);
  let metrics := dict_update metrics antenna_metrics in
  context ← new_dict antenna_metrics;
  power_metrics ← call Power context (pure_evaluate power_model arch scenario);
  let metrics := dict_update metrics power_metrics in
  cost_metrics ← call Cost context (pure_evaluate cost_model arch scenario);
  let metrics := dict_update metrics cost_metrics in
  metrics ←
    match scenario with
    | CommsLinkScenario s =>
        comms_metrics ← call Comms context (pure_evaluate comms_model arch s);
        mret (dict_update metrics comms_metrics)
    | RadarScenario s =>
        radar_metrics ←
          call Radar context (RadarModel_evaluate erfc gammaincinv arch s);
        mret (dict_update metrics radar_metrics)
    end;
  metrics ←
    match requirements with
    | Some requirements =>
        if (0 <? length requirements)%nat then
          report ← requirements_verify requirements metrics;
          let metrics :=
            <["verification.passes" := VNum (if passes report then 1 else 0)]> metrics in
          let metrics :=
            <["verification.must_pass_count" := VNum (INR (must_pass_count report))]>
              metrics in
          let metrics :=
            <["verification.must_total_count" := VNum (INR (must_total_count report))]>
              metrics in
          let metrics :=
            <["verification.failed_ids" :=
                VStr (match failed_ids report with
                      | [] => ""
                      | ids => String.concat "," ids
                      end)]> metrics in
          mret metrics
        else mret metrics
    | None => mret metrics
    end;
  end_time ← perf_counter;
  let elapsed := end_time - start_time in
  mret (<["meta.runtime_s" := VNum elapsed]> metrics).

Definition evaluate_case_with_report (arch : Architecture) (scenario : Scenario)
    (requirements : RequirementSet) (case_id : option string)
    : Py (MetricsDict * VerificationReport) :=
  metrics ← evaluate_case arch scenario (Some requirements) case_id;
  report ← requirements_verify requirements metrics;
  mret (metrics, report).

End EvaluateCase.

(** ** Running computations *)

Lemma bind_Returns_inv {A B} (m : outcome A) (k : A -> outcome B) (b : B) :
  m ≫= k = Returns b -> exists a, m = Returns a /\ k a = Returns b.
Proof. destruct m as [a | e |]; simpl; intros H; [eauto | discriminate ..]. Qed.

Lemma mret_Returns_inv {A} (a b : A) : mret a = Returns b -> a = b.
Proof. intros H. injection H as H. exact H. Qed.

Lemma run_bind_contains {B} d key (k : bool -> Py B) w :
  (dict_contains d key ≫= k) w = k (bool_decide (is_Some ((heap w !!! d) !! key))) w.
Proof. reflexivity. Qed.

Lemma run_bind_getitem {B} d key (k : value -> Py B) w :
  (dict_getitem d key ≫= k) w =
    match (heap w !!! d) !! key with
    | Some v => k v w
    | None => (Raises (KeyError key), w)
    end.
Proof. unfold mbind, Py_bind, dict_getitem. destruct (_ !! key); reflexivity. Qed.

Lemma run_bind_lift {A B} (o : outcome A) (k : A -> Py B) w :
  (lift o ≫= k) w =
    match o with
    | Returns a => k a w
    | Raises e => (Raises e, w)
    | NonFinite => (NonFinite, w)
    end.
Proof. unfold mbind, Py_bind, lift. destruct o; reflexivity. Qed.

Lemma run_bind_ret {A B} (a : A) (k : A -> Py B) w : (mret a ≫= k) w = k a w.
Proof. reflexivity. Qed.

Lemma run_bind_assoc {A B C} (c : Py A) (k1 : A -> Py B) (k2 : B -> Py C) w :
  ((c ≫= k1) ≫= k2) w = (c ≫= fun a => k1 a ≫= k2) w.
Proof.
  unfold mbind, Py_bind. destruct (c w) as [[a | e |] w']; reflexivity.
Qed.

(** *** The antenna gain used by the radar equation *)

Section RadarGain.
Variable erfc : R -> R.
Variable gammaincinv : R -> R -> R.

Lemma RadarModel_result_gain arch scenario (context m : MetricsDict) :
  RadarModel_result erfc gammaincinv arch scenario context = Returns m ->
  forall g, context !! "g_peak_db" = Some (VNum g) ->
  m !! "g_ant_db" =
    match context !! "scan_loss_db" with
    | None => Some (VNum g)
    | Some (VNum s) => Some (VNum (g - s))
    | Some (VStr _) => None
    end.
Proof.
  intros Hm g Hg.
  unfold RadarModel_result, RadarModel_evaluate in Hm.
  destruct (context !! "scan_loss_db") as [[s | s] |] eqn:Hs.
  all: repeat (first [ rewrite run_bind_assoc in Hm | rewrite run_bind_contains in Hm
               | rewrite run_bind_getitem in Hm | rewrite run_bind_lift in Hm
               | rewrite run_bind_ret in Hm ];
          cbn [heap] in Hm;
          change ([context] !!! 0%nat) with context in Hm;
          rewrite ?Hg, ?Hs in Hm;
          rewrite ?bool_decide_eq_true_2 in Hm by eauto;
          rewrite ?bool_decide_eq_false_2 in Hm by (intros [? ?]; discriminate);
          cbn [value_sub] in Hm).
  all: unfold lift in Hm; cbn [fst] in Hm.
  all: try discriminate.
  all: repeat (apply bind_Returns_inv in Hm as (? & ? & Hm)).
  all: cbn [value_as_float] in *.
  all: apply mret_Returns_inv in Hm; subst m.
  all: match goal with H : Returns _ = Returns _ |- _ => injection H as <- end.
  all: reflexivity.
Qed.
End RadarGain.

(** ** The evaluation pipeline *)

Lemma lookup_total_app_length (h : list MetricsDict) d rest :
  (h ++ d :: rest)%list !!! length h = d.
Proof.
  apply list_lookup_total_correct.
  rewrite lookup_app_r by lia. rewrite Nat.sub_diag. reflexivity.
Qed.

(** The scenario-specific model of a scenario, and the order of the calls of
    one evaluation. *)
Definition scenario_model (scenario : Scenario) : model :=
  match scenario with
  | CommsLinkScenario _ => Comms
  | RadarScenario _ => Radar
  end.

Definition pipeline_order (scenario : Scenario) : list model :=
  [Antenna; Power; Cost; scenario_model scenario].

(** The models called in a trace, in order. *)
Definition calls (t : list event) : list model :=
  omap (fun e => match e with Evaluate m _ _ => Some m | Verify _ => None end) t.

Definition returned {A} (o : outcome A) : Prop := exists a, o = Returns a.

Section EvaluateCaseProperties.

Variable erfc : R -> R.
Variable gammaincinv : R -> R -> R.
Variable clock : nat -> R.
Variable antenna_model : Architecture -> Scenario -> MetricsDict -> outcome MetricsDict.
Variable power_model : Architecture -> Scenario -> MetricsDict -> outcome MetricsDict.
Variable cost_model : Architecture -> Scenario -> MetricsDict -> outcome MetricsDict.
Variable comms_model :
  Architecture -> CommsLink.CommsLinkScenario -> MetricsDict -> outcome MetricsDict.
Variable verify : RequirementSet -> MetricsDict -> VerificationReport.

(** The outcome of the scenario-specific model on a context. *)
Definition scenario_result (arch : Architecture) (scenario : Scenario)
    (context : MetricsDict) : outcome MetricsDict :=
  match scenario with
  | CommsLinkScenario s => comms_model arch s context
  | RadarScenario s => RadarModel_result erfc gammaincinv arch s context
  end.

Lemma run_bind_perf_counter {B} (k : R -> Py B) w :
  (perf_counter clock ≫= k) w =
  k (clock (readings w)) (mkWorld (heap w) (S (readings w)) (trace w)).
Proof. reflexivity. Qed.

Lemma run_bind_new_dict {B} d (k : loc -> Py B) w :
  (new_dict d ≫= k) w =
  k (length (heap w)) (mkWorld (heap w ++ [d]) (readings w) (trace w)).
Proof. reflexivity. Qed.

Lemma run_bind_log {B} e (k : unit -> Py B) w :
  (log e ≫= k) w = k tt (mkWorld (heap w) (readings w) (trace w ++ [e])).
Proof. reflexivity. Qed.

Lemma run_bind {A B} (c : Py A) (k : A -> Py B) w :
  (c ≫= k) w =
    match c w with
    | (Returns a, w') => k a w'
    | (Raises e, w') => (Raises e, w')
    | (NonFinite, w') => (NonFinite, w')
    end.
Proof. reflexivity. Qed.

Lemma run_call_pure {S} m context
    (f : Architecture -> S -> MetricsDict -> outcome MetricsDict) arch scenario w :
  call m context (pure_evaluate f arch scenario) w =
  (f arch scenario (heap w !!! context),
   mkWorld (heap w) (readings w)
     (trace w ++ [Evaluate m (heap w !!! context)
                    (f arch scenario (heap w !!! context))])).
Proof. reflexivity. Qed.

Lemma run_call_radar context arch scenario w :
  call Radar context (RadarModel_evaluate erfc gammaincinv arch scenario) w =
  (RadarModel_result erfc gammaincinv arch scenario (heap w !!! context),
   mkWorld (heap w) (readings w)
     (trace w ++ [Evaluate Radar (heap w !!! context)
                    (RadarModel_result erfc gammaincinv arch scenario
                       (heap w !!! context))])).
Proof. unfold call. rewrite RadarModel_evaluate_run. reflexivity. Qed.

(** The call of the scenario-specific model, for either variant. *)
Lemma run_scenario_call {B} arch scenario context (metrics : MetricsDict)
    (k : MetricsDict -> Py B) w :
  (match scenario with
   | CommsLinkScenario s =>
       comms_metrics ← call Comms context (pure_evaluate comms_model arch s);
       mret (dict_update metrics comms_metrics)
   | RadarScenario s =>
       radar_metrics ←
         call Radar context (RadarModel_evaluate erfc gammaincinv arch s);
       mret (dict_update metrics radar_metrics)
   end ≫= k) w =
  let result := scenario_result arch scenario (heap w !!! context) in
  let w' := mkWorld (heap w) (readings w)
              (trace w ++ [Evaluate (scenario_model scenario) (heap w !!! context) result]) in
  match result with
  | Returns sm => k (dict_update metrics sm) w'
  | Raises e => (Raises e, w')
  | NonFinite => (NonFinite, w')
  end.
Proof.
  destruct scenario as [s | s]; cbn [scenario_result scenario_model];
    rewrite run_bind_assoc, run_bind;
    [rewrite run_call_pure | rewrite run_call_radar];
    match goal with |- context [match ?o with _ => _ end] => destruct o end;
    reflexivity.
Qed.

Ltac run_step :=
  first
    [ rewrite run_bind_perf_counter
    | rewrite run_bind_new_dict
    | rewrite run_bind_log
    | rewrite run_bind_ret
    | rewrite run_scenario_call
    | rewrite run_bind_assoc
    | rewrite run_bind; rewrite run_call_pure ];
  cbn [heap readings trace fst snd];
  rewrite ?lookup_total_app_length.

Ltac destruct_outcome f :=
  match goal with
  | |- context [f ?a ?s ?c] => destruct (f a s c) as [? | ? |] eqn:?
  end.

(** Runs [evaluate_case] up to the end: one goal per way the run can go, with
    the outcomes of the models in the context. *)
Ltac run_evaluate_case_with split_requirements :=
  unfold evaluate_case;
  do 3 run_step;
  destruct_outcome antenna_model;
  [ do 2 run_step;
    destruct_outcome power_model;
    [ run_step;
      destruct_outcome cost_model;
      [ run_step; cbv zeta;
        destruct_outcome scenario_result;
        [ split_requirements; cbn [length Nat.ltb Nat.leb];
          unfold requirements_verify; repeat run_step
        | .. ]
      | .. ]
    | .. ]
  | .. ];
  unfold mret, Py_ret; cbn [fst snd trace]; rewrite <- ?app_assoc.

(** Identifies the outcomes found by the run with those assumed. *)
Ltac unify_outcomes :=
  repeat match goal with
  | H1 : ?x = _, H2 : ?x = _ |- _ =>
      rewrite H1 in H2; first [discriminate H2 | injection H2 as <- | clear H2]
  | H : Returns _ = Returns _ |- _ => injection H as <-
  | H : Raises _ = Returns _ |- _ => discriminate H
  | H : NonFinite = Returns _ |- _ => discriminate H
  end.

Ltac run_evaluate_case requirements :=
  run_evaluate_case_with ltac:(destruct requirements as [[| ?rq ?rs] |]).

(** C2: the calls of one evaluation follow the fixed order antenna, power,
    cost, then the one model of the scenario's variant: the models called are
    always a prefix of that order, and all of it when the evaluation returns;
    the antenna model is given an empty context, and every later model the
    antenna model's output. *)
Theorem evaluate_case_model_order arch scenario requirements case_id w :
  exists t,
    trace (snd (evaluate_case erfc gammaincinv clock antenna_model power_model
       cost_model comms_model verify arch scenario requirements case_id w))
      = (trace w ++ t)%list /\
    calls t `prefix_of` pipeline_order scenario /\
    (returned (fst (evaluate_case erfc gammaincinv clock antenna_model power_model
       cost_model comms_model verify arch scenario requirements case_id w)) ->
     calls t = pipeline_order scenario) /\
    Forall (fun e =>
      match e with
      | Evaluate Antenna context _ => context = ∅
      | Evaluate _ context _ => antenna_model arch scenario ∅ = Returns context
      | Verify _ => True
      end) t.
Proof.
  run_evaluate_case requirements.
  all: eexists; split; [reflexivity |]; cbn.
  all: split; [by eexists |].
  all: split; [first [reflexivity | intros [? ?]; discriminate] |].
  all: repeat constructor.
  all: destruct scenario; reflexivity.
Qed.

(** C6: when a model called during an evaluation raises an exception,
    [evaluate_case] raises that same exception: it returns no record. *)
Theorem evaluate_case_propagates_exceptions
    arch scenario requirements case_id w t m context e :
  trace (snd (evaluate_case erfc gammaincinv clock antenna_model power_model
       cost_model comms_model verify arch scenario requirements case_id w))
    = (trace w ++ t)%list ->
  Evaluate m context (Raises e) ∈ t ->
  fst (evaluate_case erfc gammaincinv clock antenna_model power_model
       cost_model comms_model verify arch scenario requirements case_id w) = Raises e.
Proof.
  run_evaluate_case requirements.
  all: intros Ht%app_inv_head; subst t; cbn.
  all: rewrite ?elem_of_cons, elem_of_nil.
  all: intros Hin; repeat destruct Hin as [Hin | Hin]; try discriminate; try contradiction.
  all: congruence.
Qed.

Lemma evaluate_case_returns
    arch scenario requirements case_id w am pm cm sm :
  antenna_model arch scenario ∅ = Returns am ->
  power_model arch scenario am = Returns pm ->
  cost_model arch scenario am = Returns cm ->
  scenario_result arch scenario am = Returns sm ->
  returned (fst (evaluate_case erfc gammaincinv clock antenna_model power_model
       cost_model comms_model verify arch scenario requirements case_id w)).
Proof.
  intros Hantenna Hpower Hcost Hscenario.
  run_evaluate_case requirements.
  all: unify_outcomes.
  all: eexists; reflexivity.
Qed.

(** Without requirements, or with an empty requirement set, the record is the
    merge of the model outputs and the run time. *)
Lemma evaluate_case_returns_unverified
    arch scenario requirements case_id w am pm cm sm :
  requirements = None \/ requirements = Some [] ->
  antenna_model arch scenario ∅ = Returns am ->
  power_model arch scenario am = Returns pm ->
  cost_model arch scenario am = Returns cm ->
  scenario_result arch scenario am = Returns sm ->
  fst (evaluate_case erfc gammaincinv clock antenna_model power_model
       cost_model comms_model verify arch scenario requirements case_id w) =
  Returns (<["meta.runtime_s" := VNum (clock (S (readings w)) - clock (readings w))]>
             (sm ∪ (cm ∪ (pm ∪ (am ∪
                match case_id with
                | Some case_id => <["meta.case_id" := VStr case_id]> ∅
                | None => ∅
                end))))).
Proof.
  intros Hreq Hantenna Hpower Hcost Hscenario.
  run_evaluate_case requirements.
  all: unify_outcomes.
  all: destruct Hreq; try discriminate.
  all: reflexivity.
Qed.

(** C1, as the code has it: the merge is [dict.update].  When every model
    returns, the evaluation returns, whatever keys the models produce; a key
    produced by several models holds the value of the last model that
    produced it ([∪] keeps the entry of its left operand), and no conflict
    error is raised. *)
Theorem evaluate_case_merge_overwrites
    arch scenario requirements case_id w am pm cm sm :
  antenna_model arch scenario ∅ = Returns am ->
  power_model arch scenario am = Returns pm ->
  cost_model arch scenario am = Returns cm ->
  scenario_result arch scenario am = Returns sm ->
  exists m,
    fst (evaluate_case erfc gammaincinv clock antenna_model power_model
       cost_model comms_model verify arch scenario requirements case_id w) = Returns m /\
    forall key,
      key ∉ ["verification.passes"; "verification.must_pass_count";
             "verification.must_total_count"; "verification.failed_ids";
             "meta.runtime_s"] ->
      m !! key =
        (sm ∪ (cm ∪ (pm ∪ (am ∪
           match case_id with
           | Some case_id => <["meta.case_id" := VStr case_id]> ∅
           | None => ∅
           end)))) !! key.
Proof.
  intros Hantenna Hpower Hcost Hscenario.
  run_evaluate_case requirements.
  all: unify_outcomes.
  all: eexists; split; [reflexivity |].
  all: intros key Hkey; rewrite !not_elem_of_cons in Hkey.
  all: rewrite ?lookup_insert_ne by (intros <-; tauto).
  all: reflexivity.
Qed.

(** C5, as the code has it: with a non-empty requirement set, an evaluation
    that returns has called the four models and then run the verification,
    on the record merged from their outputs; the returned record is that
    record with the four [verification.*] entries of the report and the run
    time added. *)
Theorem evaluate_case_verification arch scenario rs case_id w m :
  rs <> [] ->
  fst (evaluate_case erfc gammaincinv clock antenna_model power_model
       cost_model comms_model verify arch scenario (Some rs) case_id w) = Returns m ->
  exists am pm cm sm metrics elapsed,
    trace (snd (evaluate_case erfc gammaincinv clock antenna_model power_model
       cost_model comms_model verify arch scenario (Some rs) case_id w))
      = (trace w ++
         [Evaluate Antenna ∅ (Returns am);
          Evaluate Power am (Returns pm);
          Evaluate Cost am (Returns cm);
          Evaluate (scenario_model scenario) am (Returns sm);
          Verify metrics])%list /\
    metrics =
      sm ∪ (cm ∪ (pm ∪ (am ∪
        match case_id with
        | Some case_id => <["meta.case_id" := VStr case_id]> ∅
        | None => ∅
        end))) /\
    m = <["meta.runtime_s" := VNum elapsed]>
          (<["verification.failed_ids" :=
               VStr (match failed_ids (verify rs metrics) with
                     | [] => ""
                     | ids => String.concat "," ids
                     end)]>
          (<["verification.must_total_count" :=
               VNum (INR (must_total_count (verify rs metrics)))]>
          (<["verification.must_pass_count" :=
               VNum (INR (must_pass_count (verify rs metrics)))]>
          (<["verification.passes" :=
               VNum (if passes (verify rs metrics) then 1 else 0)]> metrics)))).
Proof.
  intros Hrs. destruct rs as [| rq rs]; [contradiction |]. clear Hrs.
  run_evaluate_case_with idtac.
  all: intros Hm; unify_outcomes.
  eexists _, _, _, _, _, _. split; [reflexivity |].
  split; reflexivity.
Qed.

(** C4, as the code has it: when the antenna output holds a numeric
    [g_peak_db] and no [scan_loss_db], the returned record holds that very
    value as [g_ant_db]; when it holds a scan loss too, [g_ant_db] is the
    peak gain less the scan loss. *)
Theorem evaluate_case_radar_gain arch s requirements case_id w am m g :
  antenna_model arch (RadarScenario s) ∅ = Returns am ->
  am !! "g_peak_db" = Some (VNum g) ->
  fst (evaluate_case erfc gammaincinv clock antenna_model power_model
       cost_model comms_model verify arch (RadarScenario s) requirements case_id w) = Returns m ->
  (am !! "scan_loss_db" = None -> m !! "g_ant_db" = Some (VNum g)) /\
  (forall l, am !! "scan_loss_db" = Some (VNum l) ->
             m !! "g_ant_db" = Some (VNum (g - l))).
Proof.
  remember (RadarScenario s) as scenario eqn:Hs.
  intros Hantenna Hg.
  run_evaluate_case requirements.
  all: intros Hm; unify_outcomes; subst scenario.
  all: rewrite ?lookup_insert_ne by done.
  all: unfold dict_update.
  all: match goal with H : scenario_result _ _ _ = Returns ?sm |- _ =>
         cbn [scenario_result] in H;
         pose proof (RadarModel_result_gain _ _ _ _ _ _ H _ ltac:(eassumption)) as Hgain
       end.
  all: split; [intros Hl | intros l Hl]; rewrite Hl in Hgain.
  all: erewrite lookup_union_Some_l by exact Hgain; reflexivity.
Qed.

Lemma evaluate_case_scenario_raises
    arch scenario requirements case_id w am pm cm e :
  antenna_model arch scenario ∅ = Returns am ->
  power_model arch scenario am = Returns pm ->
  cost_model arch scenario am = Returns cm ->
  scenario_result arch scenario am = Raises e ->
  fst (evaluate_case erfc gammaincinv clock antenna_model power_model
       cost_model comms_model verify arch scenario requirements case_id w) = Raises e.
Proof.
  intros Hantenna Hpower Hcost Hscenario.
  run_evaluate_case requirements.
  all: unify_outcomes.
  all: congruence.
Qed.

(** *** The run time, and the report of evaluate_case_with_report *)

(** X1: [meta.runtime_s] is written last: the record of an evaluation that
    returns holds, under that key, the difference between the last and the
    first reading of the clock, whatever the models and the verification
    wrote; the clock is read twice by an evaluation that returns, and once by
    one that does not. *)
Theorem evaluate_case_runtime arch scenario requirements case_id w :
  (forall m,
     fst (evaluate_case erfc gammaincinv clock antenna_model power_model
            cost_model comms_model verify arch scenario requirements case_id w)
       = Returns m ->
     m !! "meta.runtime_s"
       = Some (VNum (clock (S (readings w)) - clock (readings w))) /\
     readings (snd (evaluate_case erfc gammaincinv clock antenna_model power_model
                      cost_model comms_model verify arch scenario requirements
                      case_id w))
       = S (S (readings w))) /\
  (~ returned (fst (evaluate_case erfc gammaincinv clock antenna_model power_model
                      cost_model comms_model verify arch scenario requirements
                      case_id w)) ->
   readings (snd (evaluate_case erfc gammaincinv clock antenna_model power_model
                    cost_model comms_model verify arch scenario requirements
                    case_id w))
     = S (readings w)).
Proof.
  run_evaluate_case requirements.
  all: split; [intros m Hm | intros Hnot].
  all: try discriminate Hm.
  all: try (exfalso; apply Hnot; eexists; reflexivity).
  all: try reflexivity.
  all: injection Hm as <-; split; [apply lookup_insert_eq | reflexivity].
Qed.

Lemma evaluate_case_with_report_returns arch scenario rs case_id w am pm cm sm :
  antenna_model arch scenario ∅ = Returns am ->
  power_model arch scenario am = Returns pm ->
  cost_model arch scenario am = Returns cm ->
  scenario_result arch scenario am = Returns sm ->
  returned (fst (evaluate_case_with_report erfc gammaincinv clock antenna_model
                   power_model cost_model comms_model verify arch scenario rs
                   case_id w)).
Proof.
  intros Hantenna Hpower Hcost Hscenario.
  unfold evaluate_case_with_report. rewrite run_bind.
  destruct rs as [| rq rs].
  all: run_evaluate_case_with idtac.
  all: unify_outcomes.
  all: eexists; reflexivity.
Qed.

(** The outcome of [evaluate_case_with_report] for a requirement set that is
    not empty, when every model returns. *)
Lemma evaluate_case_with_report_run arch scenario rq rs case_id w am pm cm sm :
  antenna_model arch scenario ∅ = Returns am ->
  power_model arch scenario am = Returns pm ->
  cost_model arch scenario am = Returns cm ->
  scenario_result arch scenario am = Returns sm ->
  let metrics :=
    sm ∪ (cm ∪ (pm ∪ (am ∪
      match case_id with
      | Some case_id => <["meta.case_id" := VStr case_id]> ∅
      | None => ∅
      end))) in
  let report := verify (rq :: rs) metrics in
  let m :=
    <["meta.runtime_s" := VNum (clock (S (readings w)) - clock (readings w))]>
      (<["verification.failed_ids" :=
           VStr (match failed_ids report with
                 | [] => ""
                 | ids => String.concat "," ids
                 end)]>
      (<["verification.must_total_count" := VNum (INR (must_total_count report))]>
      (<["verification.must_pass_count" := VNum (INR (must_pass_count report))]>
      (<["verification.passes" := VNum (if passes report then 1 else 0)]> metrics)))) in
  fst (evaluate_case_with_report erfc gammaincinv clock antenna_model power_model
         cost_model comms_model verify arch scenario (rq :: rs) case_id w)
  = Returns (m, verify (rq :: rs) m).
Proof.
  intros Hantenna Hpower Hcost Hscenario.
  unfold evaluate_case_with_report. rewrite run_bind.
  run_evaluate_case_with idtac.
  all: unify_outcomes.
  cbn [fst snd]. unfold requirements_verify. repeat run_step.
  reflexivity.
Qed.

(** X2: [evaluate_case_with_report] verifies the requirements on the record that
    [evaluate_case] returned: with a non-empty requirement set the
    verification therefore runs twice, first inside [evaluate_case] on the
    record merged from the model outputs, whose summary goes into the
    [verification.*] entries, then on the final record, which holds those
    entries and the run time, and it is the second report that is returned;
    with an empty set it runs once. *)
Theorem evaluate_case_with_report_verifies_twice arch scenario rs case_id w m report :
  fst (evaluate_case_with_report erfc gammaincinv clock antenna_model power_model
         cost_model comms_model verify arch scenario rs case_id w)
    = Returns (m, report) ->
  fst (evaluate_case erfc gammaincinv clock antenna_model power_model
         cost_model comms_model verify arch scenario (Some rs) case_id w) = Returns m /\
  report = verify rs m /\
  exists am pm cm sm,
    let metrics :=
      sm ∪ (cm ∪ (pm ∪ (am ∪
        match case_id with
        | Some case_id => <["meta.case_id" := VStr case_id]> ∅
        | None => ∅
        end))) in
    trace (snd (evaluate_case_with_report erfc gammaincinv clock antenna_model
                  power_model cost_model comms_model verify arch scenario rs
                  case_id w))
      = (trace w ++
         [Evaluate Antenna ∅ (Returns am);
          Evaluate Power am (Returns pm);
          Evaluate Cost am (Returns cm);
          Evaluate (scenario_model scenario) am (Returns sm)] ++
         match rs with
         | [] => [Verify m]
         | _ :: _ => [Verify metrics; Verify m]
         end)%list /\
    (rs <> [] ->
     m !! "verification.passes"
       = Some (VNum (if passes (verify rs metrics) then 1 else 0))).
Proof.
  unfold evaluate_case_with_report. rewrite run_bind.
  destruct rs as [| rq rs].
  all: run_evaluate_case_with idtac.
  all: cbn [fst snd]; try discriminate.
  all: unfold requirements_verify; repeat run_step.
  all: unfold mret, Py_ret; cbn [fst snd trace]; rewrite <- ?app_assoc.
  all: intros [= <- <-].
  all: split; [reflexivity |]; split; [reflexivity |].
  all: eexists _, _, _, _; cbv zeta; split; [reflexivity |].
  - intros H. contradiction.
  - intros _. rewrite !lookup_insert_ne by discriminate. apply lookup_insert_eq.
Qed.

End EvaluateCaseProperties.

(** ** Numeric facts used to run the radar model on concrete inputs *)

Lemma ln_le x y : 0 < x -> x <= y -> ln x <= ln y.
Proof.
  intros Hx [Hlt | ->]; [| lra].
  left. apply ln_increasing; assumption.
Qed.

Lemma ln_powerRZ_10 (a : Z) : ln (powerRZ 10 a) = IZR a * ln 10.
Proof.
  rewrite powerRZ_Rpower by lra. unfold Rpower. apply ln_exp.
Qed.

Lemma log10_bounds x (a b : Z) :
  powerRZ 10 a <= x <= powerRZ 10 b ->
  IZR a <= ln x / ln 10 <= IZR b.
Proof.
  intros [Ha Hb].
  pose proof ln_10_pos as H10.
  assert (Hpa : 0 < powerRZ 10 a) by (apply powerRZ_lt; lra).
  assert (Hx : 0 < x) by lra.
  pose proof (ln_le _ _ Hpa Ha) as Hla.
  pose proof (ln_le _ _ Hx Hb) as Hlb.
  rewrite ln_powerRZ_10 in Hla, Hlb.
  split.
  - apply Rmult_le_reg_r with (ln 10); [assumption |].
    unfold Rdiv. rewrite Rmult_assoc, Rinv_l by lra. lra.
  - apply Rmult_le_reg_r with (ln 10); [assumption |].
    unfold Rdiv. rewrite Rmult_assoc, Rinv_l by lra. lra.
Qed.

Lemma math_log10_pos x : 0 < x -> math_log10 x = Returns (ln x / ln 10).
Proof. intros H. unfold math_log10. rewrite Rltb_true by assumption. reflexivity. Qed.

Lemma math_log_pos x : 0 < x -> math_log x = Returns (ln x).
Proof. intros H. unfold math_log. rewrite Rltb_true by assumption. reflexivity. Qed.

Lemma W_TO_DBW_pos w : 0 < w -> W_TO_DBW w = Returns (10 * (ln w / ln 10)).
Proof.
  intros H. unfold W_TO_DBW. rewrite Rltb_true by assumption.
  rewrite math_log10_pos by assumption. reflexivity.
Qed.

Lemma truediv_nonzero a b : b <> 0 -> truediv a b = Returns (a / b).
Proof. intros H. unfold truediv. rewrite Reqb_false by assumption. reflexivity. Qed.

Lemma pow_10_308_le_DBL_MAX : 10 ^ 308 <= DBL_MAX.
Proof.
  unfold DBL_MAX. rewrite pow_IZR. apply IZR_le. vm_compute. discriminate.
Qed.

Lemma Rpower_10_le_DBL_MAX y : y <= 308 -> Rpower 10 y <= DBL_MAX.
Proof.
  intros Hy. apply Rle_trans with (Rpower 10 (INR 308)).
  - apply Rle_Rpower; [lra |]. rewrite INR_IZR_INZ. simpl. exact Hy.
  - rewrite Rpower_pow by lra. apply pow_10_308_le_DBL_MAX.
Qed.

Lemma pow10_in_range y : y <= 308 -> pow10 y = Returns (Rpower 10 y).
Proof.
  intros Hy. unfold pow10.
  rewrite Rltb_false by (apply Rpower_10_le_DBL_MAX; assumption). reflexivity.
Qed.

Lemma pow10_overflow y : 309 <= y -> pow10 y = Raises OverflowError.
Proof.
  intros Hy. unfold pow10. rewrite Rltb_true; [reflexivity |].
  apply Rlt_le_trans with (Rpower 10 (INR 309)).
  - rewrite Rpower_pow by lra. unfold DBL_MAX. rewrite pow_IZR.
    apply IZR_lt. vm_compute. reflexivity.
  - apply Rle_Rpower; [lra |]. rewrite INR_IZR_INZ. simpl. exact Hy.
Qed.

Lemma float_of_int_small (n : Z) :
  (1 <= n <= 2 ^ 1023)%Z -> float_of_int n = Returns (IZR n).
Proof.
  intros [Hlo Hhi]. apply float_of_int_in_range; [assumption |].
  unfold DBL_MAX. apply IZR_le.
  assert (2 ^ 1023 <= 2 ^ 1024 - 2 ^ 971)%Z by (vm_compute; discriminate).
  lia.
Qed.

(** ** The fixtures of tests/test_radar.py *)

(** [Architecture(array=ArrayConfig(nx=16, ny=16),
                  rf=RFChainConfig(tx_power_w_per_elem=10.0, pa_efficiency=0.3))];
    the fields that the test leaves to their defaults are given values here. *)
Definition sample_architecture : Architecture := {|
  array := {| nx := 16; ny := 16; dx_lambda := 0.5; dy_lambda := 0.5;
              n_elements := 256 |};
  rf := {| tx_power_w_per_elem := 10; pa_efficiency := 0.3;
           feed_loss_db := 1; system_loss_db := 0; noise_figure_db := 3 |};
  cost := {| cost_per_elem_usd := 100 |}
|}.

Definition sample_scenario : RadarDetectionScenario := {|
  freq_hz := 10e9;
  bandwidth_hz := 1e6;
  range_m := 50e3;
  target_rcs_dbsm := 0;
  rx_noise_temp_k := 290;
  pfa := 1e-6;
  pd_required := 0.9;
  n_pulses := 10;
  scan_angle_deg := 0;
  integration_type := "noncoherent"
|}.

Lemma world_of_dict_lookup (d : MetricsDict) : [d] !!! 0%nat = d.
Proof. reflexivity. Qed.

(** Runs the reads of the context at the head of [RadarModel.evaluate]; the
    lookups of the two keys are rewritten with the hypotheses given. *)
Ltac run_context_reads Hg Hs :=
  repeat (first [ rewrite run_bind_assoc | rewrite run_bind_contains
                | rewrite run_bind_getitem | rewrite run_bind_lift
                | rewrite run_bind_ret ];
          cbn [heap];
          rewrite ?world_of_dict_lookup;
          rewrite ?Hg, ?Hs;
          rewrite ?lookup_singleton_eq;
          rewrite ?lookup_singleton_ne by done;
          rewrite ?lookup_empty;
          rewrite ?bool_decide_eq_true_2 by eauto;
          rewrite ?bool_decide_eq_false_2 by (intros [? ?]; discriminate);
          cbn [value_sub]).

Lemma bind_Returns {A B} (a : A) (k : A -> outcome B) : Returns a ≫= k = k a.
Proof. reflexivity. Qed.

Lemma bind_mret {A B} (a : A) (k : A -> outcome B) : mret a ≫= k = k a.
Proof. reflexivity. Qed.

Lemma noncoherent_integration_gain_bounds (n : Z) (pd pfa : R) :
  (1 <= n)%Z ->
  exists g, noncoherent_integration_gain n pd pfa = Returns g /\
            0 <= g <= 10 * (ln (IZR n) / ln 10).
Proof.
  intros Hn. unfold noncoherent_integration_gain.
  pose proof (log10_int_nonneg n Hn) as Hl.
  destruct (Z.ltb_spec n 1) as [? | _]; [lia |].
  destruct (Z.eqb_spec n 1) as [-> | Hne].
  - exists 0. split; [reflexivity | lra].
  - unfold math_log10_int. destruct (Z.ltb_spec 0 n) as [_ | ?]; [| lia].
    pose proof (noncoherent_efficiency_le_1 pd) as He.
    simpl. eexists. split; [reflexivity |].
    set (eff := if Rleb 0.99 pd then _ else _) in *.
    set (l := ln (IZR n) / ln 10) in *. nra.
Qed.

(** Runs the float primitives whose side conditions are linear facts. *)
Ltac run_outcome :=
  repeat first
    [ rewrite bind_Returns
    | rewrite truediv_nonzero by lra
    | rewrite math_log_pos by lra
    | rewrite math_log10_pos by lra
    | rewrite math_sqrt_nonneg by lra
    | rewrite W_TO_DBW_pos by lra
    | rewrite pow10_in_range by lra
    | rewrite float_of_int_small by (split; [lia | vm_compute; discriminate]) ].

Lemma albersheim_snr_sample :
  exists r, albersheim_snr 0.9 1e-6 1 = Returns r /\ 0 <= r.
Proof.
  unfold albersheim_snr.
  rewrite !Rleb_true by lra. change (1 <? 1)%Z with false. cbn [negb andb].
  assert (Hs : 0 < sqrt (1 + 0.44)) by (apply sqrt_lt_R0; lra).
  assert (HA : 1 <= ln (0.62 / 1e-6)).
  { rewrite <- (ln_exp 1) at 1. apply ln_le; [apply exp_pos |].
    pose proof exp_le_3. lra. }
  assert (HB : 0 <= ln (0.9 / (1 - 0.9))) by (apply ln_nonneg; lra).
  unfold math_log10_int. change (0 <? 1)%Z with true. cbv iota.
  run_outcome.
  set (A := ln (0.62 / 1e-6)) in *. set (B := ln (0.9 / (1 - 0.9))) in *.
  assert (HZ : 1 <= A + 0.12 * A * B + 1.7 * B) by nra.
  run_outcome.
  eexists. split; [reflexivity |].
  rewrite ln_1.
  assert (0 <= ln (A + 0.12 * A * B + 1.7 * B) / ln 10).
  { apply Rmult_le_pos; [apply ln_nonneg; exact HZ |].
    left. apply Rinv_0_lt_compat, ln_10_pos. }
  assert (0 <= 4.54 / sqrt (1 + 0.44)).
  { apply Rmult_le_pos; [lra | left; apply Rinv_0_lt_compat; exact Hs]. }
  unfold Rdiv at 1. rewrite Rmult_0_l. nra.
Qed.

Section RadarRuns.

Variable erfc : R -> R.
Variable gammaincinv : R -> R -> R.

(** The radar model sees its context only through the antenna gain. *)
Lemma RadarModel_result_context arch scenario (context : MetricsDict) g :
  context !! "g_peak_db" = Some (VNum g) ->
  (forall s, context !! "scan_loss_db" <> Some (VStr s)) ->
  RadarModel_result erfc gammaincinv arch scenario context =
  RadarModel_result erfc gammaincinv arch scenario
    {[ "g_peak_db" :=
         VNum (match context !! "scan_loss_db" with
               | Some (VNum l) => g - l
               | _ => g
               end) ]}.
Proof.
  intros Hg Hl.
  unfold RadarModel_result, RadarModel_evaluate.
  destruct (context !! "scan_loss_db") as [[l | s] |] eqn:Hs;
    [| exfalso; eapply Hl; reflexivity |].
  all: run_context_reads Hg Hs.
  all: reflexivity.
Qed.

Hypothesis gammaincinv_nonneg : forall a y, 0 < y < 1 -> 0 <= gammaincinv a y.

Lemma sample_radar_returns (g : R) :
  -1000 <= g <= 1000 ->
  returned (RadarModel_result erfc gammaincinv sample_architecture sample_scenario
              {[ "g_peak_db" := VNum g ]}).
Proof.
  intros Hgain.
  unfold RadarModel_result, RadarModel_evaluate.
  run_context_reads I I.
  unfold lift. cbn [fst].
  cbn [sample_architecture sample_scenario array rf n_elements tx_power_w_per_elem
       freq_hz bandwidth_hz range_m target_rcs_dbsm rx_noise_temp_k pfa pd_required
       n_pulses integration_type feed_loss_db system_loss_db noise_figure_db].
  rewrite (float_of_int_small 256) by (split; [lia | vm_compute; discriminate]).
  rewrite ?bind_Returns, ?bind_mret.
  rewrite (W_TO_DBW_pos (10 * 256)) by lra. rewrite ?bind_Returns, ?bind_mret.
  destruct (log10_bounds (10 * 256) 3 4) as [HP1 HP2]; [simpl; lra |].
  set (P := ln (10 * 256) / ln 10) in *.
  rewrite truediv_nonzero by lra. rewrite ?bind_Returns, ?bind_mret.
  unfold C_LIGHT.
  rewrite (math_log10_pos (299792458 / 10e9)) by lra. rewrite ?bind_Returns, ?bind_mret.
  destruct (log10_bounds (299792458 / 10e9) (-2) (-1)) as [HW1 HW2]; [simpl; lra |].
  set (W := ln (299792458 / 10e9) / ln 10) in *.
  rewrite pow10_in_range by lra. rewrite ?bind_Returns, ?bind_mret.
  rewrite (math_log10_pos 50e3) by lra. rewrite ?bind_Returns, ?bind_mret.
  destruct (log10_bounds 50e3 4 5) as [HR1 HR2]; [simpl; lra |].
  set (Rg := ln 50e3 / ln 10) in *.
  unfold K_B.
  rewrite (W_TO_DBW_pos (1.380649e-23 * 290 * 1e6)) by lra.
  rewrite ?bind_Returns, ?bind_mret.
  destruct (log10_bounds (1.380649e-23 * 290 * 1e6) (-15) (-14)) as [HN1 HN2];
    [simpl; lra |].
  set (N := ln (1.380649e-23 * 290 * 1e6) / ln 10) in *.
  pose proof PI2_3_2 as Hpi1. pose proof PI_4 as Hpi2.
  rewrite (math_log10_pos (4 * PI)) by lra. rewrite ?bind_Returns, ?bind_mret.
  destruct (log10_bounds (4 * PI) 1 2) as [HC1 HC2]; [simpl; lra |].
  set (Cst := ln (4 * PI) / ln 10) in *.
  cbn [value_as_float]. rewrite ?bind_Returns, ?bind_mret.
  cbn [String.eqb Ascii.eqb Bool.eqb].
  destruct (noncoherent_integration_gain_bounds 10 0.9 1e-6) as (G & -> & HG1 & HG2);
    [lia |].
  destruct (log10_bounds 10 1 1) as [_ HL]; [simpl; lra |].
  rewrite ?bind_Returns.
  destruct albersheim_snr_sample as (r & -> & Hr). rewrite ?bind_Returns.
  match goal with |- context [compute_pd_from_snr _ _ ?snr _ _ _ _] =>
    destruct (compute_pd_from_snr_single_pulse erfc gammaincinv gammaincinv_nonneg
                snr 1e-6) as (pd & ->)
  end.
  { lra. }
  { apply Rpower_10_le_DBL_MAX. lra. }
  rewrite ?bind_Returns.
  match goal with |- context [Rltb (-40) ?m] => destruct (Rltb (-40) m) end.
  - rewrite pow10_in_range by lra. rewrite ?bind_Returns, ?bind_mret.
    eexists. reflexivity.
  - rewrite ?bind_Returns, ?bind_mret. eexists. reflexivity.
Qed.
End RadarRuns.

(** ** Scenarios that the validators accept and Albersheim's equation rejects *)

Definition low_pd_scenario : RadarDetectionScenario := {|
  freq_hz := 10e9;
  bandwidth_hz := 1e6;
  range_m := 50e3;
  target_rcs_dbsm := 0;
  rx_noise_temp_k := 290;
  pfa := 1e-6;
  pd_required := 0.05;
  n_pulses := 10;
  scan_angle_deg := 0;
  integration_type := "noncoherent"
|}.

Definition high_pfa_scenario : RadarDetectionScenario := {|
  freq_hz := 10e9;
  bandwidth_hz := 1e6;
  range_m := 50e3;
  target_rcs_dbsm := 0;
  rx_noise_temp_k := 290;
  pfa := 0.5;
  pd_required := 0.9;
  n_pulses := 10;
  scan_angle_deg := 0;
  integration_type := "noncoherent"
|}.

Definition albersheim_pd_error : exn :=
  ValueError "pd must be between 0.1 and 0.9999 for Albersheim".

Definition albersheim_pfa_error : exn :=
  ValueError "pfa must be between 1e-10 and 0.1 for Albersheim".

Lemma low_pd_scenario_valid : RadarDetectionScenario_valid low_pd_scenario = true.
Proof.
  cbv [RadarDetectionScenario_valid low_pd_scenario freq_hz bandwidth_hz range_m
       rx_noise_temp_k pfa pd_required n_pulses scan_angle_deg integration_type].
  rewrite !Rltb_true, !Rleb_true by lra. reflexivity.
Qed.

Lemma high_pfa_scenario_valid : RadarDetectionScenario_valid high_pfa_scenario = true.
Proof.
  cbv [RadarDetectionScenario_valid high_pfa_scenario freq_hz bandwidth_hz range_m
       rx_noise_temp_k pfa pd_required n_pulses scan_angle_deg integration_type].
  rewrite !Rltb_true, !Rleb_true by lra. reflexivity.
Qed.

Section RejectedScenarios.

Variable erfc : R -> R.
Variable gammaincinv : R -> R -> R.

Lemma RadarModel_result_no_gain arch scenario (context : MetricsDict) :
  context !! "g_peak_db" = None ->
  RadarModel_result erfc gammaincinv arch scenario context =
  RadarModel_result erfc gammaincinv arch scenario ∅.
Proof.
  intros Hg. unfold RadarModel_result, RadarModel_evaluate.
  run_context_reads Hg I.
  match goal with
  | |- fst (match ?gain with _ => _ end) = _ => destruct gain; reflexivity
  end.
Qed.

Ltac run_sample_radar :=
  unfold RadarModel_result, RadarModel_evaluate;
  run_context_reads I I;
  cbn [sample_architecture low_pd_scenario high_pfa_scenario
       array rf nx ny dx_lambda dy_lambda n_elements tx_power_w_per_elem
       freq_hz bandwidth_hz range_m target_rcs_dbsm rx_noise_temp_k pfa pd_required
       n_pulses integration_type feed_loss_db system_loss_db noise_figure_db];
  pose proof PI2_3_2; pose proof PI_4;
  unfold C_LIGHT, K_B;
  run_outcome;
  unfold mret, outcome_ret, lift; cbn [fst];
  run_outcome;
  cbn [value_as_float]; run_outcome;
  cbn [String.eqb Ascii.eqb Bool.eqb];
  match goal with
  | |- context [noncoherent_integration_gain ?n ?pd ?pfa] =>
      destruct (noncoherent_integration_gain_bounds n pd pfa) as (? & -> & _);
      [lia |]
  end;
  run_outcome;
  unfold albersheim_snr.

Lemma low_pd_scenario_raises (context : MetricsDict) :
  context = ∅ \/ (exists g, context = {[ "g_peak_db" := VNum g ]}) ->
  RadarModel_result erfc gammaincinv sample_architecture low_pd_scenario context
  = Raises albersheim_pd_error.
Proof.
  intros [-> | [g ->]]; run_sample_radar.
  all: rewrite (Rleb_false 0.1 0.05) by lra; reflexivity.
Qed.

Lemma high_pfa_scenario_raises (context : MetricsDict) :
  context = ∅ \/ (exists g, context = {[ "g_peak_db" := VNum g ]}) ->
  RadarModel_result erfc gammaincinv sample_architecture high_pfa_scenario context
  = Raises albersheim_pfa_error.
Proof.
  intros [-> | [g ->]]; run_sample_radar.
  all: rewrite (Rleb_true 0.1 0.9), (Rleb_true 0.9 0.9999),
         (Rleb_true 1e-10 0.5), (Rleb_false 0.5 0.1) by lra; reflexivity.
Qed.

End RejectedScenarios.

(** ** Purity of the radar model, and the rejected scenarios in the pipeline *)

Section RadarClaims.

Variable erfc : R -> R.
Variable gammaincinv : R -> R -> R.

(** C7: two calls of [RadarModel.evaluate] with equal design, scenario and
    context content return equal outcomes, in whatever worlds they run (other
    dict objects, clock readings, trace), and each call leaves its world,
    the context dict included, as it found it. *)
Theorem RadarModel_evaluate_pure_deterministic
    arch scenario (context1 context2 : loc) (w1 w2 : World) :
  heap w1 !!! context1 = heap w2 !!! context2 ->
  fst (RadarModel_evaluate erfc gammaincinv arch scenario context1 w1)
  = fst (RadarModel_evaluate erfc gammaincinv arch scenario context2 w2) /\
  snd (RadarModel_evaluate erfc gammaincinv arch scenario context1 w1) = w1 /\
  snd (RadarModel_evaluate erfc gammaincinv arch scenario context2 w2) = w2.
Proof.
  intros Hcontext. rewrite !RadarModel_evaluate_run. cbn [fst snd].
  rewrite Hcontext. auto.
Qed.

Variable clock : nat -> R.
Variable antenna_model : Architecture -> Scenario -> MetricsDict -> outcome MetricsDict.
Variable power_model : Architecture -> Scenario -> MetricsDict -> outcome MetricsDict.
Variable cost_model : Architecture -> Scenario -> MetricsDict -> outcome MetricsDict.
Variable comms_model :
  Architecture -> CommsLink.CommsLinkScenario -> MetricsDict -> outcome MetricsDict.
Variable verify : RequirementSet -> MetricsDict -> VerificationReport.

(** C8: [low_pd_scenario] (pd_required = 0.05) and [high_pfa_scenario]
    (pfa = 0.5) pass every field validator of [RadarDetectionScenario];
    [RadarModel.evaluate] raises [ValueError] on them, from [albersheim_snr],
    and so does [evaluate_case] once the antenna, power and cost models have
    returned (the antenna output holding a numeric gain). *)
Theorem validated_scenario_raises_ValueError :
  exists scenario error,
    RadarDetectionScenario_valid scenario = true /\
    pd_required scenario = 0.05 /\
    error = ValueError "pd must be between 0.1 and 0.9999 for Albersheim" /\
    RadarModel_result erfc gammaincinv sample_architecture scenario ∅
      = Raises error /\
    forall requirements case_id w am g pm cm,
      antenna_model sample_architecture (RadarScenario scenario) ∅ = Returns am ->
      am !! "g_peak_db" = Some (VNum g) ->
      (forall s, am !! "scan_loss_db" <> Some (VStr s)) ->
      power_model sample_architecture (RadarScenario scenario) am = Returns pm ->
      cost_model sample_architecture (RadarScenario scenario) am = Returns cm ->
      fst (evaluate_case erfc gammaincinv clock antenna_model power_model
       cost_model comms_model verify sample_architecture (RadarScenario scenario)
             requirements case_id w)
      = Raises error.
Proof.
  exists low_pd_scenario, albersheim_pd_error.
  split; [apply low_pd_scenario_valid |].
  split; [reflexivity |].
  split; [reflexivity |].
  split; [apply low_pd_scenario_raises; auto |].
  intros requirements case_id w am g pm cm Hantenna Hg Hloss Hpower Hcost.
  eapply evaluate_case_scenario_raises; eauto.
  cbn [scenario_result].
  rewrite (RadarModel_result_context _ _ _ _ _ g) by assumption.
  apply low_pd_scenario_raises. eauto.
Qed.

(** The same for a false-alarm probability outside Albersheim's range. *)
Lemma high_pfa_scenario_raises_in_pipeline requirements case_id w am g pm cm :
  antenna_model sample_architecture (RadarScenario high_pfa_scenario) ∅ = Returns am ->
  am !! "g_peak_db" = Some (VNum g) ->
  (forall s, am !! "scan_loss_db" <> Some (VStr s)) ->
  power_model sample_architecture (RadarScenario high_pfa_scenario) am = Returns pm ->
  cost_model sample_architecture (RadarScenario high_pfa_scenario) am = Returns cm ->
  fst (evaluate_case erfc gammaincinv clock antenna_model power_model
       cost_model comms_model verify sample_architecture (RadarScenario high_pfa_scenario)
         requirements case_id w)
  = Raises albersheim_pfa_error.
Proof.
  intros Hantenna Hg Hloss Hpower Hcost.
  eapply evaluate_case_scenario_raises; eauto.
  cbn [scenario_result].
  rewrite (RadarModel_result_context _ _ _ _ _ g) by assumption.
  apply high_pfa_scenario_raises. eauto.
Qed.

End RadarClaims.

(** ** Closed instances *)

(** Stand-ins for the parameters: a function with the range and the
    monotonicity of [erfc]; the inverse of the regularized incomplete gamma
    function for shape 1, [-ln(1 - y)]; a clock that advances by one second at
    each reading; models that return a fixed record or raise. *)
Definition rational_erfc (x : R) : R := 1 - x / (1 + Rabs x).
Definition exponential_gammaincinv (a y : R) : R := - ln (1 - y).
Definition counting_clock (n : nat) : R := INR n.

Definition constant_model {S} (d : MetricsDict)
    : Architecture -> S -> MetricsDict -> outcome MetricsDict :=
  fun _ _ _ => Returns d.

Definition raising_model {S} (e : exn)
    : Architecture -> S -> MetricsDict -> outcome MetricsDict :=
  fun _ _ _ => Raises e.

Lemma exponential_gammaincinv_nonneg a y :
  0 < y < 1 -> 0 <= exponential_gammaincinv a y.
Proof.
  intros [Hy0 Hy1]. unfold exponential_gammaincinv.
  assert (ln (1 - y) <= ln 1) by (apply ln_le; lra).
  rewrite ln_1 in *. lra.
Qed.

(** Modelled from the spec: the requirement verifier, "for each requirement
    look up its target metric key; if absent, the requirement is failed; apply
    the comparison operator to (metric value, threshold); a case passes
    overall iff every must-severity requirement passes". *)
Definition requirement_holds (metrics : MetricsDict) (r : Requirement) : bool :=
  match metrics !! req_metric_key r with
  | Some (VNum x) =>
      match req_op r with
      | OpGe => Rleb (req_threshold r) x
      | OpLe => Rleb x (req_threshold r)
      | OpGt => Rltb (req_threshold r) x
      | OpLt => Rltb x (req_threshold r)
      | OpEq => Reqb x (req_threshold r)
      end
  | _ => false
  end.

Definition is_must (r : Requirement) : bool :=
  match req_severity r with Must => true | Should => false end.

Definition verify (requirements : RequirementSet) (metrics : MetricsDict)
    : VerificationReport :=
  let musts := List.filter is_must requirements in
  {| passes := forallb (requirement_holds metrics) musts;
     must_pass_count := length (List.filter (requirement_holds metrics) musts);
     must_total_count := length musts;
     failed_ids :=
       map req_id (List.filter (fun r => negb (requirement_holds metrics r)) requirements) |}.

Definition sample_comms_scenario : CommsLink.CommsLinkScenario := {|
  CommsLink.freq_hz := 10e9;
  CommsLink.bandwidth_hz := 10e6;
  CommsLink.range_m := 100e3;
  CommsLink.required_snr_db := 10
|}.

Definition empty_world : World := mkWorld [] 0 [].

(** [evaluate_case] with the stand-ins and the given models. *)
Definition evaluate_case_with
    (antenna power cost : Architecture -> Scenario -> MetricsDict -> outcome MetricsDict)
    (comms : Architecture -> CommsLink.CommsLinkScenario -> MetricsDict ->
             outcome MetricsDict) :=
  evaluate_case rational_erfc exponential_gammaincinv counting_clock
    antenna power cost comms verify.

(** C1 fails on the code: the antenna model writes [g_peak_db = 30], the power
    model writes [g_peak_db = 0]; the evaluation returns a record, in which the
    second value has replaced the first. *)
Lemma metric_conflict_is_overwritten :
  exists m,
    fst (evaluate_case_with
           (constant_model {[ "g_peak_db" := VNum 30 ]})
           (constant_model {[ "g_peak_db" := VNum 0 ]})
           (constant_model ∅) (constant_model ∅)
           sample_architecture (CommsLinkScenario sample_comms_scenario)
           None None empty_world) = Returns m /\
    m !! "g_peak_db" = Some (VNum 0).
Proof.
  eexists. split.
  - unfold evaluate_case_with.
    apply evaluate_case_returns_unverified; [auto | reflexivity ..].
  - reflexivity.
Qed.

Lemma evaluate_case_merge_overwrites_witness :
  exists m,
    fst (evaluate_case_with
           (constant_model {[ "g_peak_db" := VNum 30 ]})
           (constant_model {[ "g_peak_db" := VNum 0 ]})
           (constant_model ∅) (constant_model ∅)
           sample_architecture (CommsLinkScenario sample_comms_scenario)
           None (Some "case_0001") empty_world) = Returns m /\
    m !! "g_peak_db" = Some (VNum 0).
Proof.
  destruct (evaluate_case_merge_overwrites
              rational_erfc exponential_gammaincinv counting_clock
              (constant_model {[ "g_peak_db" := VNum 30 ]})
              (constant_model {[ "g_peak_db" := VNum 0 ]})
              (constant_model ∅) (constant_model ∅) verify
              sample_architecture (CommsLinkScenario sample_comms_scenario)
              None (Some "case_0001") empty_world
              {[ "g_peak_db" := VNum 30 ]} {[ "g_peak_db" := VNum 0 ]} ∅ ∅
              eq_refl eq_refl eq_refl eq_refl) as (m & Hm & Hkeys).
  exists m. split; [exact Hm |].
  rewrite Hkeys; [reflexivity |].
  rewrite !not_elem_of_cons. repeat split; try discriminate. apply not_elem_of_nil.
Defined.

(** A run of the pipeline on a communications scenario calls the four models
    in order. *)
Lemma evaluate_case_model_order_witness :
  exists t,
    trace (snd (evaluate_case_with
                  (constant_model {[ "g_peak_db" := VNum 30 ]})
                  (constant_model ∅) (constant_model ∅) (constant_model ∅)
                  sample_architecture (CommsLinkScenario sample_comms_scenario)
                  None None empty_world)) = t /\
    calls t = [Antenna; Power; Cost; Comms].
Proof.
  destruct (evaluate_case_model_order
              rational_erfc exponential_gammaincinv counting_clock
              (constant_model {[ "g_peak_db" := VNum 30 ]})
              (constant_model ∅) (constant_model ∅) (constant_model ∅) verify
              sample_architecture (CommsLinkScenario sample_comms_scenario)
              None None empty_world) as (t & Ht & _ & Hfull & _).
  exists t. split; [exact Ht |].
  apply Hfull. eexists.
  apply evaluate_case_returns_unverified; [auto | reflexivity ..].
Defined.

(** The antenna model raises: the caller of [evaluate_case] gets the
    exception. *)
Lemma evaluate_case_propagates_exceptions_witness :
  fst (evaluate_case_with
         (raising_model (ValueError "n_elements must be positive"))
         (constant_model ∅) (constant_model ∅) (constant_model ∅)
         sample_architecture (CommsLinkScenario sample_comms_scenario)
         None None empty_world)
  = Raises (ValueError "n_elements must be positive").
Proof.
  apply (evaluate_case_propagates_exceptions
           rational_erfc exponential_gammaincinv counting_clock
           (raising_model (ValueError "n_elements must be positive"))
           (constant_model ∅) (constant_model ∅) (constant_model ∅) verify
           sample_architecture (CommsLinkScenario sample_comms_scenario)
           None None empty_world
           [Evaluate Antenna ∅ (Raises (ValueError "n_elements must be positive"))]
           Antenna ∅).
  - reflexivity.
  - apply list_elem_of_here.
Defined.

(** C5 fails on the code: with an empty requirement set supplied, the record
    has no [verification.*] key, and no verification has run. *)
Lemma empty_requirements_are_not_verified :
  exists m,
    fst (evaluate_case_with
           (constant_model {[ "g_peak_db" := VNum 30 ]})
           (constant_model ∅) (constant_model ∅) (constant_model ∅)
           sample_architecture (CommsLinkScenario sample_comms_scenario)
           (Some []) None empty_world) = Returns m /\
    m !! "verification.passes" = None /\
    m !! "verification.must_pass_count" = None /\
    m !! "verification.must_total_count" = None /\
    m !! "verification.failed_ids" = None.
Proof.
  eexists. split.
  - unfold evaluate_case_with.
    apply evaluate_case_returns_unverified; [auto | reflexivity ..].
  - repeat split; reflexivity.
Qed.

Definition gain_requirement : Requirement := {|
  req_id := "REQ-001";
  req_name := "Minimum antenna gain";
  req_metric_key := "g_peak_db";
  req_op := OpGe;
  req_threshold := 20;
  req_severity := Must
|}.

Lemma evaluate_case_verification_witness :
  exists m metrics elapsed,
    fst (evaluate_case_with
           (constant_model {[ "g_peak_db" := VNum 30 ]})
           (constant_model ∅) (constant_model ∅) (constant_model ∅)
           sample_architecture (CommsLinkScenario sample_comms_scenario)
           (Some [gain_requirement]) None empty_world) = Returns m /\
    m !! "meta.runtime_s" = Some (VNum elapsed) /\
    m !! "verification.must_total_count"
      = Some (VNum (INR (must_total_count (verify [gain_requirement] metrics)))).
Proof.
  destruct (evaluate_case_returns
              rational_erfc exponential_gammaincinv counting_clock
              (constant_model {[ "g_peak_db" := VNum 30 ]})
              (constant_model ∅) (constant_model ∅) (constant_model ∅) verify
              sample_architecture (CommsLinkScenario sample_comms_scenario)
              (Some [gain_requirement]) None empty_world
              {[ "g_peak_db" := VNum 30 ]} ∅ ∅ ∅
              eq_refl eq_refl eq_refl eq_refl) as (m & Hm).
  destruct (evaluate_case_verification
              rational_erfc exponential_gammaincinv counting_clock
              (constant_model {[ "g_peak_db" := VNum 30 ]})
              (constant_model ∅) (constant_model ∅) (constant_model ∅) verify
              sample_architecture (CommsLinkScenario sample_comms_scenario)
              [gain_requirement] None empty_world m
              ltac:(discriminate) Hm)
    as (am & pm & cm & sm & metrics & elapsed & _ & _ & Hrecord).
  exists m, metrics, elapsed.
  split; [exact Hm |].
  rewrite Hrecord. split.
  - apply lookup_insert_eq.
  - rewrite !lookup_insert_ne by discriminate. apply lookup_insert_eq.
Defined.

(** Two calls of the radar model on dicts with equal content, in worlds that
    differ otherwise. *)
Lemma RadarModel_evaluate_pure_deterministic_witness :
  let w1 := mkWorld [{[ "g_peak_db" := VNum 30 ]}] 0 [] in
  let w2 := mkWorld [∅; {[ "g_peak_db" := VNum 30 ]}] 5 [Verify ∅] in
  fst (RadarModel_evaluate rational_erfc exponential_gammaincinv
         sample_architecture sample_scenario 0%nat w1)
  = fst (RadarModel_evaluate rational_erfc exponential_gammaincinv
           sample_architecture sample_scenario 1%nat w2) /\
  snd (RadarModel_evaluate rational_erfc exponential_gammaincinv
         sample_architecture sample_scenario 1%nat w2) = w2.
Proof.
  intros w1 w2.
  destruct (RadarModel_evaluate_pure_deterministic
              rational_erfc exponential_gammaincinv
              sample_architecture sample_scenario 0%nat 1%nat w1 w2 eq_refl)
    as (Hresult & _ & Hworld).
  split; assumption.
Defined.

(** The antenna output of the scanned case: a peak gain of 30 dB and a scan
    loss of 3 dB. *)
Definition scanned_antenna_metrics : MetricsDict :=
  <["g_peak_db" := VNum 30]> (<["scan_loss_db" := VNum 3]> ∅).

Lemma sample_radar_result_with_gain (context : MetricsDict) (g : R) :
  context !! "g_peak_db" = Some (VNum g) ->
  (forall s, context !! "scan_loss_db" <> Some (VStr s)) ->
  -1000 <= match context !! "scan_loss_db" with
           | Some (VNum l) => g - l
           | _ => g
           end <= 1000 ->
  exists m,
    RadarModel_result rational_erfc exponential_gammaincinv
      sample_architecture sample_scenario context = Returns m /\
    m !! "g_ant_db" =
      match context !! "scan_loss_db" with
      | None => Some (VNum g)
      | Some (VNum l) => Some (VNum (g - l))
      | Some (VStr _) => None
      end.
Proof.
  intros Hg Hloss Hrange.
  destruct (sample_radar_returns rational_erfc exponential_gammaincinv
              exponential_gammaincinv_nonneg _ Hrange) as [m Hm].
  rewrite <- (RadarModel_result_context _ _ _ _ context g) in Hm by assumption.
  exists m. split; [exact Hm |].
  exact (RadarModel_result_gain _ _ _ _ _ _ Hm g Hg).
Qed.

(** C4 fails on the code: the antenna output holds [g_peak_db = 30.0] and
    reaches the radar model through the context, and the final record holds
    [g_ant_db = 30.0 - 3.0], because the context holds a scan loss too. *)
Lemma scan_loss_lowers_radar_gain :
  exists m,
    scanned_antenna_metrics !! "g_peak_db" = Some (VNum 30) /\
    fst (evaluate_case_with
           (constant_model scanned_antenna_metrics)
           (constant_model ∅) (constant_model ∅) (constant_model ∅)
           sample_architecture (RadarScenario sample_scenario)
           None None empty_world) = Returns m /\
    m !! "g_ant_db" = Some (VNum (30 - 3)) /\
    m !! "g_ant_db" <> Some (VNum 30).
Proof.
  destruct (sample_radar_result_with_gain scanned_antenna_metrics 30)
    as (sm & Hsm & Hgain).
  { reflexivity. }
  { intros s. discriminate. }
  { change (scanned_antenna_metrics !! "scan_loss_db") with (Some (VNum 3)). lra. }
  change (scanned_antenna_metrics !! "scan_loss_db") with (Some (VNum 3)) in Hgain.
  eexists. split; [reflexivity |]. split.
  - unfold evaluate_case_with.
    apply (evaluate_case_returns_unverified _ _ _ _ _ _ _ _ _ _ _ _ _
             scanned_antenna_metrics ∅ ∅ sm); [auto | reflexivity .. | exact Hsm].
  - assert (Hfinal : forall (rest : MetricsDict) t,
              (<["meta.runtime_s" := VNum t]> (sm ∪ rest)) !! "g_ant_db"
              = Some (VNum (30 - 3))).
    { intros rest t. rewrite lookup_insert_ne by discriminate.
      apply lookup_union_Some_l. exact Hgain. }
    split; [apply Hfinal |].
    rewrite Hfinal. intros [= H]. lra.
Qed.

Lemma evaluate_case_radar_gain_witness :
  exists m,
    fst (evaluate_case_with
           (constant_model {[ "g_peak_db" := VNum 30 ]})
           (constant_model ∅) (constant_model ∅) (constant_model ∅)
           sample_architecture (RadarScenario sample_scenario)
           None None empty_world) = Returns m /\
    m !! "g_ant_db" = Some (VNum 30).
Proof.
  destruct (sample_radar_result_with_gain {[ "g_peak_db" := VNum 30 ]} 30)
    as (sm & Hsm & _).
  { reflexivity. }
  { intros s. discriminate. }
  { change (({[ "g_peak_db" := VNum 30 ]} : MetricsDict) !! "scan_loss_db")
      with (@None value). lra. }
  pose proof (evaluate_case_returns_unverified
                rational_erfc exponential_gammaincinv counting_clock
                (constant_model {[ "g_peak_db" := VNum 30 ]})
                (constant_model ∅) (constant_model ∅) (constant_model ∅) verify
                sample_architecture (RadarScenario sample_scenario)
                None None empty_world
                {[ "g_peak_db" := VNum 30 ]} ∅ ∅ sm
                (or_introl eq_refl) eq_refl eq_refl eq_refl Hsm) as Hm.
  eexists. split; [exact Hm |].
  refine (proj1 (evaluate_case_radar_gain
           rational_erfc exponential_gammaincinv counting_clock
           (constant_model {[ "g_peak_db" := VNum 30 ]})
           (constant_model ∅) (constant_model ∅) (constant_model ∅) verify
           sample_architecture sample_scenario None None empty_world
           {[ "g_peak_db" := VNum 30 ]} _ 30 _ _ Hm) _); reflexivity.
Defined.

(** A validated scenario with pd_required = 0.05, evaluated after an antenna
    model that reports a gain of 30 dB. *)
Lemma validated_scenario_raises_ValueError_witness :
  exists scenario,
    RadarDetectionScenario_valid scenario = true /\
    fst (evaluate_case_with
           (constant_model {[ "g_peak_db" := VNum 30 ]})
           (constant_model ∅) (constant_model ∅) (constant_model ∅)
           sample_architecture (RadarScenario scenario)
           None None empty_world)
    = Raises (ValueError "pd must be between 0.1 and 0.9999 for Albersheim").
Proof.
  destruct (validated_scenario_raises_ValueError
              rational_erfc exponential_gammaincinv counting_clock
              (constant_model {[ "g_peak_db" := VNum 30 ]})
              (constant_model ∅) (constant_model ∅) (constant_model ∅) verify)
    as (scenario & error & Hvalid & _ & -> & _ & Hraises).
  exists scenario. split; [exact Hvalid |].
  apply (Hraises None None empty_world {[ "g_peak_db" := VNum 30 ]} 30 ∅ ∅).
  - reflexivity.
  - reflexivity.
  - intros s. discriminate.
  - reflexivity.
  - reflexivity.
Defined.

(** C9 fails on the code: at 4000 dB, [10 ** (snr_db / 10)] is [10 ** 400.0],
    beyond the largest finite float, and the call raises [OverflowError]
    instead of returning a probability. *)
Lemma compute_pd_from_snr_overflows :
  compute_pd_from_snr rational_erfc exponential_gammaincinv 4000 1e-6 0 1 "noncoherent"
  = Raises OverflowError.
Proof.
  unfold compute_pd_from_snr.
  rewrite pfa_check_passes by lra.
  rewrite pow10_overflow by lra. reflexivity.
Qed.

Lemma compute_pd_from_snr_unit_interval_witness :
  exists pd,
    compute_pd_from_snr rational_erfc exponential_gammaincinv 13 1e-6 0 10 "noncoherent"
    = Returns pd /\ 0 <= pd <= 1.
Proof.
  apply (compute_pd_from_snr_unit_interval
           rational_erfc exponential_gammaincinv exponential_gammaincinv_nonneg
           13 1e-6 0 10 "noncoherent").
  - lra.
  - lia.
  - lia.
  - right. reflexivity.
  - apply Rpower_10_le_DBL_MAX. lra.
  - unfold DBL_MAX. apply IZR_le. vm_compute. discriminate.
Defined.

(** ** Pareto extraction *)

Module Pareto.

(** A row of a results table: the value of each numeric column, and the
    [meta.error] field of a case whose evaluation failed. *)
Record Row : Type := {
  column : string -> R;
  meta_error : option string
}.

(** [results_df[is_pareto]]: the rows whose index the mask keeps, from index
    [i] on. *)
Fixpoint select (mask : nat -> bool) (i : nat) (rows : list Row) : list Row :=
  match rows with
  | [] => []
  | row :: rows' =>
      if mask i then row :: select mask (S i) rows' else select mask (S i) rows'
  end.

(** [results_df.iloc[i]] for an index in range. *)
Definition iloc (results_df : list Row) (i : nat) : Row :=
  nth i results_df {| column := fun _ => 0; meta_error := None |}.

(** *** app/pages/2_Trade_Study.py: the demo extraction *)

(** The condition of the inner loop: row [j] dominates row [i]. *)
Definition demo_dominates (row_j row_i : Row) : bool :=
  Rleb (column row_j "cost_usd") (column row_i "cost_usd")
  && Rleb (column row_i "eirp_dbw") (column row_j "eirp_dbw")
  && (Rltb (column row_j "cost_usd") (column row_i "cost_usd")
      || Rltb (column row_i "eirp_dbw") (column row_j "eirp_dbw")).

(** [is_pareto[i]] after the loops: false as soon as some [j <> i] dominates
    [i]. *)
Definition demo_is_pareto (results_df : list Row) (i : nat) : bool :=
  negb (existsb
          (fun j => negb (Nat.eqb i j)
                    && demo_dominates (iloc results_df j) (iloc results_df i))
          (seq 0 (length results_df))).

Definition demo_pareto (results_df : list Row) : list Row :=
  select (demo_is_pareto results_df) 0 results_df.

(** *** extract_pareto *)

Inductive direction : Type := Minimize | Maximize.

Definition objective : Type := string * direction.

Definition at_least_as_good (d : direction) (x y : R) : bool :=
  match d with
  | Minimize => Rleb x y
  | Maximize => Rleb y x
  end.

Definition strictly_better (d : direction) (x y : R) : bool :=
  match d with
  | Minimize => Rltb x y
  | Maximize => Rltb y x
  end.

(** Modelled from the spec: "row i is dominated by row j iff j is at least as
    good as i on every objective and strictly better on at least one". *)
Definition dominates (objectives : list objective) (row_j row_i : Row) : bool :=
  forallb (fun o => at_least_as_good (snd o) (column row_j (fst o)) (column row_i (fst o)))
    objectives
  && existsb (fun o => strictly_better (snd o) (column row_j (fst o)) (column row_i (fst o)))
       objectives.

Definition is_pareto (objectives : list objective) (rows : list Row) (i : nat) : bool :=
  negb (existsb
          (fun j => negb (Nat.eqb i j)
                    && dominates objectives (iloc rows j) (iloc rows i))
          (seq 0 (length rows))).

(** Modelled from the spec: [extract_pareto(results, objectives)], an "O(n²)
    pairwise comparison over the Results Table (rows with an error field are
    excluded before dominance comparison)", returning the rows that no other
    row dominates.  The function is part of the trades package, which is not
    among the embedded sources. *)
Definition extract_pareto (results : list Row) (objectives : list objective)
    : list Row :=
  let valid :=
    List.filter (fun row => match meta_error row with None => true | Some _ => false end)
      results in
  select (is_pareto objectives valid) 0 valid.

(** *** Frontiers of an irreflexive dominance test *)

Section Frontier.

Variable dom : Row -> Row -> bool.
Hypothesis dom_irreflexive : forall row, dom row row = false.

Definition undominated_at (rows : list Row) (i : nat) : bool :=
  negb (existsb (fun j => negb (Nat.eqb i j) && dom (iloc rows j) (iloc rows i))
          (seq 0 (length rows))).

Definition undominated (rows : list Row) (row : Row) : bool :=
  negb (existsb (fun other => dom other row) rows).

Lemma undominated_at_row (rows : list Row) (i : nat) :
  undominated_at rows i = undominated rows (iloc rows i).
Proof.
  unfold undominated_at, undominated. f_equal.
  apply eq_iff_eq_true. rewrite !existsb_exists. split.
  - intros (j & Hj & Hdom). apply in_seq in Hj.
    apply andb_true_iff in Hdom as [_ Hdom].
    exists (iloc rows j). split; [| exact Hdom].
    apply nth_In. lia.
  - intros (other & Hin & Hdom).
    destruct (In_nth rows other {| column := fun _ => 0; meta_error := None |} Hin)
      as (j & Hj & Hnth).
    exists j. split; [apply in_seq; lia |].
    apply andb_true_iff. split.
    + apply negb_true_iff, Nat.eqb_neq. intros ->.
      unfold iloc in Hdom. rewrite <- Hnth, dom_irreflexive in Hdom. discriminate.
    + unfold iloc at 1. rewrite Hnth. exact Hdom.
Qed.

Lemma select_filter (mask : nat -> bool) (f : Row -> bool) (rows : list Row) (k : nat) :
  (forall i, (i < length rows)%nat -> mask (k + i)%nat = f (iloc rows i)) ->
  select mask k rows = List.filter f rows.
Proof.
  revert k. induction rows as [| row rows IH]; intros k Hmask; [reflexivity |].
  cbn [select List.filter].
  rewrite <- (Nat.add_0_r k) at 1. rewrite (Hmask 0%nat) by (cbn; lia).
  cbn [iloc nth].
  rewrite (IH (S k)).
  - reflexivity.
  - intros i Hi. replace (S k + i)%nat with (k + S i)%nat by lia.
    rewrite Hmask by (cbn; lia). reflexivity.
Qed.

Lemma select_undominated (rows : list Row) :
  select (undominated_at rows) 0 rows = List.filter (undominated rows) rows.
Proof.
  apply select_filter. intros i _. apply undominated_at_row.
Qed.

Lemma filter_all (f : Row -> bool) (rows : list Row) :
  (forall row, In row rows -> f row = true) -> List.filter f rows = rows.
Proof.
  induction rows as [| row rows IH]; intros Hall; [reflexivity |].
  cbn [List.filter]. rewrite Hall by (left; reflexivity).
  f_equal. apply IH. intros r Hr. apply Hall. right. exact Hr.
Qed.

Lemma frontier_undominated (rows : list Row) (row_i row_j : Row) :
  In row_i (select (undominated_at rows) 0 rows) ->
  In row_j (select (undominated_at rows) 0 rows) ->
  dom row_j row_i = false.
Proof.
  rewrite select_undominated. intros Hi Hj.
  apply filter_In in Hi as [_ Hi]. apply filter_In in Hj as [Hj _].
  unfold undominated in Hi. apply negb_true_iff in Hi.
  destruct (dom row_j row_i) eqn:Hdom; [| reflexivity].
  rewrite <- Hi. symmetry. apply existsb_exists. eauto.
Qed.

Lemma frontier_idempotent (rows : list Row) :
  let frontier := select (undominated_at rows) 0 rows in
  select (undominated_at frontier) 0 frontier = frontier.
Proof.
  intros frontier. rewrite select_undominated. apply filter_all.
  intros row Hrow. unfold undominated. apply negb_true_iff.
  destruct (existsb (fun other => dom other row) frontier) eqn:Hex; [| reflexivity].
  apply existsb_exists in Hex as (other & Hother & Hdom).
  rewrite (frontier_undominated rows row other Hrow Hother) in Hdom. discriminate.
Qed.

End Frontier.

Lemma demo_dominates_irreflexive row : demo_dominates row row = false.
Proof.
  unfold demo_dominates. rewrite !Rltb_false by lra.
  rewrite andb_false_r. reflexivity.
Qed.

Lemma dominates_irreflexive objectives row : dominates objectives row row = false.
Proof.
  unfold dominates. apply andb_false_iff. right.
  apply not_true_iff_false. rewrite existsb_exists.
  intros ([key d] & _ & Hbetter). destruct d; cbn in Hbetter;
    rewrite Rltb_false in Hbetter by lra; discriminate.
Qed.

(** Dominance, in the words of the specification. *)
Definition dominated_by (objectives : list objective) (row_i row_j : Row) : Prop :=
  (forall key d, In (key, d) objectives ->
     match d with
     | Minimize => column row_j key <= column row_i key
     | Maximize => column row_j key >= column row_i key
     end) /\
  (exists key d, In (key, d) objectives /\
     match d with
     | Minimize => column row_j key < column row_i key
     | Maximize => column row_j key > column row_i key
     end).

Lemma Rleb_spec x y : Rleb x y = true <-> x <= y.
Proof. unfold Rleb. destruct (Rle_dec x y); split; intros; (discriminate || lra || auto). Qed.

Lemma Rltb_spec x y : Rltb x y = true <-> x < y.
Proof. unfold Rltb. destruct (Rlt_dec x y); split; intros; (discriminate || lra || auto). Qed.

Lemma dominates_spec objectives row_j row_i :
  dominates objectives row_j row_i = true <-> dominated_by objectives row_i row_j.
Proof.
  unfold dominates, dominated_by.
  rewrite andb_true_iff, forallb_forall, existsb_exists. split.
  - intros [Hall ([key d] & Hin & Hbetter)]. split.
    + intros k d' Hk. specialize (Hall (k, d') Hk). cbn in Hall.
      destruct d'; cbn in Hall; apply Rleb_spec in Hall; lra.
    + exists key, d. split; [exact Hin |].
      destruct d; cbn in Hbetter; apply Rltb_spec in Hbetter; lra.
  - intros [Hall (key & d & Hin & Hbetter)]. split.
    + intros [k d'] Hk. specialize (Hall k d' Hk). cbn.
      destruct d'; cbn; apply Rleb_spec; lra.
    + exists (key, d). split; [exact Hin |].
      destruct d; cbn; apply Rltb_spec; lra.
Qed.

(** The demo loop is the extraction for the objectives "minimize cost_usd,
    maximize eirp_dbw" on a table without failed cases. *)
Definition demo_objectives : list objective :=
  [("cost_usd", Minimize); ("eirp_dbw", Maximize)].

Lemma demo_dominates_objectives row_j row_i :
  demo_dominates row_j row_i = dominates demo_objectives row_j row_i.
Proof.
  unfold demo_dominates, dominates, demo_objectives. cbn.
  rewrite !andb_true_r, !orb_false_r. reflexivity.
Qed.

(** C3: the frontier returned by [extract_pareto] holds no row dominated by
    another row of the frontier, and extracting again from the frontier
    returns the frontier; the same holds of the demo extraction of the trade
    study page, for its two objectives. *)
Theorem extract_pareto_frontier (results : list Row) (objectives : list objective) :
  (let frontier := extract_pareto results objectives in
   (forall row_i row_j,
      In row_i frontier -> In row_j frontier ->
      ~ dominated_by objectives row_i row_j) /\
   extract_pareto frontier objectives = frontier) /\
  (let frontier := demo_pareto results in
   (forall row_i row_j,
      In row_i frontier -> In row_j frontier ->
      ~ dominated_by demo_objectives row_i row_j) /\
   demo_pareto frontier = frontier).
Proof.
  split.
  - intros frontier. split.
    + intros row_i row_j Hi Hj Hdom. apply dominates_spec in Hdom.
      unfold frontier, extract_pareto in Hi, Hj.
      rewrite (frontier_undominated (dominates objectives)
                 (dominates_irreflexive objectives) _ _ _ Hi Hj) in Hdom.
      discriminate.
    + unfold frontier, extract_pareto.
      set (valid := List.filter _ results).
      set (front := select (is_pareto objectives valid) 0 valid).
      assert (Hvalid : List.filter
                (fun row => match meta_error row with None => true | Some _ => false end)
                front = front).
      { apply filter_all. intros row Hrow.
        unfold front in Hrow.
        change (is_pareto objectives valid)
          with (undominated_at (dominates objectives) valid) in Hrow.
        rewrite (select_undominated _ (dominates_irreflexive objectives)) in Hrow.
        apply filter_In in Hrow as [Hrow _].
        unfold valid in Hrow. apply filter_In in Hrow as [_ Hrow]. exact Hrow. }
      rewrite Hvalid.
      apply (frontier_idempotent (dominates objectives)
               (dominates_irreflexive objectives)).
  - intros frontier. split.
    + intros row_i row_j Hi Hj Hdom. apply dominates_spec in Hdom.
      rewrite <- demo_dominates_objectives in Hdom.
      rewrite (frontier_undominated demo_dominates demo_dominates_irreflexive
                 _ _ _ Hi Hj) in Hdom.
      discriminate.
    + apply (frontier_idempotent demo_dominates demo_dominates_irreflexive).
Qed.

(** *** The demo extraction keeps a row for every row it drops *)

Section Cover.

Variable dom : Row -> Row -> bool.
Hypothesis dom_irreflexive : forall row, dom row row = false.
Hypothesis dom_transitive :
  forall a b c, dom a b = true -> dom b c = true -> dom a c = true.

(** The rows of the table that dominate a row. *)
Definition dominators (rows : list Row) (row : Row) : list Row :=
  List.filter (fun other => dom other row) rows.

Lemma filter_length_le (f g : Row -> bool) (rows : list Row) :
  (forall row, f row = true -> g row = true) ->
  (length (List.filter f rows) <= length (List.filter g rows))%nat.
Proof.
  intros Hfg. induction rows as [| row rows IH]; [reflexivity |].
  cbn [List.filter]. destruct (f row) eqn:Hf.
  - rewrite (Hfg row Hf). cbn. lia.
  - destruct (g row); cbn; lia.
Qed.

Lemma filter_length_lt (f g : Row -> bool) (rows : list Row) (x : Row) :
  (forall row, f row = true -> g row = true) ->
  In x rows -> f x = false -> g x = true ->
  (length (List.filter f rows) < length (List.filter g rows))%nat.
Proof.
  intros Hfg Hin Hf Hg. induction rows as [| row rows IH]; [contradiction |].
  cbn [List.filter]. destruct Hin as [-> | Hin].
  - rewrite Hf, Hg. cbn. pose proof (filter_length_le f g rows Hfg). lia.
  - specialize (IH Hin). destruct (f row) eqn:Hfr.
    + rewrite (Hfg row Hfr). cbn. lia.
    + destruct (g row); cbn; lia.
Qed.

Lemma dominators_decrease (rows : list Row) (other row : Row) :
  In other rows -> dom other row = true ->
  (length (dominators rows other) < length (dominators rows row))%nat.
Proof.
  intros Hin Hdom. unfold dominators.
  apply filter_length_lt with other.
  - intros r Hr. exact (dom_transitive _ _ _ Hr Hdom).
  - exact Hin.
  - apply dom_irreflexive.
  - exact Hdom.
Qed.

Lemma undominated_cover (rows : list Row) (n : nat) :
  forall row,
    (length (dominators rows row) < n)%nat ->
    In row rows ->
    undominated dom rows row = true \/
    exists better,
      In better rows /\ undominated dom rows better = true /\ dom better row = true.
Proof.
  induction n as [| n IH]; intros row Hlen Hin; [lia |].
  destruct (undominated dom rows row) eqn:Hund; [left; reflexivity | right].
  unfold undominated in Hund. apply negb_false_iff in Hund.
  apply existsb_exists in Hund as (other & Hother & Hdom).
  pose proof (dominators_decrease rows other row Hother Hdom) as Hless.
  destruct (IH other ltac:(lia) Hother) as [Hfree | (better & Hbetter & Hfree & Hbo)].
  - exists other. auto.
  - exists better. split; [exact Hbetter |]. split; [exact Hfree |].
    exact (dom_transitive _ _ _ Hbo Hdom).
Qed.

Lemma frontier_cover (rows : list Row) (row : Row) :
  In row rows ->
  In row (select (undominated_at dom rows) 0 rows) \/
  exists better,
    In better (select (undominated_at dom rows) 0 rows) /\ dom better row = true.
Proof.
  intros Hin. rewrite (select_undominated dom dom_irreflexive).
  destruct (undominated_cover rows (S (length (dominators rows row))) row
              ltac:(lia) Hin) as [Hfree | (better & Hbetter & Hfree & Hdom)].
  - left. apply filter_In. auto.
  - right. exists better. split; [apply filter_In; auto | exact Hdom].
Qed.

End Cover.

Lemma demo_dominates_transitive a b c :
  demo_dominates a b = true -> demo_dominates b c = true -> demo_dominates a c = true.
Proof.
  unfold demo_dominates.
  rewrite !andb_true_iff, !orb_true_iff, !Rleb_spec, !Rltb_spec.
  intros [[? ?] ?] [[? ?] ?]. repeat split; lra.
Qed.

(** X3: the frontier of the demo extraction is made of rows of the table, and it
    accounts for every row of the table: a row is on the frontier, or a row of
    the frontier dominates it; a table that is not empty has a frontier that
    is not empty. *)
Theorem demo_pareto_covers (results_df : list Row) :
  (forall row, In row (demo_pareto results_df) -> In row results_df) /\
  (forall row, In row results_df ->
     In row (demo_pareto results_df) \/
     exists better,
       In better (demo_pareto results_df) /\ demo_dominates better row = true) /\
  (results_df <> [] -> demo_pareto results_df <> []).
Proof.
  assert (Hcover : forall row, In row results_df ->
     In row (demo_pareto results_df) \/
     exists better,
       In better (demo_pareto results_df) /\ demo_dominates better row = true).
  { intros row Hrow.
    exact (frontier_cover demo_dominates demo_dominates_irreflexive
             demo_dominates_transitive results_df row Hrow). }
  split; [| split; [exact Hcover |]].
  - intros row Hrow. unfold demo_pareto in Hrow.
    change (demo_is_pareto results_df)
      with (undominated_at demo_dominates results_df) in Hrow.
    rewrite (select_undominated demo_dominates demo_dominates_irreflexive) in Hrow.
    apply filter_In in Hrow as [Hrow _]. exact Hrow.
  - destruct results_df as [| row rows]; [contradiction |]. intros _ Hempty.
    destruct (Hcover row ltac:(left; reflexivity)) as [Hin | (better & Hin & _)];
      rewrite Hempty in Hin; contradiction.
Qed.

(** X4: rows that tie on both objectives share their fate: the demo extraction
    keeps both or drops both. *)
Theorem demo_pareto_keeps_ties (results_df : list Row) (row_i row_j : Row) :
  In row_i results_df -> In row_j results_df ->
  column row_i "cost_usd" = column row_j "cost_usd" ->
  column row_i "eirp_dbw" = column row_j "eirp_dbw" ->
  demo_dominates row_i row_j = false /\
  (In row_i (demo_pareto results_df) <-> In row_j (demo_pareto results_df)).
Proof.
  intros Hi Hj Hcost Heirp.
  split.
  { unfold demo_dominates. rewrite Hcost, Heirp. rewrite !Rltb_false by lra.
    rewrite andb_false_r. reflexivity. }
  unfold demo_pareto.
  change (demo_is_pareto results_df) with (undominated_at demo_dominates results_df).
  rewrite (select_undominated demo_dominates demo_dominates_irreflexive).
  rewrite !filter_In.
  assert (Hsame : undominated demo_dominates results_df row_i
                  = undominated demo_dominates results_df row_j).
  { unfold undominated. f_equal.
    generalize results_df as rows.
    induction rows as [| other rows IH]; [reflexivity |].
    cbn [existsb]. rewrite IH. f_equal.
    unfold demo_dominates. rewrite Hcost, Heirp. reflexivity. }
  rewrite Hsame. tauto.
Qed.

End Pareto.

(** A table of three cases: the second is cheaper and stronger than the
    first; the third has failed. *)
Definition row_of (cost_usd eirp_dbw : R) (error : option string) : Pareto.Row := {|
  Pareto.column := fun key =>
    if String.eqb key "cost_usd" then cost_usd
    else if String.eqb key "eirp_dbw" then eirp_dbw
    else 0;
  Pareto.meta_error := error
|}.

Definition sample_results : list Pareto.Row :=
  [row_of 2000 40 None; row_of 1000 45 None; row_of 500 50 (Some "ValueError")].

Lemma extract_pareto_frontier_witness :
  Pareto.extract_pareto
    (Pareto.extract_pareto sample_results Pareto.demo_objectives)
    Pareto.demo_objectives
  = Pareto.extract_pareto sample_results Pareto.demo_objectives.
Proof.
  exact (proj2 (proj1 (Pareto.extract_pareto_frontier sample_results
                         Pareto.demo_objectives))).
Defined.

Example extract_pareto_sample :
  Pareto.extract_pareto sample_results Pareto.demo_objectives = [row_of 1000 45 None].
Proof.
  unfold Pareto.extract_pareto, sample_results. cbn [List.filter Pareto.meta_error row_of].
  cbn [Pareto.select length].
  unfold Pareto.is_pareto. cbn [seq length existsb Nat.eqb negb andb Pareto.iloc nth].
  unfold Pareto.dominates, Pareto.demo_objectives.
  cbn [forallb existsb fst snd Pareto.at_least_as_good Pareto.strictly_better
       Pareto.column row_of String.eqb Ascii.eqb Bool.eqb].
  rewrite (Rleb_true 1000 2000), (Rleb_true 40 45), (Rltb_true 1000 2000) by lra.
  rewrite (Rleb_false 2000 1000) by lra.
  reflexivity.
Qed.

(** * Further functions of the embedded modules *)

(** ** models/radar/integration.py: binary integration *)

(** [a / b] on two [int]s: the quotient is rounded to a float, and the
    division raises when the divisor is zero or the quotient is beyond the
    finite floats. *)
Definition int_truediv (a b : Z) : outcome R :=
  if (b =? 0)%Z then Raises ZeroDivisionError
  else if Rltb DBL_MAX (Rabs (IZR a / IZR b)) then Raises OverflowError
  else Returns (IZR a / IZR b).

Definition binary_integration_gain (n_pulses m_of_n : Z) : outcome R :=
  if (n_pulses <? m_of_n)%Z then Raises (ValueError "m_of_n must be <= n_pulses")
  else if (m_of_n <? 1)%Z then Raises (ValueError "m_of_n must be >= 1")
  else if (n_pulses <? 1)%Z then Raises (ValueError "n_pulses must be >= 1")
  else if (n_pulses =? 1)%Z then Returns 0
  else
    ratio ← int_truediv m_of_n n_pulses;
    let efficiency := 0.7 * ratio + 0.1 in
    l ← math_log10_int n_pulses;
    mret (10 * efficiency * l).

Lemma DBL_MAX_ge_1 : 1 <= DBL_MAX.
Proof. unfold DBL_MAX. apply IZR_le. vm_compute. discriminate. Qed.

Lemma int_truediv_ratio (m n : Z) :
  (1 <= m <= n)%Z ->
  int_truediv m n = Returns (IZR m / IZR n) /\ 0 < IZR m / IZR n <= 1.
Proof.
  intros [Hm Hn]. unfold int_truediv.
  destruct (Z.eqb_spec n 0) as [-> | _]; [lia |].
  assert (Hm' : 1 <= IZR m) by (apply IZR_le; exact Hm).
  assert (Hn' : IZR m <= IZR n) by (apply IZR_le; exact Hn).
  assert (Hr : 0 < IZR m / IZR n <= 1).
  { split.
    - apply Rdiv_lt_0_compat; lra.
    - apply Rmult_le_reg_r with (IZR n); [lra |].
      unfold Rdiv. rewrite Rmult_assoc, Rinv_l by lra. lra. }
  rewrite Rabs_pos_eq by lra.
  pose proof DBL_MAX_ge_1.
  rewrite Rltb_false by lra. split; [reflexivity | exact Hr].
Qed.

(** X5: for [1 <= m_of_n <= n_pulses] the binary integration gain is returned; it
    is not negative and it is at most 0.8 times the coherent gain of the same
    number of pulses. *)
Theorem binary_integration_gain_bounds (n_pulses m_of_n : Z) :
  (1 <= m_of_n <= n_pulses)%Z ->
  exists g c,
    binary_integration_gain n_pulses m_of_n = Returns g /\
    coherent_integration_gain n_pulses = Returns c /\
    0 <= g <= 0.8 * c.
Proof.
  intros Hmn. unfold binary_integration_gain, coherent_integration_gain.
  destruct (Z.ltb_spec n_pulses m_of_n) as [? | _]; [lia |].
  destruct (Z.ltb_spec m_of_n 1) as [? | _]; [lia |].
  destruct (Z.ltb_spec n_pulses 1) as [? | _]; [lia |].
  destruct (Z.eqb_spec n_pulses 1) as [-> | Hne].
  - exists 0, 0. repeat split; lra.
  - destruct (int_truediv_ratio m_of_n n_pulses Hmn) as [-> Hr].
    unfold math_log10_int. destruct (Z.ltb_spec 0 n_pulses) as [_ | ?]; [| lia].
    pose proof (log10_int_nonneg n_pulses ltac:(lia)) as Hl.
    simpl. eexists _, _. split; [reflexivity |]. split; [reflexivity |].
    set (r := IZR m_of_n / IZR n_pulses) in *.
    set (l := ln (IZR n_pulses) / ln 10) in *. nra.
Qed.

Lemma binary_integration_gain_bounds_witness :
  exists g c,
    binary_integration_gain 8 3 = Returns g /\
    coherent_integration_gain 8 = Returns c /\
    0 <= g <= 0.8 * c.
Proof. apply (binary_integration_gain_bounds 8 3). lia. Defined.

(** X6: the checks of [binary_integration_gain] run in the order of the source,
    so the outcome for inputs out of range is fixed by the first two: the
    third check can never fire, and no call raises
    [ValueError("n_pulses must be >= 1")]. *)
Theorem binary_integration_gain_errors (n_pulses m_of_n : Z) :
  ((n_pulses < m_of_n)%Z ->
   binary_integration_gain n_pulses m_of_n
   = Raises (ValueError "m_of_n must be <= n_pulses")) /\
  ((m_of_n <= n_pulses)%Z -> (m_of_n < 1)%Z ->
   binary_integration_gain n_pulses m_of_n
   = Raises (ValueError "m_of_n must be >= 1")) /\
  binary_integration_gain n_pulses m_of_n
  <> Raises (ValueError "n_pulses must be >= 1").
Proof.
  unfold binary_integration_gain.
  destruct (Z.ltb_spec n_pulses m_of_n) as [H1 | H1].
  { repeat split; [lia | discriminate]. }
  destruct (Z.ltb_spec m_of_n 1) as [H2 | H2].
  { repeat split; [lia | discriminate]. }
  split; [lia |]. split; [lia |].
  destruct (Z.ltb_spec n_pulses 1) as [? | _]; [lia |].
  destruct (Z.eqb_spec n_pulses 1) as [_ | _]; [discriminate |].
  destruct (int_truediv_ratio m_of_n n_pulses ltac:(lia)) as [-> _].
  unfold math_log10_int. destruct (Z.ltb_spec 0 n_pulses) as [_ | ?]; [| lia].
  discriminate.
Qed.

(** *** The other gains *)

Lemma coherent_integration_gain_value (n : Z) :
  (1 <= n)%Z -> coherent_integration_gain n = Returns (10 * (ln (IZR n) / ln 10)).
Proof.
  intros Hn. unfold coherent_integration_gain.
  destruct (Z.ltb_spec n 1) as [? | _]; [lia |].
  destruct (Z.eqb_spec n 1) as [-> | _].
  - rewrite ln_1. f_equal. lra.
  - unfold math_log10_int. destruct (Z.ltb_spec 0 n) as [_ | ?]; [| lia]. reflexivity.
Qed.

Lemma noncoherent_integration_gain_value (n : Z) (pd pfa : R) :
  (1 <= n)%Z ->
  noncoherent_integration_gain n pd pfa =
  Returns (10 * (if Rleb 0.99 pd then 0.7 else if Rleb 0.9 pd then 0.8
                 else if Rleb 0.5 pd then 0.85 else 0.9)
           * (ln (IZR n) / ln 10)).
Proof.
  intros Hn. unfold noncoherent_integration_gain.
  destruct (Z.ltb_spec n 1) as [? | _]; [lia |].
  destruct (Z.eqb_spec n 1) as [-> | _].
  - rewrite ln_1. f_equal. unfold Rdiv. rewrite Rmult_0_l, Rmult_0_r. reflexivity.
  - unfold math_log10_int. destruct (Z.ltb_spec 0 n) as [_ | ?]; [| lia]. reflexivity.
Qed.

Lemma log10_int_monotone (n n' : Z) :
  (1 <= n <= n')%Z -> 0 <= ln (IZR n) / ln 10 <= ln (IZR n') / ln 10.
Proof.
  intros [Hn Hn']. split; [apply log10_int_nonneg; exact Hn |].
  pose proof ln_10_pos.
  assert (ln (IZR n) <= ln (IZR n')).
  { apply ln_le; [apply IZR_lt; lia | apply IZR_le; exact Hn']. }
  unfold Rdiv. apply Rmult_le_compat_r; [left; apply Rinv_0_lt_compat; lra | lra].
Qed.

(** X7: integrating more pulses never lowers a gain: the coherent gain, and the
    non-coherent gain at a given detection probability, do not shrink when
    the number of pulses grows; and at a given number of pulses the
    non-coherent gain does not grow with the detection probability. *)
Theorem integration_gain_monotone (n n' : Z) (pd pd' pfa : R) :
  (1 <= n <= n')%Z -> pd <= pd' ->
  exists c c' g g' h,
    coherent_integration_gain n = Returns c /\
    coherent_integration_gain n' = Returns c' /\
    noncoherent_integration_gain n pd pfa = Returns g /\
    noncoherent_integration_gain n' pd pfa = Returns g' /\
    noncoherent_integration_gain n pd' pfa = Returns h /\
    c <= c' /\ g <= g' /\ h <= g.
Proof.
  intros Hn Hpd.
  rewrite !coherent_integration_gain_value by lia.
  rewrite !noncoherent_integration_gain_value by lia.
  eexists _, _, _, _, _. do 5 (split; [reflexivity |]).
  pose proof (log10_int_monotone n n' Hn) as [Hl0 Hl].
  pose proof (noncoherent_efficiency_le_1 pd) as He.
  set (l := ln (IZR n) / ln 10) in *. set (l' := ln (IZR n') / ln 10) in *.
  split; [lra |]. split; [nra |].
  assert (Heff :
    (if Rleb 0.99 pd' then 0.7 else if Rleb 0.9 pd' then 0.8
     else if Rleb 0.5 pd' then 0.85 else 0.9)
    <= (if Rleb 0.99 pd then 0.7 else if Rleb 0.9 pd then 0.8
        else if Rleb 0.5 pd then 0.85 else 0.9)).
  { unfold Rleb.
    repeat match goal with
    | |- context [Rle_dec ?a ?b] => destruct (Rle_dec a b)
    end; lra. }
  nra.
Qed.

Lemma integration_gain_monotone_witness :
  exists c c',
    coherent_integration_gain 10 = Returns c /\
    coherent_integration_gain 100 = Returns c' /\ c <= c'.
Proof.
  destruct (integration_gain_monotone 10 100 0.5 0.9 1e-6 ltac:(lia) ltac:(lra))
    as (c & c' & _ & _ & _ & Hc & Hc' & _ & _ & _ & Hle & _).
  exists c, c'. auto.
Defined.

(** X8: [integration_loss] tests its type against "coherent" only: any other
    string is treated as "noncoherent"; and since the coherent case returns
    before the number of pulses is looked at, a number of pulses below one is
    an error for every type but "coherent", for which the loss is 0. *)
Theorem integration_loss_types (n : Z) (kind : string) (pd pfa : R) :
  kind <> "coherent" ->
  integration_loss n kind pd pfa = integration_loss n "noncoherent" pd pfa /\
  ((n < 1)%Z ->
   integration_loss n "coherent" pd pfa = Returns 0 /\
   integration_loss n kind pd pfa = Raises (ValueError "n_pulses must be >= 1")).
Proof.
  intros Hkind. apply String.eqb_neq in Hkind.
  unfold integration_loss. rewrite Hkind.
  split; [reflexivity |].
  intros Hn. split; [reflexivity |].
  unfold coherent_integration_gain.
  destruct (Z.ltb_spec n 1) as [_ | ?]; [reflexivity | lia].
Qed.

Lemma integration_loss_types_witness :
  integration_loss 0 "coherent" 0.9 1e-6 = Returns 0 /\
  integration_loss 0 "binary" 0.9 1e-6 = Raises (ValueError "n_pulses must be >= 1").
Proof.
  destruct (integration_loss_types 0 "binary" 0.9 1e-6) as [_ H]; [discriminate |].
  apply H. lia.
Defined.

(** ** models/radar/detection.py: Swerling adjustment, required SNR *)

Definition swerling_snr_adjustment (swerling : Z) (pd : R) (n_pulses : Z) : R :=
  if (swerling =? 0)%Z then 0
  else if (swerling =? 1)%Z then
    (if Rleb 0.9 pd then 8 else if Rleb 0.5 pd then 4 else 1)
  else if (swerling =? 2)%Z then
    (if Rleb 0.9 pd then 6 else if Rleb 0.5 pd then 2 else 0.5)
  else if (swerling =? 3)%Z then
    (if Rleb 0.9 pd then 4 else if Rleb 0.5 pd then 2 else 0.5)
  else if (swerling =? 4)%Z then
    (if Rleb 0.9 pd then 2 else if Rleb 0.5 pd then 1 else 0)
  else 0.

Section RequiredSNR.

Variable erfc : R -> R.
Variable gammaincinv : R -> R -> R.

(** [scipy.optimize.brentq(f, a, b)]: a root of [f] between [a] and [b], or
    the exception it raises ([ValueError] when [f(a)] and [f(b)] have the
    same sign) or lets through from [f]. *)
Variable brentq : (R -> outcome R) -> R -> R -> outcome R.

Definition compute_snr_for_pd (pd pfa : R) (swerling n_pulses : Z)
    (integration : string) : outcome R :=
  if negb (Rltb 0 pd && Rltb pd 1) then
    Raises (ValueError "pd must be between 0 and 1")
  else if negb (Rltb 0 pfa && Rltb pfa 1) then
    Raises (ValueError "pfa must be between 0 and 1")
  else
    let objective := fun snr_db =>
      pd_calc ← compute_pd_from_snr erfc gammaincinv snr_db pfa swerling n_pulses
                  integration;
      mret (pd_calc - pd) in
    snr_guess ← albersheim_snr pd pfa n_pulses;
    match brentq objective (snr_guess - 20) (snr_guess + 20) with
    | Raises (ValueError _) => Returns snr_guess
    | result => result
    end.

End RequiredSNR.

(** *** The Swerling adjustment *)

(** X9: the adjustment lies between 0 and 8 dB, does not decrease when the
    detection probability grows, does not depend on the number of pulses, and
    does not grow from one fluctuating model to the next (Swerling 1 needs the
    most); a model number outside 0..4 gives 0 and no error. *)
Theorem swerling_snr_adjustment_order (swerling : Z) (pd pd' : R) (n n' : Z) :
  0 <= swerling_snr_adjustment swerling pd n <= 8 /\
  (pd <= pd' ->
   swerling_snr_adjustment swerling pd n <= swerling_snr_adjustment swerling pd' n') /\
  ((1 <= swerling <= 3)%Z ->
   swerling_snr_adjustment (swerling + 1) pd n <= swerling_snr_adjustment swerling pd n) /\
  (~ (0 <= swerling <= 4)%Z -> swerling_snr_adjustment swerling pd n = 0).
Proof.
  unfold swerling_snr_adjustment.
  repeat match goal with
  | |- context [(?a =? ?b)%Z] => destruct (Z.eqb_spec a b)
  end; try lia.
  all: unfold Rleb.
  all: repeat match goal with
       | |- context [Rle_dec ?a ?b] => destruct (Rle_dec a b)
       end.
  all: repeat split; intros; try lra; try lia.
Qed.

(** *** compute_pd_from_snr: errors and coincidences *)

Lemma Rpower_1_l y : Rpower 1 y = 1.
Proof. unfold Rpower. rewrite ln_1, Rmult_0_r. apply exp_0. Qed.

Lemma int_pow_0_8_convertible (n : Z) :
  Rabs (IZR n) <= DBL_MAX -> exists p, int_pow_0_8 n = Returns p.
Proof.
  intros Hn. unfold int_pow_0_8, float_of_int.
  rewrite Rltb_false by assumption. simpl.
  unfold Rltb at 1. destruct (Rlt_dec 0 (IZR n)) as [Hpos | _].
  - assert (1 <= IZR n).
    { apply IZR_le. apply lt_IZR in Hpos. lia. }
    rewrite Rabs_pos_eq in Hn by lra.
    pose proof (Rpower_0_8_le (IZR n) ltac:(assumption)).
    rewrite Rltb_false by lra. eauto.
  - destruct (Reqb (IZR n) 0); eauto.
Qed.

(** X10: a false-alarm probability outside (0, 1) is rejected before anything else
    is looked at; a Swerling model outside 0..4 is rejected, with its number
    in the message, once the signal-to-noise ratio has been converted. *)
Theorem compute_pd_from_snr_errors erfc gammaincinv
    (snr_db pfa : R) (swerling n_pulses : Z) (integration : string) :
  (~ 0 < pfa < 1 ->
   compute_pd_from_snr erfc gammaincinv snr_db pfa swerling n_pulses integration
   = Raises (ValueError "pfa must be between 0 and 1")) /\
  (0 < pfa < 1 -> ~ (0 <= swerling <= 4)%Z ->
   Rpower 10 (snr_db / 10) <= DBL_MAX -> Rabs (IZR n_pulses) <= DBL_MAX ->
   compute_pd_from_snr erfc gammaincinv snr_db pfa swerling n_pulses integration
   = Raises (ValueError ("Unknown Swerling model: " ++ pretty swerling))).
Proof.
  unfold compute_pd_from_snr. split.
  - intros Hpfa.
    replace (Rltb 0 pfa && Rltb pfa 1) with false; [reflexivity |].
    symmetry. apply andb_false_iff. unfold Rltb.
    destruct (Rlt_dec 0 pfa); [| auto]. destruct (Rlt_dec pfa 1); [| auto].
    exfalso. apply Hpfa. lra.
  - intros Hpfa Hsw Hsnr Hn.
    rewrite pfa_check_passes by assumption.
    unfold pow10. rewrite Rltb_false by lra. simpl.
    assert (Hx : exists x,
      (if String.eqb integration "coherent"
       then n ← float_of_int n_pulses; mret (Real (Rpower 10 (snr_db / 10) * n))
       else p ← int_pow_0_8 n_pulses;
            mret (match p with
                  | Real p => Real (Rpower 10 (snr_db / 10) * p)
                  | Complex => Complex
                  end)) = Returns x).
    { destruct (String.eqb integration "coherent").
      - unfold float_of_int. rewrite Rltb_false by assumption. simpl. eauto.
      - destruct (int_pow_0_8_convertible n_pulses Hn) as [p ->]. simpl. eauto. }
    destruct Hx as [x ->]. simpl.
    unfold compute_detection_threshold.
    rewrite pfa_check_passes by assumption. simpl.
    destruct (Z.eqb_spec swerling 0) as [-> | _]; [lia |].
    rewrite bool_decide_eq_false_2; [reflexivity |].
    rewrite !elem_of_cons, elem_of_nil. lia.
Qed.

(** X11: the code gives Swerling 1 and Swerling 4 the same adjustment factor: for
    all other arguments the two models give the same outcome. *)
Theorem compute_pd_from_snr_swerling_1_4 erfc gammaincinv
    (snr_db pfa : R) (n_pulses : Z) (integration : string) :
  compute_pd_from_snr erfc gammaincinv snr_db pfa 1 n_pulses integration
  = compute_pd_from_snr erfc gammaincinv snr_db pfa 4 n_pulses integration.
Proof.
  unfold compute_pd_from_snr.
  change (1 =? 0)%Z with false. change (4 =? 0)%Z with false.
  rewrite !bool_decide_eq_true_2 by (rewrite !elem_of_cons; lia).
  reflexivity.
Qed.

(** With a single pulse the integration type makes no difference, whatever
    string it is. *)
Lemma compute_pd_from_snr_single_pulse_integration erfc gammaincinv
    (snr_db pfa : R) (swerling : Z) (integration : string) :
  compute_pd_from_snr erfc gammaincinv snr_db pfa swerling 1 integration
  = compute_pd_from_snr erfc gammaincinv snr_db pfa swerling 1 "coherent".
Proof.
  unfold compute_pd_from_snr.
  destruct (String.eqb integration "coherent") eqn:Hi.
  - change ("coherent" =? "coherent")%string with true. reflexivity.
  - change ("coherent" =? "coherent")%string with true.
    assert (Hone : int_pow_0_8 1 = Returns (Real 1)).
    { rewrite int_pow_0_8_in_range by (lia || apply DBL_MAX_ge_1).
      rewrite Rpower_1_l. reflexivity. }
    assert (Hconv : float_of_int 1 = Returns 1).
    { apply float_of_int_in_range; [lia | apply DBL_MAX_ge_1]. }
    rewrite Hone, Hconv. reflexivity.
Qed.

(** *** Albersheim's equation *)

Lemma exp_1_gt_2 : 2 < exp 1.
Proof. pose proof (exp_ineq1 1 ltac:(lra)). lra. Qed.

Lemma exp_3_bounds : 8 < exp 3 <= 27.
Proof.
  replace 3 with (1 + (1 + 1)) by lra. rewrite !exp_plus.
  pose proof exp_1_gt_2. pose proof exp_le_3.
  set (e := exp 1) in *. nra.
Qed.

Lemma ln_le_3 q : 0 < q <= 8 -> ln q <= 3.
Proof.
  intros [Hq0 Hq]. rewrite <- (ln_exp 3).
  apply ln_le; [assumption |]. pose proof exp_3_bounds. lra.
Qed.

Lemma ln_gt_1 q : 3 <= q -> 1 <= ln q.
Proof.
  intros Hq. rewrite <- (ln_exp 1) at 1.
  apply ln_le; [apply exp_pos |]. pose proof exp_le_3. lra.
Qed.

(** The steps of [albersheim_snr] up to the last logarithm. *)
Lemma albersheim_snr_run (pd pfa : R) (n_pulses : Z) :
  0.1 <= pd <= 0.9999 -> 1e-10 <= pfa <= 0.1 ->
  (1 <= n_pulses)%Z -> IZR n_pulses <= DBL_MAX ->
  albersheim_snr pd pfa n_pulses =
    (m ← math_log10 (ln (0.62 / pfa) + 0.12 * ln (0.62 / pfa) * ln (pd / (1 - pd))
                     + 1.7 * ln (pd / (1 - pd)));
     mret (-5 * (ln (IZR n_pulses) / ln 10)
           + (6.2 + 4.54 / sqrt (IZR n_pulses + 0.44)) * m)).
Proof.
  intros Hpd Hpfa Hn Hmax. unfold albersheim_snr.
  rewrite !Rleb_true by lra.
  destruct (Z.ltb_spec n_pulses 1) as [? | _]; [lia |]. cbn [negb andb].
  assert (0 < 0.62 / pfa) by (apply Rdiv_lt_0_compat; lra).
  assert (0 < pd / (1 - pd)) by (apply Rdiv_lt_0_compat; lra).
  pose proof (IZR_le _ _ Hn) as Hn'.
  assert (0 < sqrt (IZR n_pulses + 0.44)) by (apply sqrt_lt_R0; lra).
  rewrite (truediv_nonzero 0.62 pfa) by lra. rewrite bind_Returns.
  rewrite math_log_pos by assumption. rewrite bind_Returns.
  rewrite (truediv_nonzero pd (1 - pd)) by lra. rewrite bind_Returns.
  rewrite math_log_pos by assumption. rewrite bind_Returns.
  unfold math_log10_int. destruct (Z.ltb_spec 0 n_pulses) as [_ | ?]; [| lia].
  rewrite bind_Returns.
  rewrite float_of_int_in_range by assumption. rewrite bind_Returns.
  rewrite math_sqrt_nonneg by lra. rewrite bind_Returns.
  rewrite truediv_nonzero by lra. rewrite bind_Returns.
  reflexivity.
Qed.

(** X12: for a detection probability of at least one half, inside the ranges that
    the function checks, Albersheim's equation returns a value; for a single
    pulse the required signal-to-noise ratio is not negative. *)
Theorem albersheim_snr_returns (pd pfa : R) (n_pulses : Z) :
  0.5 <= pd <= 0.9999 -> 1e-10 <= pfa <= 0.1 ->
  (1 <= n_pulses)%Z -> IZR n_pulses <= DBL_MAX ->
  exists snr,
    albersheim_snr pd pfa n_pulses = Returns snr /\
    (n_pulses = 1%Z -> 0 <= snr).
Proof.
  intros Hpd Hpfa Hn Hmax.
  rewrite albersheim_snr_run by (assumption || lra).
  assert (HA : 1 <= ln (0.62 / pfa)).
  { apply ln_gt_1.
    apply Rmult_le_reg_r with pfa; [lra |].
    unfold Rdiv. rewrite Rmult_assoc, Rinv_l by lra. lra. }
  assert (HB : 0 <= ln (pd / (1 - pd))).
  { apply ln_nonneg.
    apply Rmult_le_reg_r with (1 - pd); [lra |].
    unfold Rdiv. rewrite Rmult_assoc, Rinv_l by lra. lra. }
  set (A := ln (0.62 / pfa)) in *. set (B := ln (pd / (1 - pd))) in *.
  assert (HZ : 1 <= A + 0.12 * A * B + 1.7 * B) by nra.
  rewrite math_log10_pos by lra. rewrite bind_Returns.
  eexists. split; [reflexivity |].
  intros ->. rewrite ln_1.
  assert (0 <= ln (A + 0.12 * A * B + 1.7 * B) / ln 10).
  { apply Rmult_le_pos; [apply ln_nonneg; exact HZ |].
    left. apply Rinv_0_lt_compat, ln_10_pos. }
  assert (0 < sqrt (1 + 0.44)) by (apply sqrt_lt_R0; lra).
  assert (0 <= 4.54 / sqrt (1 + 0.44)).
  { apply Rmult_le_pos; [lra | left; apply Rinv_0_lt_compat; assumption]. }
  unfold Rdiv at 1. rewrite Rmult_0_l. nra.
Qed.

Lemma albersheim_snr_returns_witness :
  exists snr, albersheim_snr 0.9 1e-6 10 = Returns snr /\ (10%Z = 1%Z -> 0 <= snr).
Proof.
  apply (albersheim_snr_returns 0.9 1e-6 10); [lra | lra | lia |].
  unfold DBL_MAX. apply IZR_le. vm_compute. discriminate.
Defined.

(** X13: inside the ranges that the function checks there are inputs for which the
    argument of the last logarithm is negative: for a detection probability
    between 0.1 and 0.16 and a false-alarm probability between 0.08 and 0.1
    the call raises the [ValueError] of [math.log10]. *)
Theorem albersheim_snr_math_domain_error (pd pfa : R) (n_pulses : Z) :
  0.1 <= pd <= 0.16 -> 0.08 <= pfa <= 0.1 ->
  (1 <= n_pulses)%Z -> IZR n_pulses <= DBL_MAX ->
  albersheim_snr pd pfa n_pulses = Raises (ValueError "math domain error").
Proof.
  intros Hpd Hpfa Hn Hmax.
  rewrite albersheim_snr_run by (assumption || lra).
  assert (Hq : 3 <= 0.62 / pfa <= 8).
  { split.
    - apply Rmult_le_reg_r with pfa; [lra |].
      unfold Rdiv. rewrite Rmult_assoc, Rinv_l by lra. lra.
    - apply Rmult_le_reg_r with pfa; [lra |].
      unfold Rdiv. rewrite Rmult_assoc, Rinv_l by lra. lra. }
  assert (HA : 1 <= ln (0.62 / pfa) <= 3).
  { split; [apply ln_gt_1; lra | apply ln_le_3; lra]. }
  assert (Hr : 0 < pd / (1 - pd) <= 0.16 / 0.84).
  { split; [apply Rdiv_lt_0_compat; lra |].
    apply Rmult_le_reg_r with (1 - pd); [lra |].
    unfold Rdiv at 1. rewrite Rmult_assoc, Rinv_l by lra. lra. }
  assert (HB : 2 * ln (pd / (1 - pd)) <= -3).
  { set (r := pd / (1 - pd)) in *.
    replace (2 * ln r) with (ln (r * r)) by (rewrite ln_mult by lra; lra).
    replace (-3) with (Ropp 3) by lra.
    rewrite <- (ln_exp (Ropp 3)). apply ln_le; [nra |].
    pose proof exp_3_bounds as [_ He].
    rewrite exp_Ropp.
    assert (/ 27 <= / exp 3).
    { apply Rinv_le_contravar; [apply exp_pos | exact He]. }
    nra. }
  set (A := ln (0.62 / pfa)) in *. set (B := ln (pd / (1 - pd))) in *.
  unfold math_log10. rewrite Rltb_false by nra. reflexivity.
Qed.

Lemma albersheim_snr_math_domain_error_witness :
  albersheim_snr 0.1 0.1 1 = Raises (ValueError "math domain error").
Proof.
  apply (albersheim_snr_math_domain_error 0.1 0.1 1); [lra | lra | lia |].
  apply DBL_MAX_ge_1.
Defined.

(** *** compute_snr_for_pd *)

Section RequiredSNRProperties.

Variable erfc : R -> R.
Variable gammaincinv : R -> R -> R.
Variable brentq : (R -> outcome R) -> R -> R -> outcome R.

(** X14: the initial guess is computed outside the [try]: a required detection
    probability that the function's own check accepts but Albersheim's
    equation does not (below 0.1, or above 0.9999) makes the call raise
    Albersheim's [ValueError], whatever the root finder would do. *)
Theorem compute_snr_for_pd_rejects_valid_pd
    (pd pfa : R) (swerling n_pulses : Z) (integration : string) :
  0 < pfa < 1 ->
  0 < pd < 0.1 \/ 0.9999 < pd < 1 ->
  compute_snr_for_pd erfc gammaincinv brentq pd pfa swerling n_pulses integration
  = Raises (ValueError "pd must be between 0.1 and 0.9999 for Albersheim").
Proof.
  intros Hpfa Hpd. unfold compute_snr_for_pd.
  rewrite (pfa_check_passes pd) by lra.
  rewrite (pfa_check_passes pfa) by assumption.
  unfold albersheim_snr.
  destruct Hpd as [Hpd | Hpd].
  - rewrite (Rleb_false 0.1 pd) by lra. reflexivity.
  - rewrite (Rleb_true 0.1 pd), (Rleb_false pd 0.9999) by lra. reflexivity.
Qed.

(** X15: when the root finder raises [ValueError], the Albersheim estimate is
    returned in its place; a root it finds is returned as it is, and any
    other exception reaches the caller. *)
Theorem compute_snr_for_pd_fallback
    (pd pfa : R) (swerling n_pulses : Z) (integration : string) (snr_guess : R) :
  0 < pd < 1 -> 0 < pfa < 1 ->
  albersheim_snr pd pfa n_pulses = Returns snr_guess ->
  let objective := fun snr_db =>
    pd_calc ← compute_pd_from_snr erfc gammaincinv snr_db pfa swerling n_pulses
                integration;
    mret (pd_calc - pd) in
  let found := brentq objective (snr_guess - 20) (snr_guess + 20) in
  let result :=
    compute_snr_for_pd erfc gammaincinv brentq pd pfa swerling n_pulses integration in
  (forall msg, found = Raises (ValueError msg) -> result = Returns snr_guess) /\
  (forall root, found = Returns root -> result = Returns root) /\
  (forall e, found = Raises e -> (forall msg, e <> ValueError msg) -> result = Raises e).
Proof.
  intros Hpd Hpfa Hguess objective found result.
  unfold result, compute_snr_for_pd.
  rewrite (pfa_check_passes pd) by assumption.
  rewrite (pfa_check_passes pfa) by assumption.
  rewrite Hguess. rewrite bind_Returns. fold objective. fold found.
  repeat split.
  - intros msg ->. reflexivity.
  - intros root ->. reflexivity.
  - intros e -> He. destruct e; try reflexivity. exfalso. eapply He. reflexivity.
Qed.

End RequiredSNRProperties.

(** A root finder that finds no sign change. *)
Definition failing_brentq (f : R -> outcome R) (a b : R) : outcome R :=
  Raises (ValueError "f(a) and f(b) must have different signs").

Lemma compute_snr_for_pd_rejects_valid_pd_witness :
  compute_snr_for_pd rational_erfc exponential_gammaincinv failing_brentq
    0.05 1e-6 0 1 "noncoherent"
  = Raises (ValueError "pd must be between 0.1 and 0.9999 for Albersheim").
Proof.
  apply (compute_snr_for_pd_rejects_valid_pd
           rational_erfc exponential_gammaincinv failing_brentq
           0.05 1e-6 0 1 "noncoherent"); [lra | left; lra].
Defined.

Lemma compute_snr_for_pd_fallback_witness :
  exists snr_guess,
    albersheim_snr 0.9 1e-6 1 = Returns snr_guess /\
    compute_snr_for_pd rational_erfc exponential_gammaincinv failing_brentq
      0.9 1e-6 0 1 "noncoherent" = Returns snr_guess.
Proof.
  destruct albersheim_snr_sample as (snr_guess & Hguess & _).
  exists snr_guess. split; [exact Hguess |].
  refine (proj1 (compute_snr_for_pd_fallback
            rational_erfc exponential_gammaincinv failing_brentq
            0.9 1e-6 0 1 "noncoherent" snr_guess _ _ Hguess) _ eq_refl); lra.
Defined.

(** ** Inversion of the float primitives *)

Lemma math_log10_Returns_inv x l :
  math_log10 x = Returns l -> 0 < x /\ l = ln x / ln 10.
Proof.
  unfold math_log10, Rltb. destruct (Rlt_dec 0 x); intros [= <-]. auto.
Qed.

Lemma pow10_Returns_inv y p : pow10 y = Returns p -> p = Rpower 10 y.
Proof. unfold pow10. destruct (Rltb _ _); intros [= <-]. reflexivity. Qed.


Lemma Rpower_10_ge_1 y : 0 <= y -> 1 <= Rpower 10 y.
Proof.
  intros Hy. apply Rle_trans with (Rpower 10 0).
  - rewrite Rpower_O by lra. lra.
  - apply Rle_Rpower; lra.
Qed.

Lemma Rpower_10_le_1 y : y <= 0 -> Rpower 10 y <= 1.
Proof.
  intros Hy. apply Rle_trans with (Rpower 10 0).
  - apply Rle_Rpower; lra.
  - rewrite Rpower_O by lra. lra.
Qed.

Lemma coherent_integration_gain_Returns_inv n c :
  coherent_integration_gain n = Returns c ->
  (1 <= n)%Z /\ 0 <= c /\ (n = 1%Z -> c = 0).
Proof.
  unfold coherent_integration_gain.
  destruct (Z.ltb_spec n 1) as [? | Hn]; [discriminate |].
  destruct (Z.eqb_spec n 1) as [-> | Hne].
  - intros [= <-]. repeat split; [lia | lra].
  - unfold math_log10_int. destruct (Z.ltb_spec 0 n) as [_ | ?]; [| lia].
    intros [= <-]. pose proof (log10_int_nonneg n Hn).
    repeat split; [assumption | lra | intros; contradiction].
Qed.

Lemma noncoherent_integration_gain_Returns_inv n pd pfa g :
  noncoherent_integration_gain n pd pfa = Returns g ->
  (1 <= n)%Z /\ 0 <= g /\ (n = 1%Z -> g = 0).
Proof.
  intros Hg.
  assert (Hn : (1 <= n)%Z).
  { unfold noncoherent_integration_gain in Hg.
    destruct (Z.ltb_spec n 1); [discriminate | assumption]. }
  destruct (noncoherent_integration_gain_bounds n pd pfa Hn) as (g' & Hg' & Hpos & _).
  rewrite Hg in Hg'. injection Hg' as <-.
  repeat split; [assumption .. |].
  intros ->. unfold noncoherent_integration_gain in Hg.
  change (1 <? 1)%Z with false in Hg. change (1 =? 1)%Z with true in Hg.
  injection Hg as <-. reflexivity.
Qed.

(** Whenever [compute_pd_from_snr] returns, what it returns is a probability. *)
Lemma compute_pd_from_snr_Returns_inv erfc gammaincinv snr_db pfa swerling n_pulses
    integration pd :
  compute_pd_from_snr erfc gammaincinv snr_db pfa swerling n_pulses integration
  = Returns pd ->
  0 <= pd <= 1.
Proof.
  unfold compute_pd_from_snr.
  destruct (negb _); [discriminate |].
  intros H.
  apply bind_Returns_inv in H as (lin & _ & H).
  apply bind_Returns_inv in H as (x & _ & H).
  apply bind_Returns_inv in H as (t & _ & H).
  destruct (swerling =? 0)%Z; [| destruct (bool_decide _); [| discriminate]].
  all: apply bind_Returns_inv in H as (x' & _ & H).
  all: apply bind_Returns_inv in H as (sa & _ & H).
  all: apply bind_Returns_inv in H as (sb & _ & H).
  all: apply mret_Returns_inv in H; subst pd; apply py_min_max_unit.
Qed.

(** ** scenarios/radar.py: the computed fields *)

Definition RadarDetectionScenario_wavelength_m (self : RadarDetectionScenario)
    : outcome R :=
  truediv C_LIGHT (freq_hz self).

Definition RadarDetectionScenario_target_rcs_m2 (self : RadarDetectionScenario)
    : outcome R :=
  pow10 (target_rcs_dbsm self / 10).

(** ** The record returned by the radar model *)

Section RadarRecordInversion.

Variable erfc : R -> R.
Variable gammaincinv : R -> R -> R.

(** What a call of [RadarModel.evaluate] that returns has computed. *)
Lemma RadarModel_result_inv arch scenario (context m : MetricsDict) :
  RadarModel_result erfc gammaincinv arch scenario context = Returns m ->
  exists n_elements_f peak_power_dbw wavelength_m wavelength_log rcs_m2 range_log
         noise_log radar_log g integration_gain_db snr_required_db pd_achieved
         detection_range_m,
    float_of_int (n_elements (array arch)) = Returns n_elements_f /\
    W_TO_DBW (tx_power_w_per_elem (rf arch) * n_elements_f) = Returns peak_power_dbw /\
    truediv C_LIGHT (freq_hz scenario) = Returns wavelength_m /\
    math_log10 wavelength_m = Returns wavelength_log /\
    pow10 (target_rcs_dbsm scenario / 10) = Returns rcs_m2 /\
    math_log10 (range_m scenario) = Returns range_log /\
    W_TO_DBW (K_B * rx_noise_temp_k scenario * bandwidth_hz scenario)
      = Returns noise_log /\
    math_log10 (4 * PI) = Returns radar_log /\
    (if String.eqb (integration_type scenario) "coherent"
     then coherent_integration_gain (n_pulses scenario)
     else noncoherent_integration_gain (n_pulses scenario) (pd_required scenario)
            (pfa scenario)) = Returns integration_gain_db /\
    albersheim_snr (pd_required scenario) (pfa scenario) 1 = Returns snr_required_db /\
    let snr_single_db :=
      peak_power_dbw + 2 * g + 2 * (10 * wavelength_log) + target_rcs_dbsm scenario
      - 4 * (10 * range_log)
      - (feed_loss_db (rf arch) + system_loss_db (rf arch))
      - 30 * radar_log - (noise_log + noise_figure_db (rf arch)) in
    let snr_integrated_db := snr_single_db + integration_gain_db in
    let snr_margin_db := snr_integrated_db - snr_required_db in
    compute_pd_from_snr erfc gammaincinv snr_integrated_db (pfa scenario) 0 1 "coherent"
      = Returns pd_achieved /\
    (if Rltb (-40) snr_margin_db
     then p ← pow10 (snr_margin_db / 40); mret (range_m scenario * p)
     else mret 0) = Returns detection_range_m /\
    m = list_to_map [
      ("peak_power_w", VNum (tx_power_w_per_elem (rf arch) * n_elements_f));
      ("peak_power_dbw", VNum peak_power_dbw);
      ("g_ant_db", VNum g);
      ("wavelength_m", VNum wavelength_m);
      ("target_rcs_dbsm", VNum (target_rcs_dbsm scenario));
      ("target_rcs_m2", VNum rcs_m2);
      ("range_m", VNum (range_m scenario));
      ("noise_power_dbw", VNum (noise_log + noise_figure_db (rf arch)));
      ("system_loss_db", VNum (feed_loss_db (rf arch) + system_loss_db (rf arch)));
      ("snr_single_pulse_db", VNum snr_single_db);
      ("integration_gain_db", VNum integration_gain_db);
      ("snr_integrated_db", VNum snr_integrated_db);
      ("snr_required_db", VNum snr_required_db);
      ("snr_margin_db", VNum snr_margin_db);
      ("pd_achieved", VNum pd_achieved);
      ("pd_required", VNum (pd_required scenario));
      ("pfa", VNum (pfa scenario));
      ("n_pulses", VNum (IZR (n_pulses scenario)));
      ("integration_type", VStr (integration_type scenario));
      ("detection_range_m", VNum detection_range_m)
    ].
Proof.
  intros Hm. unfold RadarModel_result, RadarModel_evaluate in Hm.
  destruct (context !! "g_peak_db") as [v |] eqn:Hg;
    destruct (context !! "scan_loss_db") as [l |] eqn:Hs.
  all: repeat (first [ rewrite run_bind_assoc in Hm | rewrite run_bind_contains in Hm
               | rewrite run_bind_getitem in Hm | rewrite run_bind_lift in Hm
               | rewrite run_bind_ret in Hm ];
          cbn [heap] in Hm;
          change ([context] !!! 0%nat) with context in Hm;
          rewrite ?Hg, ?Hs in Hm;
          rewrite ?bool_decide_eq_true_2 in Hm by eauto;
          rewrite ?bool_decide_eq_false_2 in Hm by (intros [? ?]; discriminate)).
  all: try match type of Hm with
       | fst (match ?o with _ => _ end) = _ =>
           destruct o as [gv | |]; cbn [fst] in Hm; try discriminate
       end.
  all: unfold lift in Hm; cbn [fst] in Hm.
  all: apply bind_Returns_inv in Hm as (nf & Hnf & Hm).
  all: apply bind_Returns_inv in Hm as (ppd & Hppd & Hm).
  all: apply bind_Returns_inv in Hm as (wl & Hwl & Hm).
  all: apply bind_Returns_inv in Hm as (wdb & Hwdb & Hm).
  all: apply bind_Returns_inv in Hwdb as (wlog & Hwlog & Hwdb);
    apply mret_Returns_inv in Hwdb; subst wdb.
  all: apply bind_Returns_inv in Hm as (rcs & Hrcs & Hm).
  all: apply bind_Returns_inv in Hm as (rdb & Hrdb & Hm).
  all: apply bind_Returns_inv in Hrdb as (rlog & Hrlog & Hrdb);
    apply mret_Returns_inv in Hrdb; subst rdb.
  all: apply bind_Returns_inv in Hm as (ndb & Hndb & Hm).
  all: apply bind_Returns_inv in Hndb as (nlog & Hnlog & Hndb);
    apply mret_Returns_inv in Hndb; subst ndb.
  all: apply bind_Returns_inv in Hm as (cdb & Hcdb & Hm).
  all: apply bind_Returns_inv in Hcdb as (clog & Hclog & Hcdb);
    apply mret_Returns_inv in Hcdb; subst cdb.
  all: apply bind_Returns_inv in Hm as (g & _ & Hm).
  all: apply bind_Returns_inv in Hm as (ig & Hig & Hm).
  all: apply bind_Returns_inv in Hm as (req & Hreq & Hm).
  all: apply bind_Returns_inv in Hm as (pd & Hpd & Hm).
  all: apply bind_Returns_inv in Hm as (dr & Hdr & Hm).
  all: apply mret_Returns_inv in Hm.
  all: exists nf, ppd, wl, wlog, rcs, rlog, nlog, clog, g, ig, req, pd, dr.
  all: cbv zeta.
  all: repeat (split; [assumption |]).
  all: symmetry; exact Hm.
Qed.

End RadarRecordInversion.

Ltac radar_record Hm :=
  apply RadarModel_result_inv in Hm
    as (nf & ppd & wl & wlog & rcs & rlog & nlog & clog & g & ig & req & pd & dr
        & Hnf & Hppd & Hwl & Hwlog & Hrcs & Hrlog & Hnlog & Hclog & Hig & Hreq
        & Hpd & Hdr & ->).

Section RadarRecord.

Variable erfc : R -> R.
Variable gammaincinv : R -> R -> R.

(** X16: the record of the radar model has these twenty keys and no other. *)
Theorem RadarModel_record_keys arch scenario (context m : MetricsDict) :
  RadarModel_result erfc gammaincinv arch scenario context = Returns m ->
  dom m = list_to_set [
    "peak_power_w"; "peak_power_dbw"; "g_ant_db"; "wavelength_m"; "target_rcs_dbsm";
    "target_rcs_m2"; "range_m"; "noise_power_dbw"; "system_loss_db";
    "snr_single_pulse_db"; "integration_gain_db"; "snr_integrated_db";
    "snr_required_db"; "snr_margin_db"; "pd_achieved"; "pd_required"; "pfa";
    "n_pulses"; "integration_type"; "detection_range_m"].
Proof.
  intros Hm. radar_record Hm.
  rewrite dom_list_to_map_L. reflexivity.
Qed.

(** The record repeats the inputs of the scenario, and its wavelength and
    radar cross section in square metres are the scenario's computed fields. *)
Lemma RadarModel_record_scenario arch scenario (context m : MetricsDict) :
  RadarModel_result erfc gammaincinv arch scenario context = Returns m ->
  (exists w, RadarDetectionScenario_wavelength_m scenario = Returns w /\
             m !! "wavelength_m" = Some (VNum w)) /\
  (exists a, RadarDetectionScenario_target_rcs_m2 scenario = Returns a /\
             m !! "target_rcs_m2" = Some (VNum a)) /\
  m !! "target_rcs_dbsm" = Some (VNum (target_rcs_dbsm scenario)) /\
  m !! "range_m" = Some (VNum (range_m scenario)) /\
  m !! "pd_required" = Some (VNum (pd_required scenario)) /\
  m !! "pfa" = Some (VNum (pfa scenario)) /\
  m !! "n_pulses" = Some (VNum (IZR (n_pulses scenario))) /\
  m !! "integration_type" = Some (VStr (integration_type scenario)).
Proof.
  intros Hm. radar_record Hm.
  split; [exists wl; split; [exact Hwl | reflexivity] |].
  split; [exists rcs; split; [exact Hrcs | reflexivity] |].
  repeat split; reflexivity.
Qed.

(** X17: the signal-to-noise entries of the record fit together: the integrated
    ratio is the single-pulse ratio plus an integration gain that is not
    negative (and zero for a single pulse), the margin is the integrated ratio
    less the required one, and the probability of detection lies in [0, 1]. *)
Theorem RadarModel_record_snr arch scenario (context m : MetricsDict) :
  RadarModel_result erfc gammaincinv arch scenario context = Returns m ->
  exists single gain integrated required margin pd,
    m !! "snr_single_pulse_db" = Some (VNum single) /\
    m !! "integration_gain_db" = Some (VNum gain) /\
    m !! "snr_integrated_db" = Some (VNum integrated) /\
    m !! "snr_required_db" = Some (VNum required) /\
    m !! "snr_margin_db" = Some (VNum margin) /\
    m !! "pd_achieved" = Some (VNum pd) /\
    integrated = single + gain /\
    margin = integrated - required /\
    0 <= gain /\
    (n_pulses scenario = 1%Z -> gain = 0) /\
    0 <= pd <= 1.
Proof.
  intros Hm. radar_record Hm.
  eexists _, ig, _, req, _, pd.
  do 6 (split; [reflexivity |]).
  do 2 (split; [reflexivity |]).
  apply compute_pd_from_snr_Returns_inv in Hpd.
  assert (Hgain : 0 <= ig /\ (n_pulses scenario = 1%Z -> ig = 0)).
  { destruct (String.eqb _ _).
    - apply coherent_integration_gain_Returns_inv in Hig. tauto.
    - apply noncoherent_integration_gain_Returns_inv in Hig. tauto. }
  tauto.
Qed.

(** X18: the detection range of the record against its margin: zero when the
    margin is -40 dB or less, at least the range of the scenario when the
    margin is not negative, and at most that range when it is not positive. *)
Theorem RadarModel_record_detection_range arch scenario (context m : MetricsDict) :
  RadarModel_result erfc gammaincinv arch scenario context = Returns m ->
  exists margin d,
    m !! "snr_margin_db" = Some (VNum margin) /\
    m !! "detection_range_m" = Some (VNum d) /\
    0 <= d /\
    (margin <= -40 -> d = 0) /\
    (0 <= margin -> range_m scenario <= d) /\
    (margin <= 0 -> d <= range_m scenario).
Proof.
  intros Hm. radar_record Hm.
  eexists _, dr. do 2 (split; [reflexivity |]).
  apply math_log10_Returns_inv in Hrlog as [Hrange _].
  match type of Hdr with
  | (if Rltb (-40) ?x then _ else _) = _ => set (margin := x) in *
  end.
  unfold Rltb in Hdr. destruct (Rlt_dec (-40) margin) as [Hlt | Hge].
  - apply bind_Returns_inv in Hdr as (p & Hp & Hdr).
    apply pow10_Returns_inv in Hp. apply mret_Returns_inv in Hdr. subst p dr.
    pose proof (Rpower_pos 10 (margin / 40)) as Hpos.
    repeat split.
    + nra.
    + intros. lra.
    + intros Hm0. pose proof (Rpower_10_ge_1 (margin / 40) ltac:(lra)). nra.
    + intros Hm0. pose proof (Rpower_10_le_1 (margin / 40) ltac:(lra)). nra.
  - apply mret_Returns_inv in Hdr. subst dr.
    repeat split; intros; lra.
Qed.

(** X19: without [g_peak_db] in the context the gain is the approximation for a
    uniform rectangular array, [10 * log10(4 * pi * nx * dx * ny * dy)]; a
    [scan_loss_db] in the context is then not applied: the outcome is that of
    the call with an empty context. *)
Theorem RadarModel_fallback_gain arch scenario (context m : MetricsDict) :
  context !! "g_peak_db" = None ->
  RadarModel_result erfc gammaincinv arch scenario context = Returns m ->
  m !! "g_ant_db" =
    Some (VNum (10 * (ln (4 * PI * (IZR (nx (array arch)) * dx_lambda (array arch)
                                    * IZR (ny (array arch)) * dy_lambda (array arch)))
                      / ln 10))) /\
  RadarModel_result erfc gammaincinv arch scenario ∅ = Returns m.
Proof.
  intros Hg Hm.
  rewrite RadarModel_result_no_gain in Hm by exact Hg.
  split; [| exact Hm].
  -
    unfold RadarModel_result, RadarModel_evaluate in Hm.
    repeat (first [ rewrite run_bind_assoc in Hm | rewrite run_bind_contains in Hm
                  | rewrite run_bind_lift in Hm ];
            cbn [heap] in Hm;
            change ([∅] !!! 0%nat) with (∅ : MetricsDict) in Hm;
            rewrite ?lookup_empty in Hm;
            rewrite ?bool_decide_eq_false_2 in Hm by (intros [? ?]; discriminate)).
    match type of Hm with
    | fst (match ?o with _ => _ end) = _ =>
        destruct o as [gv | |] eqn:Hgain; cbn [fst] in Hm; try discriminate
    end.
    apply bind_Returns_inv in Hgain as (nx_f & Hnx & Hgain).
    apply bind_Returns_inv in Hgain as (ny_f & Hny & Hgain).
    apply bind_Returns_inv in Hgain as (l & Hl & Hgain).
    apply mret_Returns_inv in Hgain. subst gv.
    apply math_log10_Returns_inv in Hl as [_ ->].
    unfold float_of_int in Hnx, Hny.
    destruct (Rltb _ _) in Hnx; [discriminate |]. injection Hnx as <-.
    destruct (Rltb _ _) in Hny; [discriminate |]. injection Hny as <-.
    unfold lift in Hm; cbn [fst] in Hm.
    repeat (apply bind_Returns_inv in Hm as (? & ? & Hm)).
    cbn [value_as_float] in *.
    apply mret_Returns_inv in Hm; subst m.
    match goal with H : Returns _ = Returns _ |- _ => injection H as <- end.
    reflexivity.
Qed.

End RadarRecord.

(** ** Inputs on which the radar model returns *)

Lemma Rdiv_bounds (a f lo hi : R) :
  0 < f -> lo * f <= a <= hi * f -> lo <= a / f <= hi.
Proof.
  intros Hf [Hlo Hhi].
  assert (Heq : a / f * f = a) by (field; lra).
  split; apply Rmult_le_reg_r with f; try assumption; rewrite Heq; assumption.
Qed.

Lemma albersheim_snr_single_pulse (pd pfa : R) :
  0.5 <= pd <= 0.9999 -> 1e-10 <= pfa <= 0.1 ->
  exists snr, albersheim_snr pd pfa 1 = Returns snr /\ 0 <= snr.
Proof.
  intros Hpd Hpfa.
  rewrite albersheim_snr_run by (lra || lia || apply DBL_MAX_ge_1).
  assert (HA : 1 <= ln (0.62 / pfa)).
  { apply ln_gt_1.
    apply Rmult_le_reg_r with pfa; [lra |].
    unfold Rdiv. rewrite Rmult_assoc, Rinv_l by lra. lra. }
  assert (HB : 0 <= ln (pd / (1 - pd))).
  { apply ln_nonneg.
    apply Rmult_le_reg_r with (1 - pd); [lra |].
    unfold Rdiv. rewrite Rmult_assoc, Rinv_l by lra. lra. }
  set (A := ln (0.62 / pfa)) in *. set (B := ln (pd / (1 - pd))) in *.
  assert (HZ : 1 <= A + 0.12 * A * B + 1.7 * B) by nra.
  rewrite math_log10_pos by lra. rewrite bind_Returns.
  eexists. split; [reflexivity |].
  rewrite ln_1.
  assert (0 <= ln (A + 0.12 * A * B + 1.7 * B) / ln 10).
  { apply Rmult_le_pos; [apply ln_nonneg; exact HZ |].
    left. apply Rinv_0_lt_compat, ln_10_pos. }
  assert (0 < sqrt (1 + 0.44)) by (apply sqrt_lt_R0; lra).
  assert (0 <= 4.54 / sqrt (1 + 0.44)).
  { apply Rmult_le_pos; [lra | left; apply Rinv_0_lt_compat; assumption]. }
  unfold Rdiv at 1. rewrite Rmult_0_l. nra.
Qed.

(** The magnitudes of a design and a scenario within which no step of the
    radar equation leaves the finite floats. *)
Record in_range (arch : Architecture) (scenario : RadarDetectionScenario) : Prop := {
  n_elements_in_range : (1 <= n_elements (array arch) <= 10 ^ 6)%Z;
  tx_power_in_range : 1e-3 <= tx_power_w_per_elem (rf arch) <= 1e6;
  feed_loss_in_range : -100 <= feed_loss_db (rf arch) <= 100;
  system_loss_in_range : -100 <= system_loss_db (rf arch) <= 100;
  noise_figure_in_range : -100 <= noise_figure_db (rf arch) <= 100;
  freq_in_range : 1e6 <= freq_hz scenario <= 1e12;
  bandwidth_in_range : 1 <= bandwidth_hz scenario <= 1e12;
  range_in_range : 1 <= range_m scenario <= 1e9;
  rcs_in_range : -100 <= target_rcs_dbsm scenario <= 100;
  noise_temp_in_range : 1 <= rx_noise_temp_k scenario <= 1e6;
  n_pulses_in_range : (1 <= n_pulses scenario <= 10 ^ 6)%Z;
  pd_required_in_range : 0.5 <= pd_required scenario <= 0.9999;
  pfa_in_range : 1e-10 <= pfa scenario <= 0.1
}.

Section RadarReturns.

Variable erfc : R -> R.
Variable gammaincinv : R -> R -> R.
Hypothesis gammaincinv_nonneg : forall a y, 0 < y < 1 -> 0 <= gammaincinv a y.

Lemma integration_gain_in_range (kind : string) (n : Z) (pd pfa : R) :
  (1 <= n <= 10 ^ 6)%Z ->
  exists gain,
    (if String.eqb kind "coherent" then coherent_integration_gain n
     else noncoherent_integration_gain n pd pfa) = Returns gain /\
    0 <= gain <= 60.
Proof.
  intros [Hlo Hhi].
  assert (Hlog : 0 <= ln (IZR n) / ln 10 <= 6).
  { apply (log10_bounds (IZR n) 0 6). simpl.
    apply IZR_le in Hlo, Hhi.
    replace (IZR (10 ^ 6)) with 1000000 in Hhi by (simpl; lra). lra. }
  destruct (String.eqb kind "coherent").
  - unfold coherent_integration_gain.
    destruct (Z.ltb_spec n 1) as [? | _]; [lia |].
    destruct (Z.eqb_spec n 1) as [-> | _].
    + exists 0. split; [reflexivity | lra].
    + unfold math_log10_int. destruct (Z.ltb_spec 0 n) as [_ | ?]; [| lia].
      simpl. eexists. split; [reflexivity | lra].
  - destruct (noncoherent_integration_gain_bounds n pd pfa Hlo) as (g & -> & Hg).
    exists g. split; [reflexivity | lra].
Qed.

(** The radar equation on a context that holds a gain only. *)
Lemma RadarModel_result_in_range arch scenario (g : R) :
  in_range arch scenario ->
  -100 <= g <= 100 ->
  returned (RadarModel_result erfc gammaincinv arch scenario {[ "g_peak_db" := VNum g ]}).
Proof.
  intros [Hn Htx Hfeed Hsys Hnf Hfreq Hbw Hrange Hrcs Htemp Hpulses Hpd Hpfa] Hg.
  unfold RadarModel_result, RadarModel_evaluate.
  run_context_reads I I.
  unfold lift. cbn [fst].
  rewrite float_of_int_small
    by (split; [lia | apply Z.le_trans with (10 ^ 6)%Z; [lia | vm_compute; discriminate]]).
  rewrite ?bind_Returns, ?bind_mret.
  assert (Hn' : 1 <= IZR (n_elements (array arch)) <= 1e6).
  { destruct Hn as [Hlo Hhi]. apply IZR_le in Hlo, Hhi.
    replace (IZR (10 ^ 6)) with 1000000 in Hhi by (simpl; lra). lra. }
  set (n := IZR (n_elements (array arch))) in *.
  set (tx := tx_power_w_per_elem (rf arch)) in *.
  assert (Hpower : 1e-3 <= tx * n <= 1e12) by nra.
  rewrite (W_TO_DBW_pos (tx * n)) by lra. rewrite ?bind_Returns, ?bind_mret.
  destruct (log10_bounds (tx * n) (-3) 12) as [HP1 HP2]; [simpl; lra |].
  set (P := ln (tx * n) / ln 10) in *.
  set (f := freq_hz scenario) in *.
  rewrite truediv_nonzero by lra. rewrite ?bind_Returns, ?bind_mret.
  unfold C_LIGHT.
  assert (Hwl : 1e-4 <= 299792458 / f <= 1e3).
  { apply Rdiv_bounds; lra. }
  rewrite (math_log10_pos (299792458 / f)) by lra. rewrite ?bind_Returns, ?bind_mret.
  destruct (log10_bounds (299792458 / f) (-4) 3) as [HW1 HW2]; [simpl; lra |].
  set (W := ln (299792458 / f) / ln 10) in *.
  rewrite pow10_in_range by lra. rewrite ?bind_Returns, ?bind_mret.
  rewrite (math_log10_pos (range_m scenario)) by lra. rewrite ?bind_Returns, ?bind_mret.
  destruct (log10_bounds (range_m scenario) 0 9) as [HR1 HR2]; [simpl; lra |].
  set (Rg := ln (range_m scenario) / ln 10) in *.
  unfold K_B.
  set (T := rx_noise_temp_k scenario) in *. set (B := bandwidth_hz scenario) in *.
  assert (Hnoise : 1e-23 <= 1.380649e-23 * T * B <= 1e-4) by nra.
  rewrite (W_TO_DBW_pos (1.380649e-23 * T * B)) by lra.
  rewrite ?bind_Returns, ?bind_mret.
  destruct (log10_bounds (1.380649e-23 * T * B) (-23) (-4)) as [HN1 HN2];
    [simpl; lra |].
  set (N := ln (1.380649e-23 * T * B) / ln 10) in *.
  pose proof PI2_3_2 as Hpi1. pose proof PI_4 as Hpi2.
  rewrite (math_log10_pos (4 * PI)) by lra. rewrite ?bind_Returns, ?bind_mret.
  destruct (log10_bounds (4 * PI) 1 2) as [HC1 HC2]; [simpl; lra |].
  set (Cst := ln (4 * PI) / ln 10) in *.
  cbn [value_as_float]. rewrite ?bind_Returns, ?bind_mret.
  destruct (integration_gain_in_range (integration_type scenario) (n_pulses scenario)
              (pd_required scenario) (pfa scenario) Hpulses) as (G & -> & HG).
  rewrite ?bind_Returns.
  destruct (albersheim_snr_single_pulse _ _ Hpd Hpfa) as (r & -> & Hr).
  rewrite ?bind_Returns.
  match goal with |- context [compute_pd_from_snr _ _ ?snr _ _ _ _] =>
    destruct (compute_pd_from_snr_single_pulse erfc gammaincinv gammaincinv_nonneg
                snr (pfa scenario)) as (pd & ->)
  end.
  { lra. }
  { apply Rpower_10_le_DBL_MAX. lra. }
  rewrite ?bind_Returns.
  match goal with |- context [Rltb (-40) ?m] => destruct (Rltb (-40) m) end.
  - rewrite pow10_in_range by lra. rewrite ?bind_Returns, ?bind_mret.
    eexists. reflexivity.
  - rewrite ?bind_Returns, ?bind_mret. eexists. reflexivity.
Qed.

(** The radar equation on a context without a gain: the gain is computed from
    the dimensions of the array. *)
Lemma RadarModel_result_fallback_in_range arch scenario :
  in_range arch scenario ->
  (1 <= nx (array arch) <= 1000)%Z -> (1 <= ny (array arch) <= 1000)%Z ->
  0.1 <= dx_lambda (array arch) <= 10 -> 0.1 <= dy_lambda (array arch) <= 10 ->
  returned (RadarModel_result erfc gammaincinv arch scenario ∅).
Proof.
  intros Hrange Hnx Hny Hdx Hdy.
  assert (Hconv : forall k : Z, (1 <= k <= 1000)%Z ->
            float_of_int k = Returns (IZR k) /\ 1 <= IZR k <= 1000).
  { intros k [Hlo Hhi]. split.
    - apply float_of_int_small. split; [lia |].
      apply Z.le_trans with 1000%Z; [lia | vm_compute; discriminate].
    - apply IZR_le in Hlo, Hhi. lra. }
  destruct (Hconv _ Hnx) as [Hnx_f Hnx'], (Hconv _ Hny) as [Hny_f Hny'].
  set (a := IZR (nx (array arch)) * dx_lambda (array arch)
            * IZR (ny (array arch)) * dy_lambda (array arch)).
  assert (Ha : 0.01 <= a <= 1e8).
  { unfold a.
    set (x := IZR (nx (array arch))) in *. set (y := IZR (ny (array arch))) in *.
    set (dx := dx_lambda (array arch)) in *. set (dy := dy_lambda (array arch)) in *.
    assert (0.1 <= x * dx <= 1e4) by nra.
    assert (0.1 <= x * dx * y <= 1e7) by nra.
    nra. }
  pose proof PI2_3_2 as Hpi1. pose proof PI_4 as Hpi2.
  assert (Hlin : 0.1 <= 4 * PI * a <= 1e10) by nra.
  destruct (log10_bounds (4 * PI * a) (-1) 10) as [HL1 HL2]; [simpl; lra |].
  assert (Heq : RadarModel_result erfc gammaincinv arch scenario ∅ =
                RadarModel_result erfc gammaincinv arch scenario
                  {[ "g_peak_db" := VNum (10 * (ln (4 * PI * a) / ln 10)) ]}).
  { unfold RadarModel_result, RadarModel_evaluate.
    run_context_reads I I.
    rewrite Hnx_f, Hny_f. rewrite ?bind_Returns.
    fold a. rewrite (math_log10_pos (4 * PI * a)) by lra.
    rewrite ?bind_Returns. reflexivity. }
  rewrite Heq. apply RadarModel_result_in_range; [assumption | lra].
Qed.

(** X20: on a design and a scenario of ordinary magnitudes, with a required
    detection probability of at least one half and inside Albersheim's ranges,
    the radar model returns a record: when the context holds a numeric
    [g_peak_db] (less a numeric [scan_loss_db], if there is one) between -100
    and 100 dB, and when it holds no [g_peak_db] and the array has at most
    1000 x 1000 elements spaced by 0.1 to 10 wavelengths. *)
Theorem RadarModel_returns_in_range arch scenario (context : MetricsDict) :
  in_range arch scenario ->
  (exists g, context !! "g_peak_db" = Some (VNum g) /\
     (context !! "scan_loss_db" = None /\ -100 <= g <= 100 \/
      exists l, context !! "scan_loss_db" = Some (VNum l) /\ -100 <= g - l <= 100))
  \/ (context !! "g_peak_db" = None /\
      (1 <= nx (array arch) <= 1000)%Z /\ (1 <= ny (array arch) <= 1000)%Z /\
      0.1 <= dx_lambda (array arch) <= 10 /\ 0.1 <= dy_lambda (array arch) <= 10) ->
  returned (RadarModel_result erfc gammaincinv arch scenario context).
Proof.
  intros Hrange [(g & Hg & Hloss) | (Hg & Hnx & Hny & Hdx & Hdy)].
  - rewrite (RadarModel_result_context _ _ _ _ _ g Hg).
    + destruct Hloss as [[-> Hgain] | (l & -> & Hgain)];
        apply RadarModel_result_in_range; assumption.
    + intros s Hs. destruct Hloss as [[Hl _] | (l & Hl & _)]; congruence.
  - rewrite RadarModel_result_no_gain by exact Hg.
    apply RadarModel_result_fallback_in_range; assumption.
Qed.

End RadarReturns.

Lemma sample_in_range : in_range sample_architecture sample_scenario.
Proof.
  split; cbn [sample_architecture sample_scenario array rf n_elements
              tx_power_w_per_elem feed_loss_db system_loss_db noise_figure_db
              freq_hz bandwidth_hz range_m target_rcs_dbsm rx_noise_temp_k
              n_pulses pd_required pfa];
    first [lra | split; [lia | vm_compute; discriminate]].
Qed.

Lemma RadarModel_returns_in_range_witness :
  returned (RadarModel_result rational_erfc exponential_gammaincinv
              sample_architecture sample_scenario scanned_antenna_metrics).
Proof.
  apply (RadarModel_returns_in_range rational_erfc exponential_gammaincinv
           exponential_gammaincinv_nonneg sample_architecture sample_scenario
           scanned_antenna_metrics sample_in_range).
  left. exists 30. split; [reflexivity |].
  right. exists 3. split; [reflexivity | lra].
Defined.

(** Runs of the radar model on the fixtures, with a gain in the context and
    without. *)
Lemma sample_radar_record :
  exists m,
    RadarModel_result rational_erfc exponential_gammaincinv
      sample_architecture sample_scenario {[ "g_peak_db" := VNum 30 ]} = Returns m.
Proof.
  apply (RadarModel_result_in_range rational_erfc exponential_gammaincinv
           exponential_gammaincinv_nonneg _ _ 30 sample_in_range). lra.
Qed.

Lemma sample_radar_record_fallback :
  exists m,
    RadarModel_result rational_erfc exponential_gammaincinv
      sample_architecture sample_scenario ∅ = Returns m.
Proof.
  apply (RadarModel_result_fallback_in_range rational_erfc exponential_gammaincinv
           exponential_gammaincinv_nonneg _ _ sample_in_range);
    cbn [sample_architecture array nx ny dx_lambda dy_lambda]; first [lia | lra].
Qed.

Lemma RadarModel_record_keys_witness :
  exists m,
    RadarModel_result rational_erfc exponential_gammaincinv
      sample_architecture sample_scenario {[ "g_peak_db" := VNum 30 ]} = Returns m /\
    "g_ant_db" ∈ dom m /\ "g_peak_db" ∉ dom m.
Proof.
  destruct sample_radar_record as [m Hm]. exists m. split; [exact Hm |].
  rewrite (RadarModel_record_keys _ _ _ _ _ _ Hm).
  split; [set_solver | vm_compute; discriminate].
Defined.

(** ** constants.py: conversions between decibels and linear scale *)

Definition db_to_linear (db : R) : outcome R := pow10 (db / 10).

Definition linear_to_db (linear : R) : outcome R :=
  if Rltb 0 linear then l ← math_log10 linear; mret (10 * l) else NonFinite.

Definition dbw_to_w (dbw : R) : outcome R := pow10 (dbw / 10).

Definition db_to_linear_voltage (db : R) : outcome R := pow10 (db / 20).

Definition linear_to_db_voltage (linear : R) : outcome R :=
  if Rltb 0 linear then l ← math_log10 linear; mret (20 * l) else NonFinite.

Lemma log10_Rpower_10 y : ln (Rpower 10 y) / ln 10 = y.
Proof.
  unfold Rpower. rewrite ln_exp. field. pose proof ln_10_pos. lra.
Qed.

Lemma Rpower_10_log10 x : 0 < x -> Rpower 10 (ln x / ln 10) = x.
Proof.
  intros Hx. unfold Rpower.
  replace (ln x / ln 10 * ln 10) with (ln x) by (field; pose proof ln_10_pos; lra).
  apply exp_ln. exact Hx.
Qed.

(** X21: rounding apart, the conversions undo each other: a level between -3000
    and 3000 dB converted to linear scale and back is the level, for power and
    for amplitude, and a positive linear value up to [1e300] converted to
    decibels and back is the value.  A linear value that is not positive has
    no logarithm: the conversion to decibels then gives minus infinity, where
    [math.log10] would raise. *)
Theorem db_linear_round_trip (db linear : R) :
  (-3000 <= db <= 3000 ->
   (exists x, db_to_linear db = Returns x /\ linear_to_db x = Returns db) /\
   (exists w, dbw_to_w db = Returns w /\ W_TO_DBW w = Returns db) /\
   (exists v, db_to_linear_voltage db = Returns v /\
              linear_to_db_voltage v = Returns db)) /\
  (0 < linear <= 1e300 ->
   (exists d, linear_to_db linear = Returns d /\ db_to_linear d = Returns linear) /\
   (exists d, linear_to_db_voltage linear = Returns d /\
              db_to_linear_voltage d = Returns linear)) /\
  (linear <= 0 ->
   linear_to_db linear = NonFinite /\ W_TO_DBW linear = NonFinite /\
   linear_to_db_voltage linear = NonFinite).
Proof.
  split; [| split].
  - intros Hdb.
    unfold db_to_linear, dbw_to_w, db_to_linear_voltage, linear_to_db, W_TO_DBW,
      linear_to_db_voltage.
    rewrite !pow10_in_range by lra.
    pose proof (Rpower_pos 10 (db / 10)). pose proof (Rpower_pos 10 (db / 20)).
    repeat split; eexists; (split; [reflexivity |]).
    all: rewrite Rltb_true by assumption.
    all: rewrite math_log10_pos by assumption; rewrite bind_Returns.
    all: rewrite log10_Rpower_10; unfold mret, outcome_ret; f_equal; lra.
  - intros [Hpos Hmax].
    unfold db_to_linear, db_to_linear_voltage, linear_to_db, linear_to_db_voltage.
    rewrite !Rltb_true by assumption.
    rewrite !math_log10_pos by assumption. rewrite !bind_Returns.
    assert (Hlog : ln linear / ln 10 <= 300).
    { destruct (Rle_or_lt linear 1) as [Hsmall | Hlarge].
      - assert (ln linear <= 0) by (rewrite <- ln_1; apply ln_le; lra).
        pose proof ln_10_pos.
        assert (ln linear / ln 10 <= 0).
        { unfold Rdiv. rewrite <- (Rmult_0_l (/ ln 10)).
          apply Rmult_le_compat_r; [left; apply Rinv_0_lt_compat; lra | lra]. }
        lra.
      - apply (log10_bounds linear 0 300). split; [simpl; lra |].
        change (powerRZ 10 300) with (10 ^ 300). rewrite pow_IZR.
        change (Z.of_nat 300) with 300%Z. lra. }
    split; eexists; (split; [reflexivity |]); unfold mret, outcome_ret.
    + replace (10 * (ln linear / ln 10) / 10) with (ln linear / ln 10) by lra.
      rewrite pow10_in_range by lra. rewrite Rpower_10_log10 by assumption.
      reflexivity.
    + replace (20 * (ln linear / ln 10) / 20) with (ln linear / ln 10) by lra.
      rewrite pow10_in_range by lra. rewrite Rpower_10_log10 by assumption.
      reflexivity.
  - intros Hneg. unfold linear_to_db, W_TO_DBW, linear_to_db_voltage.
    rewrite !Rltb_false by assumption. auto.
Qed.

(** ** models/radar/equation.py: the standalone detection range *)

Definition compute_detection_range
    (peak_power_w g_ant_db freq_hz rcs_dbsm noise_temp_k bandwidth_hz
     noise_figure_db system_loss_db snr_required_db : R) : outcome R :=
  pt_dbw ← W_TO_DBW peak_power_w;
  wavelength_m ← truediv C_LIGHT freq_hz;
  wavelength_db ← (l ← math_log10 wavelength_m; mret (10 * l));
  let noise_power_w := K_B * noise_temp_k * bandwidth_hz in
  noise_power_dbw ← (n ← W_TO_DBW noise_power_w; mret (n + noise_figure_db));
  radar_constant_db ← (l ← math_log10 (4 * PI); mret (30 * l));
  let four_r_db :=
    pt_dbw + 2 * g_ant_db + 2 * wavelength_db + rcs_dbsm
    - system_loss_db - radar_constant_db - noise_power_dbw - snr_required_db in
  let r_db := four_r_db / 4 in
  pow10 (r_db / 10).

(** What a call of [compute_detection_range] that returns has computed. *)
Lemma compute_detection_range_inv
    peak_power_w g_ant_db freq_hz rcs_dbsm noise_temp_k bandwidth_hz
    noise_figure_db system_loss_db snr_required_db range :
  compute_detection_range peak_power_w g_ant_db freq_hz rcs_dbsm noise_temp_k
    bandwidth_hz noise_figure_db system_loss_db snr_required_db = Returns range ->
  exists pt_dbw wavelength_m wavelength_log noise_log radar_log,
    W_TO_DBW peak_power_w = Returns pt_dbw /\
    truediv C_LIGHT freq_hz = Returns wavelength_m /\
    math_log10 wavelength_m = Returns wavelength_log /\
    W_TO_DBW (K_B * noise_temp_k * bandwidth_hz) = Returns noise_log /\
    math_log10 (4 * PI) = Returns radar_log /\
    range = Rpower 10
      ((pt_dbw + 2 * g_ant_db + 2 * (10 * wavelength_log) + rcs_dbsm
        - system_loss_db - 30 * radar_log - (noise_log + noise_figure_db)
        - snr_required_db) / 4 / 10).
Proof.
  unfold compute_detection_range. intros H.
  apply bind_Returns_inv in H as (pt & Hpt & H).
  apply bind_Returns_inv in H as (wl & Hwl & H).
  apply bind_Returns_inv in H as (wdb & Hwdb & H).
  apply bind_Returns_inv in Hwdb as (wlog & Hwlog & Hwdb).
  apply mret_Returns_inv in Hwdb. subst wdb.
  apply bind_Returns_inv in H as (ndb & Hndb & H).
  apply bind_Returns_inv in Hndb as (nlog & Hnlog & Hndb).
  apply mret_Returns_inv in Hndb. subst ndb.
  apply bind_Returns_inv in H as (cdb & Hcdb & H).
  apply bind_Returns_inv in Hcdb as (clog & Hclog & Hcdb).
  apply mret_Returns_inv in Hcdb. subst cdb.
  apply pow10_Returns_inv in H.
  exists pt, wl, wlog, nlog, clog. auto 10.
Qed.

(** X22: the detection range does not grow when more signal-to-noise ratio is
    required or when the losses grow, and does not shrink when the antenna
    gain or the radar cross section grows; it is never negative. *)
Theorem compute_detection_range_monotone
    peak_power_w freq_hz noise_temp_k bandwidth_hz noise_figure_db
    g_ant_db rcs_dbsm system_loss_db snr_required_db
    g_ant_db' rcs_dbsm' system_loss_db' snr_required_db' range range' :
  g_ant_db <= g_ant_db' -> rcs_dbsm <= rcs_dbsm' ->
  system_loss_db' <= system_loss_db -> snr_required_db' <= snr_required_db ->
  compute_detection_range peak_power_w g_ant_db freq_hz rcs_dbsm noise_temp_k
    bandwidth_hz noise_figure_db system_loss_db snr_required_db = Returns range ->
  compute_detection_range peak_power_w g_ant_db' freq_hz rcs_dbsm' noise_temp_k
    bandwidth_hz noise_figure_db system_loss_db' snr_required_db' = Returns range' ->
  0 <= range <= range'.
Proof.
  intros Hg Hrcs Hloss Hsnr H H'.
  apply compute_detection_range_inv in H
    as (pt & wl & wlog & nlog & clog & Hpt & Hwl & Hwlog & Hnlog & Hclog & ->).
  apply compute_detection_range_inv in H'
    as (pt' & wl' & wlog' & nlog' & clog' & Hpt' & Hwl' & Hwlog' & Hnlog' & Hclog' & ->).
  rewrite Hpt in Hpt'. injection Hpt' as <-.
  rewrite Hwl in Hwl'. injection Hwl' as <-.
  rewrite Hwlog in Hwlog'. injection Hwlog' as <-.
  rewrite Hnlog in Hnlog'. injection Hnlog' as <-.
  rewrite Hclog in Hclog'. injection Hclog' as <-.
  split; [left; apply Rpower_pos |].
  apply Rle_Rpower; lra.
Qed.

Section DetectionRange.

Variable erfc : R -> R.
Variable gammaincinv : R -> R -> R.

(** X23: rounding apart, the standalone function agrees with the radar model:
    called with the entries of a record of the model, and with the required
    signal-to-noise ratio less the integration gain, it returns the detection
    range of that record, when the margin is above -40 dB (below, the model
    reports a range of zero) and the range is a finite float. *)
Theorem compute_detection_range_agrees arch scenario (context m : MetricsDict)
    (peak_power_w g_ant_db gain required margin detection_range_m : R) :
  RadarModel_result erfc gammaincinv arch scenario context = Returns m ->
  m !! "peak_power_w" = Some (VNum peak_power_w) ->
  m !! "g_ant_db" = Some (VNum g_ant_db) ->
  m !! "integration_gain_db" = Some (VNum gain) ->
  m !! "snr_required_db" = Some (VNum required) ->
  m !! "snr_margin_db" = Some (VNum margin) ->
  m !! "detection_range_m" = Some (VNum detection_range_m) ->
  -40 < margin ->
  detection_range_m <= DBL_MAX ->
  compute_detection_range peak_power_w g_ant_db (freq_hz scenario)
    (target_rcs_dbsm scenario) (rx_noise_temp_k scenario) (bandwidth_hz scenario)
    (noise_figure_db (rf arch)) (feed_loss_db (rf arch) + system_loss_db (rf arch))
    (required - gain)
  = Returns detection_range_m.
Proof.
  intros Hm Kpower Kg Kgain Kreq Kmargin Krange Hlt Hmax.
  radar_record Hm.
  change (Some (VNum (tx_power_w_per_elem (rf arch) * nf)) = Some (VNum peak_power_w))
    in Kpower. injection Kpower as <-.
  change (Some (VNum g) = Some (VNum g_ant_db)) in Kg. injection Kg as <-.
  change (Some (VNum ig) = Some (VNum gain)) in Kgain. injection Kgain as <-.
  change (Some (VNum req) = Some (VNum required)) in Kreq. injection Kreq as <-.
  change (Some (VNum dr) = Some (VNum detection_range_m)) in Krange.
  injection Krange as <-.
  match type of Kmargin with
  | _ = Some (VNum margin) =>
      match type of Hdr with
      | (if Rltb (-40) ?x then _ else _) = _ =>
          change (Some (VNum x) = Some (VNum margin)) in Kmargin;
          set (mg := x) in *
      end
  end.
  injection Kmargin as Hmargin.
  rewrite Hmargin in Hdr. rewrite Rltb_true in Hdr by exact Hlt.
  apply bind_Returns_inv in Hdr as (p & Hp & Hdr).
  apply pow10_Returns_inv in Hp. apply mret_Returns_inv in Hdr. subst p.
  unfold compute_detection_range.
  rewrite Hppd, Hwl. rewrite !bind_Returns. rewrite Hwlog, Hnlog, Hclog.
  repeat (rewrite ?bind_Returns, ?bind_mret).
  apply math_log10_Returns_inv in Hrlog as [Hpos ->].
  match goal with |- pow10 ?y = _ =>
    replace y with (margin / 40 + ln (range_m scenario) / ln 10)
      by (rewrite <- Hmargin; unfold mg; lra)
  end.
  assert (Heq : Rpower 10 (margin / 40 + ln (range_m scenario) / ln 10) = dr).
  { rewrite Rpower_plus, Rpower_10_log10 by assumption. rewrite <- Hdr. lra. }
  unfold pow10. rewrite Heq. rewrite Rltb_false by exact Hmax. reflexivity.
Qed.

End DetectionRange.

Lemma compute_detection_range_returns
    peak_power_w g_ant_db freq_hz rcs_dbsm noise_temp_k bandwidth_hz
    noise_figure_db system_loss_db snr_required_db :
  1e-3 <= peak_power_w <= 1e12 -> -100 <= g_ant_db <= 100 ->
  1e6 <= freq_hz <= 1e12 -> -100 <= rcs_dbsm <= 100 ->
  1 <= noise_temp_k <= 1e6 -> 1 <= bandwidth_hz <= 1e12 ->
  -100 <= noise_figure_db <= 100 -> -100 <= system_loss_db <= 100 ->
  -100 <= snr_required_db <= 100 ->
  returned (compute_detection_range peak_power_w g_ant_db freq_hz rcs_dbsm
              noise_temp_k bandwidth_hz noise_figure_db system_loss_db
              snr_required_db).
Proof.
  intros Hpower Hg Hfreq Hrcs Htemp Hbw Hnf Hloss Hsnr.
  unfold compute_detection_range.
  rewrite (W_TO_DBW_pos peak_power_w) by lra. rewrite bind_Returns.
  destruct (log10_bounds peak_power_w (-3) 12) as [HP1 HP2]; [simpl; lra |].
  rewrite truediv_nonzero by lra. rewrite bind_Returns. unfold C_LIGHT.
  assert (Hwl : 1e-4 <= 299792458 / freq_hz <= 1e3) by (apply Rdiv_bounds; lra).
  rewrite (math_log10_pos (299792458 / freq_hz)) by lra.
  destruct (log10_bounds (299792458 / freq_hz) (-4) 3) as [HW1 HW2]; [simpl; lra |].
  unfold K_B.
  assert (Hnoise : 1e-23 <= 1.380649e-23 * noise_temp_k * bandwidth_hz <= 1e-4) by nra.
  rewrite (W_TO_DBW_pos (1.380649e-23 * noise_temp_k * bandwidth_hz)) by lra.
  destruct (log10_bounds (1.380649e-23 * noise_temp_k * bandwidth_hz) (-23) (-4))
    as [HN1 HN2]; [simpl; lra |].
  pose proof PI2_3_2 as Hpi1. pose proof PI_4 as Hpi2.
  rewrite (math_log10_pos (4 * PI)) by lra.
  destruct (log10_bounds (4 * PI) 1 2) as [HC1 HC2]; [simpl; lra |].
  repeat (rewrite ?bind_Returns, ?bind_mret).
  rewrite pow10_in_range by lra. eexists. reflexivity.
Qed.

Lemma compute_detection_range_monotone_witness :
  exists range range',
    compute_detection_range 2560 30 10e9 0 290 1e6 3 1 13 = Returns range /\
    compute_detection_range 2560 33 10e9 0 290 1e6 3 1 10 = Returns range' /\
    0 <= range <= range'.
Proof.
  destruct (compute_detection_range_returns 2560 30 10e9 0 290 1e6 3 1 13)
    as [range Hrange]; try lra.
  destruct (compute_detection_range_returns 2560 33 10e9 0 290 1e6 3 1 10)
    as [range' Hrange']; try lra.
  exists range, range'. split; [exact Hrange |]. split; [exact Hrange' |].
  apply (compute_detection_range_monotone 2560 10e9 290 1e6 3 30 0 1 13 33 0 1 10
           range range'); first [lra | assumption].
Defined.

(** ** models/antenna/metrics.py *)

(** [math.radians] *)
Definition math_radians (x : R) : R := x * (PI / 180).

(** The loss is [float("inf")] at 90 degrees and beyond, and when the cosine
    is not positive. *)
Definition compute_scan_loss (scan_angle_deg : R) (model : string) : outcome R :=
  if Rleb 90 scan_angle_deg then NonFinite
  else
    let scan_rad := math_radians scan_angle_deg in
    loss_linear ←
      (if String.eqb model "cosine" then Returns (cos scan_rad)
       else if String.eqb model "cosine_squared" then Returns (cos scan_rad ^ 2)
       else Raises (ValueError ("Unknown scan loss model: " ++ model)));
    if Rleb loss_linear 0 then NonFinite
    else
      loss_db ← (l ← math_log10 loss_linear; mret (-10 * l));
      mret (if Rltb (Rabs loss_db) 1e-10 then Rabs loss_db else loss_db).

Definition compute_array_gain (n_elements : Z) (element_gain_db : R) : outcome R :=
  if (n_elements <? 1)%Z then Raises (ValueError "n_elements must be >= 1")
  else
    array_factor_db ← (l ← math_log10_int n_elements; mret (10 * l));
    mret (element_gain_db + array_factor_db).

Definition compute_directivity_rectangular (nx ny : Z) (dx_lambda dy_lambda : R)
    : outcome R :=
  nx_f ← float_of_int nx;
  let lx := nx_f * dx_lambda in
  ny_f ← float_of_int ny;
  let ly := ny_f * dy_lambda in
  let directivity_linear := 4 * PI * lx * ly in
  l ← math_log10 directivity_linear;
  mret (10 * l).

(** *** Scan loss *)

Lemma cos_radians_pos (angle : R) : -90 < angle < 90 -> 0 < cos (math_radians angle) <= 1.
Proof.
  intros [Hlo Hhi]. unfold math_radians. pose proof PI_RGT_0 as Hpi.
  split.
  - apply cos_gt_0; nra.
  - apply COS_bound.
Qed.

Lemma scan_loss_of_cosine (c : R) :
  0 < c <= 1 ->
  Rleb c 0 = false /\
  (loss_db ← (l ← math_log10 c; mret (-10 * l));
   mret (if Rltb (Rabs loss_db) 1e-10 then Rabs loss_db else loss_db))
  = Returns (-10 * (ln c / ln 10)) /\
  0 <= -10 * (ln c / ln 10).
Proof.
  intros [Hpos Hle].
  assert (Hlog : ln c / ln 10 <= 0).
  { assert (ln c <= 0) by (rewrite <- ln_1; apply ln_le; lra).
    pose proof ln_10_pos.
    unfold Rdiv. rewrite <- (Rmult_0_l (/ ln 10)).
    apply Rmult_le_compat_r; [left; apply Rinv_0_lt_compat; lra | lra]. }
  split; [apply Rleb_false; exact Hpos |].
  split; [| lra].
  rewrite math_log10_pos by exact Hpos.
  repeat (rewrite ?bind_Returns, ?bind_mret).
  rewrite Rabs_pos_eq by lra.
  destruct (Rltb _ _); reflexivity.
Qed.

(** X24: below 90 degrees off boresight, on either side, both models return a loss
    that is not negative, the cosine-squared loss being at least the cosine
    loss; at boresight the loss is zero; and the loss does not shrink when
    the beam is steered further away. *)
Theorem compute_scan_loss_bounds (angle angle' : R) :
  -90 < angle < 90 ->
  exists loss loss2,
    compute_scan_loss angle "cosine" = Returns loss /\
    compute_scan_loss angle "cosine_squared" = Returns loss2 /\
    0 <= loss <= loss2 /\
    (angle = 0 -> loss = 0 /\ loss2 = 0) /\
    (0 <= angle <= angle' -> angle' < 90 ->
     exists far, compute_scan_loss angle' "cosine" = Returns far /\ loss <= far).
Proof.
  intros Hangle.
  destruct (cos_radians_pos angle Hangle) as [Hpos Hle].
  set (c := cos (math_radians angle)) in *.
  assert (Hsq : 0 < c ^ 2 <= 1) by nra.
  destruct (scan_loss_of_cosine c (conj Hpos Hle)) as (Hc0 & Hc & Hcpos).
  destruct (scan_loss_of_cosine (c ^ 2) Hsq) as (Hs0 & Hs & Hspos).
  exists (-10 * (ln c / ln 10)), (-10 * (ln (c ^ 2) / ln 10)).
  assert (Hdouble : ln (c ^ 2) = 2 * ln c).
  { simpl. rewrite Rmult_1_r. rewrite ln_mult by assumption. lra. }
  unfold compute_scan_loss.
  rewrite !Rleb_false by lra. fold c.
  cbn [String.eqb Ascii.eqb Bool.eqb]. rewrite !bind_Returns.
  rewrite Hc0, Hs0.
  split; [exact Hc |]. split; [exact Hs |].
  split.
  { rewrite Hdouble in *. lra. }
  split.
  { intros ->.
    assert (Hc1 : ln c = 0).
    { unfold c, math_radians. rewrite Rmult_0_l, cos_0. apply ln_1. }
    rewrite Hdouble, Hc1. lra. }
  intros [Hlo Hstep] Hhi.
  destruct (cos_radians_pos angle' ltac:(lra)) as [Hpos' Hle'].
  set (c' := cos (math_radians angle')) in *.
  destruct (scan_loss_of_cosine c' (conj Hpos' Hle')) as (Hc0' & Hc' & _).
  rewrite Rleb_false by lra. rewrite ?bind_Returns. fold c'. rewrite Hc0'.
  eexists. split; [exact Hc' |].
  assert (Hcos : c' <= c).
  { unfold c, c', math_radians. pose proof PI_RGT_0.
    apply cos_decr_1; nra. }
  pose proof (ln_le c' c Hpos' Hcos).
  pose proof ln_10_pos.
  assert (ln c' / ln 10 <= ln c / ln 10).
  { unfold Rdiv. apply Rmult_le_compat_r; [left; apply Rinv_0_lt_compat; lra | lra]. }
  lra.
Qed.

Lemma compute_scan_loss_bounds_witness :
  exists loss far,
    compute_scan_loss 30 "cosine" = Returns loss /\
    compute_scan_loss 60 "cosine" = Returns far /\
    0 <= loss <= far.
Proof.
  destruct (compute_scan_loss_bounds 30 60 ltac:(lra))
    as (loss & loss2 & Hloss & _ & Hpos & _ & Hfar).
  destruct Hfar as (far & Hfar & Hle); [lra | lra |].
  exists loss, far. split; [exact Hloss |]. split; [exact Hfar | lra].
Defined.

(** At 90 degrees and beyond the loss is infinite, whatever the name of the
    model; below, a model that is neither "cosine" nor "cosine_squared" raises
    [ValueError] with its name. *)
Lemma compute_scan_loss_unknown_model (angle : R) (model : string) :
  model <> "cosine" -> model <> "cosine_squared" ->
  (90 <= angle -> compute_scan_loss angle model = NonFinite) /\
  (angle < 90 ->
   compute_scan_loss angle model
   = Raises (ValueError ("Unknown scan loss model: " ++ model))).
Proof.
  intros Hc Hs. unfold compute_scan_loss. split; intros Hangle.
  - rewrite Rleb_true by exact Hangle. reflexivity.
  - rewrite Rleb_false by exact Hangle.
    apply String.eqb_neq in Hc, Hs. rewrite Hc, Hs. reflexivity.
Qed.

(** *** Array gain and directivity *)

(** X25: the gain of an array of [n >= 1] elements is returned, is at least the
    gain of one element (and equal to it for one element), and does not
    shrink when elements are added; fewer than one element is rejected with
    the function's own [ValueError]. *)
Theorem compute_array_gain_bounds (n n' : Z) (element_gain_db : R) :
  ((n < 1)%Z ->
   compute_array_gain n element_gain_db = Raises (ValueError "n_elements must be >= 1")) /\
  ((1 <= n <= n')%Z ->
   exists gain gain',
     compute_array_gain n element_gain_db = Returns gain /\
     compute_array_gain n' element_gain_db = Returns gain' /\
     element_gain_db <= gain <= gain' /\
     (n = 1%Z -> gain = element_gain_db)).
Proof.
  unfold compute_array_gain. split.
  - intros Hn. destruct (Z.ltb_spec n 1) as [_ | ?]; [reflexivity | lia].
  - intros [Hn Hn'].
    destruct (Z.ltb_spec n 1) as [? | _]; [lia |].
    destruct (Z.ltb_spec n' 1) as [? | _]; [lia |].
    unfold math_log10_int.
    destruct (Z.ltb_spec 0 n) as [_ | ?]; [| lia].
    destruct (Z.ltb_spec 0 n') as [_ | ?]; [| lia].
    repeat (rewrite ?bind_Returns, ?bind_mret).
    eexists _, _. split; [reflexivity |]. split; [reflexivity |].
    pose proof (log10_int_nonneg n Hn) as Hlog.
    assert (Hmono : ln (IZR n) / ln 10 <= ln (IZR n') / ln 10).
    { pose proof ln_10_pos.
      assert (ln (IZR n) <= ln (IZR n')).
      { apply ln_le; [apply IZR_lt; lia | apply IZR_le; exact Hn']. }
      unfold Rdiv. apply Rmult_le_compat_r; [left; apply Rinv_0_lt_compat; lra | lra]. }
    split; [lra |].
    intros ->. rewrite ln_1. lra.
Qed.

(** X26: the directivity of a rectangular array is computed without any check of
    its arguments: when the aperture [nx * dx * ny * dy] is not positive (no
    element along an axis, a spacing of zero), the call raises the
    [ValueError] of [math.log10]; when both axes have elements and both
    spacings are positive, it returns. *)
Theorem compute_directivity_rectangular_domain (nx ny : Z) (dx_lambda dy_lambda : R) :
  Rabs (IZR nx) <= DBL_MAX -> Rabs (IZR ny) <= DBL_MAX ->
  (IZR nx * dx_lambda * (IZR ny * dy_lambda) <= 0 ->
   compute_directivity_rectangular nx ny dx_lambda dy_lambda
   = Raises (ValueError "math domain error")) /\
  (0 < IZR nx * dx_lambda * (IZR ny * dy_lambda) ->
   returned (compute_directivity_rectangular nx ny dx_lambda dy_lambda)).
Proof.
  intros Hnx Hny. unfold compute_directivity_rectangular, float_of_int.
  rewrite !Rltb_false by assumption. rewrite !bind_Returns.
  pose proof PI_RGT_0 as Hpi.
  set (a := IZR nx * dx_lambda * (IZR ny * dy_lambda)).
  replace (4 * PI * (IZR nx * dx_lambda) * (IZR ny * dy_lambda)) with (4 * PI * a)
    by (unfold a; ring).
  split; intros Ha.
  - unfold math_log10. rewrite Rltb_false by nra. reflexivity.
  - rewrite math_log10_pos by nra. rewrite bind_Returns. eexists. reflexivity.
Qed.

Lemma compute_directivity_rectangular_domain_witness :
  compute_directivity_rectangular 0 16 0.5 0.5 = Raises (ValueError "math domain error").
Proof.
  destruct (compute_directivity_rectangular_domain 0 16 0.5 0.5) as [Hraise _].
  - rewrite Rabs_R0. pose proof DBL_MAX_ge_1. lra.
  - rewrite Rabs_pos_eq by lra. unfold DBL_MAX. apply IZR_le. vm_compute. discriminate.
  - apply Hraise. lra.
Defined.

(** ** models/rf/cascade.py *)

(** The reference temperature [T0]; the Boltzmann constant of the module is
    that of constants.py. *)
Definition T0 : R := 290.

(** The values of the dicts that the cascade functions return: floats,
    an [int] count, lists of floats and of names. *)
Inductive cascade_value : Type :=
| CNum (x : R)
| CInt (n : Z)
| CList (l : list R)
| CNames (l : list string).

Definition noise_figure_to_temp (nf_db t0 : R) : outcome R :=
  f_linear ← pow10 (nf_db / 10);
  mret (t0 * (f_linear - 1)).

Definition noise_temp_to_figure (te t0 : R) : outcome R :=
  q ← truediv te t0;
  let f_linear := 1 + q in
  l ← math_log10 f_linear;
  mret (10 * l).

(** [sum(xs)] of floats: the additions start from the [int] 0. *)
Definition py_sum (xs : list R) : R := foldl Rplus 0 xs.

(** The loop of [friis_noise_figure] over the stages after the first, each
    given by its linear gain and its linear noise figure. *)
Fixpoint friis_loop (rest : list (R * R)) (f_total cumulative_gain : R)
    (contributions : list R) : outcome (R * list R) :=
  match rest with
  | [] => Returns (f_total, contributions)
  | (gain_i, nf_i) :: rest' =>
      contribution ← truediv (nf_i - 1) cumulative_gain;
      friis_loop rest' (f_total + contribution) (cumulative_gain * gain_i)
        (contributions ++ [contribution])
  end.

Definition friis_noise_figure (stages : list (R * R))
    : outcome (gmap string cascade_value) :=
  match stages with
  | [] =>
      Returns (list_to_map [
        ("total_nf_db", CNum 0); ("total_gain_db", CNum 0);
        ("noise_temp_k", CNum 0); ("stage_contributions_db", CList [])])
  | first :: rest =>
      gain_0 ← pow10 (fst first / 10);
      gains ← mapM (fun stage => pow10 (fst stage / 10)) rest;
      nf_0 ← pow10 (snd first / 10);
      nfs ← mapM (fun stage => pow10 (snd stage / 10)) rest;
      '(f_total, contributions) ← friis_loop (zip gains nfs) nf_0 gain_0 [nf_0 - 1];
      contributions_db ←
        mapM (fun c => l ← math_log10 (1 + c); mret (10 * l)) contributions;
      total_nf_db ← (l ← math_log10 f_total; mret (10 * l));
      let total_gain_db := py_sum (map fst stages) in
      noise_temp_k ← noise_figure_to_temp total_nf_db T0;
      mret (list_to_map [
        ("total_nf_db", CNum total_nf_db); ("total_gain_db", CNum total_gain_db);
        ("noise_temp_k", CNum noise_temp_k);
        ("stage_contributions_db", CList contributions_db);
        ("n_stages", CInt (Z.of_nat (length stages)))])
  end.

Definition cascade_gain (gains_db : list R) : R := py_sum gains_db.


(** The loop of [cascade_iip3] over the stages after the first. *)
Fixpoint iip3_loop (rest : list (R * R)) (inv_iip3_total cumulative_gain : R)
    : outcome R :=
  match rest with
  | [] => Returns inv_iip3_total
  | (gain_i, iip3_i) :: rest' =>
      term ← truediv cumulative_gain iip3_i;
      iip3_loop rest' (inv_iip3_total + term) (cumulative_gain * gain_i)
  end.

(** For an empty chain the dict that is returned holds [float('inf')]. *)
Definition cascade_iip3 (stages : list (R * R)) : outcome (gmap string cascade_value) :=
  match stages with
  | [] => NonFinite
  | first :: rest =>
      gain_0 ← pow10 (fst first / 10);
      gains ← mapM (fun stage => pow10 (fst stage / 10)) rest;
      iip3_0 ← pow10 (snd first / 10);
      iip3s ← mapM (fun stage => pow10 (snd stage / 10)) rest;
      inv_iip3_0 ← truediv 1 iip3_0;
      inv_iip3_total ← iip3_loop (zip gains iip3s) inv_iip3_0 gain_0;
      iip3_total_linear ← truediv 1 inv_iip3_total;
      iip3_dbm ← (l ← math_log10 iip3_total_linear; mret (10 * l));
      let total_gain_db := py_sum (map fst stages) in
      let oip3_dbm := iip3_dbm + total_gain_db in
      mret (list_to_map [
        ("iip3_dbm", CNum iip3_dbm); ("oip3_dbm", CNum oip3_dbm);
        ("total_gain_db", CNum total_gain_db)])
  end.

Definition cascade_oip3 (stages : list (R * R)) : outcome (gmap string cascade_value) :=
  let iip3_stages := map (fun stage => (fst stage, snd stage - fst stage)) stages in
  cascade_iip3 iip3_stages.

(** *** Lists of outcomes *)



(** *** Friis: the first stage bounds the noise figure from below *)






(** The empty chain is answered without the count of stages, which every
    other answer carries. *)
Lemma friis_noise_figure_empty :
  exists result,
    friis_noise_figure [] = Returns result /\
    result !! "total_nf_db" = Some (CNum 0) /\
    result !! "total_gain_db" = Some (CNum 0) /\
    result !! "noise_temp_k" = Some (CNum 0) /\
    result !! "stage_contributions_db" = Some (CList []) /\
    result !! "n_stages" = None.
Proof. eexists. split; [reflexivity |]. repeat split; reflexivity. Qed.

(** *** Intercept points: the first stage bounds the cascade from above *)






(** ** models/digital/scheduling.py: utilization of a timeline *)

Module Scheduling.

Inductive Function : Type :=
| RADAR_SEARCH | RADAR_TRACK | RADAR_CONFIRM | ESM | ECM | COMMS | CALIBRATION | IDLE.

#[global] Instance Function_eq_dec : EqDecision Function.
Proof. solve_decision. Defined.

(** [func.value] *)
Definition Function_value (func : Function) : string :=
  match func with
  | RADAR_SEARCH => "radar_search"
  | RADAR_TRACK => "radar_track"
  | RADAR_CONFIRM => "radar_confirm"
  | ESM => "esm"
  | ECM => "ecm"
  | COMMS => "comms"
  | CALIBRATION => "calibration"
  | IDLE => "idle"
  end.

(** [for func in Function]: the members in the order of their definition. *)
Definition members : list Function :=
  [RADAR_SEARCH; RADAR_TRACK; RADAR_CONFIRM; ESM; ECM; COMMS; CALIBRATION; IDLE].

(** A dwell, without its [metadata] dict, which no function of the module
    reads. *)
Record Dwell : Type := {
  function : Function;
  duration_us : R;
  azimuth_deg : R;
  elevation_deg : R;
  bandwidth_hz : R;
  priority : Z
}.

Definition duration_ms (self : Dwell) : R := duration_us self / 1000.

Record Timeline : Type := {
  dwells : list Dwell;
  frame_time_ms : R;
  name : string
}.

Definition total_dwell_time_ms (self : Timeline) : R :=
  py_sum (map duration_ms (dwells self)).

Definition n_dwells (self : Timeline) : nat := length (dwells self).

Definition dwells_by_function (self : Timeline) (func : Function) : list Dwell :=
  List.filter (fun d => bool_decide (function d = func)) (dwells self).

Definition time_for_function (self : Timeline) (func : Function) : R :=
  py_sum (map duration_ms (dwells_by_function self func)).

(** The values of the dict that [timeline_utilization] returns. *)
Inductive util_value : Type :=
| UNum (x : R)
| UInt (n : Z)
| UDict (d : gmap string R).

Definition timeline_utilization (timeline : Timeline) : gmap string util_value :=
  let total_dwell_ms := total_dwell_time_ms timeline in
  let idle_time_ms := py_max 0 (frame_time_ms timeline - total_dwell_ms) in
  let utilization :=
    if Rltb 0 (frame_time_ms timeline) then total_dwell_ms / frame_time_ms timeline
    else 0 in
  let by_function : gmap string R :=
    list_to_map
      (map (fun func => (Function_value func, time_for_function timeline func)) members) in
  let by_function_percent : gmap string R :=
    list_to_map
      (map (fun func =>
              (Function_value func,
               if Rltb 0 (frame_time_ms timeline)
               then time_for_function timeline func / frame_time_ms timeline * 100
               else 0))
         members) in
  list_to_map [
    ("total_utilization", UNum utilization);
    ("total_dwell_time_ms", UNum total_dwell_ms);
    ("idle_time_ms", UNum idle_time_ms);
    ("frame_time_ms", UNum (frame_time_ms timeline));
    ("n_dwells", UInt (Z.of_nat (n_dwells timeline)));
    ("by_function", UDict by_function);
    ("by_function_percent", UDict by_function_percent)
  ].

(** *** Sums *)

Lemma foldl_Rplus (xs : list R) (a : R) : foldl Rplus a xs = a + fold_right Rplus 0 xs.
Proof.
  revert a. induction xs as [| x xs IH]; intros a; cbn [foldl fold_right]; [lra |].
  rewrite IH. lra.
Qed.

Lemma py_sum_cons (x : R) (xs : list R) : py_sum (x :: xs) = x + py_sum xs.
Proof. unfold py_sum. cbn [foldl]. rewrite !foldl_Rplus. lra. Qed.

Lemma py_sum_nil : py_sum [] = 0.
Proof. reflexivity. Qed.

(** The times of the functions add up to the time of all dwells. *)
Lemma time_for_function_sum (timeline : Timeline) :
  py_sum (map (time_for_function timeline) members) = total_dwell_time_ms timeline.
Proof.
  unfold time_for_function, total_dwell_time_ms, dwells_by_function, members.
  cbn [map]. rewrite !py_sum_cons, py_sum_nil.
  induction (dwells timeline) as [| d ds IH].
  - cbn [List.filter map]. rewrite py_sum_nil. lra.
  - cbn [List.filter map]. rewrite py_sum_cons. rewrite <- IH.
    destruct (function d);
      repeat match goal with
      | |- context [bool_decide (?a = ?b)] =>
          first [ rewrite (bool_decide_eq_true_2 (a = b)) by reflexivity
                | rewrite (bool_decide_eq_false_2 (a = b)) by discriminate ]
      end;
      cbn [map]; rewrite py_sum_cons; lra.
Qed.

(** X29: the idle time is never negative: it is the part of the frame that the
    dwells leave free, and zero when they fill or overrun the frame; the
    utilization is the dwell time over the frame time, above 1 for a frame
    that is overrun, and 0, with no division, for a frame time that is not
    positive. *)
Theorem timeline_utilization_idle (timeline : Timeline) :
  exists utilization idle,
    timeline_utilization timeline !! "total_utilization" = Some (UNum utilization) /\
    timeline_utilization timeline !! "idle_time_ms" = Some (UNum idle) /\
    0 <= idle /\
    (total_dwell_time_ms timeline <= frame_time_ms timeline ->
     idle = frame_time_ms timeline - total_dwell_time_ms timeline) /\
    (frame_time_ms timeline <= total_dwell_time_ms timeline -> idle = 0) /\
    (frame_time_ms timeline <= 0 -> utilization = 0) /\
    (0 < frame_time_ms timeline ->
     utilization * frame_time_ms timeline = total_dwell_time_ms timeline /\
     (utilization <= 1 <-> total_dwell_time_ms timeline <= frame_time_ms timeline)).
Proof.
  eexists _, _. split; [reflexivity |]. split; [reflexivity |].
  set (total := total_dwell_time_ms timeline). set (frame := frame_time_ms timeline).
  unfold py_max, Rltb.
  destruct (Rlt_dec 0 (frame - total)) as [Hfree | Hfull];
    destruct (Rlt_dec 0 frame) as [Hframe | Hframe].
  all: repeat split; intros; try lra.
  all: try (field; lra).
  all: try (apply Rmult_le_reg_r with frame; [lra |];
            replace (total / frame * frame) with total by (field; lra); lra).
  all: try (assert (total / frame * frame = total) by (field; lra); nra).
Qed.

(** X30: the breakdown by function has an entry for each of the eight functions,
    and (rounding apart) the entries add up to the total dwell time: every
    dwell is counted once. *)
Theorem timeline_utilization_by_function (timeline : Timeline) :
  exists by_function,
    timeline_utilization timeline !! "by_function" = Some (UDict by_function) /\
    timeline_utilization timeline !! "total_dwell_time_ms"
      = Some (UNum (total_dwell_time_ms timeline)) /\
    (forall func,
       by_function !! Function_value func = Some (time_for_function timeline func)) /\
    dom by_function = list_to_set (map Function_value members) /\
    py_sum (map (time_for_function timeline) members) = total_dwell_time_ms timeline.
Proof.
  eexists. split; [reflexivity |]. split; [reflexivity |].
  split; [intros func; destruct func; reflexivity |].
  split; [rewrite dom_list_to_map_L; reflexivity |].
  apply time_for_function_sum.
Qed.

End Scheduling.

(** ** Runs on the fixtures *)

Lemma RadarModel_record_snr_witness :
  exists m pd,
    RadarModel_result rational_erfc exponential_gammaincinv
      sample_architecture sample_scenario {[ "g_peak_db" := VNum 30 ]} = Returns m /\
    m !! "pd_achieved" = Some (VNum pd) /\ 0 <= pd <= 1.
Proof.
  destruct sample_radar_record as [m Hm].
  destruct (RadarModel_record_snr _ _ _ _ _ _ Hm)
    as (single & gain & integrated & required & margin & pd
        & _ & _ & _ & _ & _ & Hpd & _ & _ & _ & _ & Hunit).
  exists m, pd. auto.
Defined.

Lemma RadarModel_record_detection_range_witness :
  exists m d,
    RadarModel_result rational_erfc exponential_gammaincinv
      sample_architecture sample_scenario {[ "g_peak_db" := VNum 30 ]} = Returns m /\
    m !! "detection_range_m" = Some (VNum d) /\ 0 <= d.
Proof.
  destruct sample_radar_record as [m Hm].
  destruct (RadarModel_record_detection_range _ _ _ _ _ _ Hm)
    as (margin & d & _ & Hd & Hpos & _).
  exists m, d. auto.
Defined.

Lemma RadarModel_fallback_gain_witness :
  exists m,
    RadarModel_result rational_erfc exponential_gammaincinv
      sample_architecture sample_scenario {[ "scan_loss_db" := VNum 3 ]} = Returns m /\
    RadarModel_result rational_erfc exponential_gammaincinv
      sample_architecture sample_scenario ∅ = Returns m.
Proof.
  destruct sample_radar_record_fallback as [m Hm].
  assert (Hcontext : RadarModel_result rational_erfc exponential_gammaincinv
            sample_architecture sample_scenario {[ "scan_loss_db" := VNum 3 ]}
          = Returns m).
  { rewrite RadarModel_result_no_gain by reflexivity. exact Hm. }
  exists m. split; [exact Hcontext |].
  refine (proj2 (RadarModel_fallback_gain rational_erfc exponential_gammaincinv
                   sample_architecture sample_scenario
                   {[ "scan_loss_db" := VNum 3 ]} m _ Hcontext)).
  reflexivity.
Defined.

Lemma demo_pareto_keeps_ties_witness :
  let table := [row_of 1000 45 None; row_of 2000 40 None; row_of 1000 45 (Some "twin")] in
  In (row_of 1000 45 None) (Pareto.demo_pareto table)
  <-> In (row_of 1000 45 (Some "twin")) (Pareto.demo_pareto table).
Proof.
  intros table.
  refine (proj2 (Pareto.demo_pareto_keeps_ties table
            (row_of 1000 45 None) (row_of 1000 45 (Some "twin")) _ _ eq_refl eq_refl)).
  - left. reflexivity.
  - right. right. left. reflexivity.
Defined.

Lemma evaluate_case_with_report_verifies_twice_witness :
  exists m report,
    fst (evaluate_case_with_report rational_erfc exponential_gammaincinv counting_clock
           (constant_model {[ "g_peak_db" := VNum 30 ]})
           (constant_model ∅) (constant_model ∅) (constant_model ∅) verify
           sample_architecture (CommsLinkScenario sample_comms_scenario)
           [gain_requirement] None empty_world) = Returns (m, report) /\
    report = verify [gain_requirement] m.
Proof.
  destruct (evaluate_case_with_report_returns
              rational_erfc exponential_gammaincinv counting_clock
              (constant_model {[ "g_peak_db" := VNum 30 ]})
              (constant_model ∅) (constant_model ∅) (constant_model ∅) verify
              sample_architecture (CommsLinkScenario sample_comms_scenario)
              [gain_requirement] None empty_world
              {[ "g_peak_db" := VNum 30 ]} ∅ ∅ ∅
              eq_refl eq_refl eq_refl eq_refl) as ([m report] & Hrun).
  exists m, report. split; [exact Hrun |].
  exact (proj1 (proj2 (evaluate_case_with_report_verifies_twice
           rational_erfc exponential_gammaincinv counting_clock
           (constant_model {[ "g_peak_db" := VNum 30 ]})
           (constant_model ∅) (constant_model ∅) (constant_model ∅) verify
           sample_architecture (CommsLinkScenario sample_comms_scenario)
           [gain_requirement] None empty_world m report Hrun))).
Defined.

(** A requirement on the run time: the record merged from the model outputs
    has no [meta.runtime_s] yet, the final record has. *)
Definition runtime_requirement : Requirement := {|
  req_id := "REQ-RT";
  req_name := "Run time is recorded";
  req_metric_key := "meta.runtime_s";
  req_op := OpGe;
  req_threshold := 0;
  req_severity := Must
|}.

(** The two verifications of [evaluate_case_with_report] can disagree: here
    the record says that the requirements failed, and the report that comes
    with it says that they passed. *)
Example report_contradicts_record :
  exists m report,
    fst (evaluate_case_with_report rational_erfc exponential_gammaincinv counting_clock
           (constant_model {[ "g_peak_db" := VNum 30 ]})
           (constant_model ∅) (constant_model ∅) (constant_model ∅) verify
           sample_architecture (CommsLinkScenario sample_comms_scenario)
           [runtime_requirement] None empty_world) = Returns (m, report) /\
    m !! "verification.passes" = Some (VNum 0) /\
    passes report = true.
Proof.
  eexists _, _. split.
  - apply (evaluate_case_with_report_run
             rational_erfc exponential_gammaincinv counting_clock
             (constant_model {[ "g_peak_db" := VNum 30 ]})
             (constant_model ∅) (constant_model ∅) (constant_model ∅) verify
             sample_architecture (CommsLinkScenario sample_comms_scenario)
             runtime_requirement [] None empty_world
             {[ "g_peak_db" := VNum 30 ]} ∅ ∅ ∅); reflexivity.
  - split.
    + rewrite !lookup_insert_ne by discriminate. rewrite lookup_insert_eq.
      reflexivity.
    + unfold verify. cbn [List.filter is_must runtime_requirement req_severity
                          passes forallb].
      unfold requirement_holds. cbn [req_metric_key req_op req_threshold].
      rewrite lookup_insert_eq.
      rewrite Rleb_true; [reflexivity |].
      unfold counting_clock, empty_world. simpl. lra.
Qed.

(** *** The fixture with a gain of 100 dB: a margin above -40 dB *)

Lemma ln_le_minus_1 x : 0 < x -> ln x <= x - 1.
Proof.
  intros Hx. pose proof (exp_ineq1_le (x - 1)) as H.
  replace (1 + (x - 1)) with x in H by lra.
  rewrite <- (ln_exp (x - 1)). apply ln_le; assumption.
Qed.

Lemma albersheim_snr_sample_bound (required : R) :
  albersheim_snr 0.9 1e-6 1 = Returns required -> 0 <= required <= 76.
Proof.
  intros H.
  rewrite albersheim_snr_run in H by (lra || lia || apply DBL_MAX_ge_1).
  apply bind_Returns_inv in H as (l & Hl & H).
  apply mret_Returns_inv in H. subst required.
  apply math_log10_Returns_inv in Hl as [Hz ->].
  assert (HA : 1 <= ln (0.62 / 1e-6) <= 620000).
  { split; [apply ln_gt_1; lra |].
    pose proof (ln_le_minus_1 (0.62 / 1e-6) ltac:(lra)). lra. }
  assert (HB : 0 <= ln (0.9 / (1 - 0.9)) <= 9).
  { split; [apply ln_nonneg; lra |].
    pose proof (ln_le_minus_1 (0.9 / (1 - 0.9)) ltac:(lra)). lra. }
  set (A := ln (0.62 / 1e-6)) in *. set (B := ln (0.9 / (1 - 0.9))) in *.
  assert (HZ : 1 <= A + 0.12 * A * B + 1.7 * B <= 1e7) by nra.
  destruct (log10_bounds (A + 0.12 * A * B + 1.7 * B) 0 7) as [HL1 HL2]; [simpl; lra |].
  set (L := ln (A + 0.12 * A * B + 1.7 * B) / ln 10) in *.
  rewrite ln_1.
  assert (Hs : 1 <= sqrt (1 + 0.44)).
  { rewrite <- sqrt_1 at 1. apply sqrt_le_1_alt. lra. }
  assert (Hd : 0 <= 4.54 / sqrt (1 + 0.44) <= 4.54).
  { apply Rdiv_bounds; nra. }
  unfold Rdiv at 1. rewrite Rmult_0_l.
  change (IZR 0) with 0 in HL1. change (IZR 7) with 7 in HL2.
  nra.
Qed.

Lemma Rpower_10_le_pow (y : R) (n : nat) : y <= INR n -> Rpower 10 y <= 10 ^ n.
Proof.
  intros Hy. rewrite <- Rpower_pow by lra. apply Rle_Rpower; lra.
Qed.

Lemma sample_radar_margin (m : MetricsDict) :
  RadarModel_result rational_erfc exponential_gammaincinv
    sample_architecture sample_scenario {[ "g_peak_db" := VNum 100 ]} = Returns m ->
  exists peak_power_w gain required margin d,
    m !! "peak_power_w" = Some (VNum peak_power_w) /\
    m !! "g_ant_db" = Some (VNum 100) /\
    m !! "integration_gain_db" = Some (VNum gain) /\
    m !! "snr_required_db" = Some (VNum required) /\
    m !! "snr_margin_db" = Some (VNum margin) /\
    m !! "detection_range_m" = Some (VNum d) /\
    -40 < margin /\ d <= DBL_MAX.
Proof.
  intros Hm.
  pose proof (RadarModel_result_gain _ _ _ _ _ _ Hm 100 eq_refl) as Hgain.
  radar_record Hm.
  change (Some (VNum g) = Some (VNum 100)) in Hgain. injection Hgain as ->.
  eexists _, ig, req, _, dr. do 6 (split; [reflexivity |]).
  cbn [sample_architecture sample_scenario array rf n_elements tx_power_w_per_elem
       freq_hz bandwidth_hz range_m target_rcs_dbsm rx_noise_temp_k pfa pd_required
       n_pulses integration_type feed_loss_db system_loss_db noise_figure_db] in *.
  rewrite (float_of_int_small 256) in Hnf by (split; [lia | vm_compute; discriminate]).
  injection Hnf as <-.
  rewrite (W_TO_DBW_pos (10 * 256)) in Hppd by lra. injection Hppd as <-.
  destruct (log10_bounds (10 * 256) 3 4) as [HP1 HP2]; [simpl; lra |].
  set (P := ln (10 * 256) / ln 10) in *.
  unfold C_LIGHT in Hwl. rewrite truediv_nonzero in Hwl by lra. injection Hwl as <-.
  rewrite (math_log10_pos (299792458 / 10e9)) in Hwlog by lra. injection Hwlog as <-.
  destruct (log10_bounds (299792458 / 10e9) (-2) (-1)) as [HW1 HW2]; [simpl; lra |].
  set (W := ln (299792458 / 10e9) / ln 10) in *.
  rewrite (math_log10_pos 50e3) in Hrlog by lra. injection Hrlog as <-.
  destruct (log10_bounds 50e3 4 5) as [HR1 HR2]; [simpl; lra |].
  set (Rg := ln 50e3 / ln 10) in *.
  unfold K_B in Hnlog.
  rewrite (W_TO_DBW_pos (1.380649e-23 * 290 * 1e6)) in Hnlog by lra.
  injection Hnlog as <-.
  destruct (log10_bounds (1.380649e-23 * 290 * 1e6) (-15) (-14)) as [HN1 HN2];
    [simpl; lra |].
  set (N := ln (1.380649e-23 * 290 * 1e6) / ln 10) in *.
  pose proof PI2_3_2 as Hpi1. pose proof PI_4 as Hpi2.
  rewrite (math_log10_pos (4 * PI)) in Hclog by lra. injection Hclog as <-.
  destruct (log10_bounds (4 * PI) 1 2) as [HC1 HC2]; [simpl; lra |].
  set (Cst := ln (4 * PI) / ln 10) in *.
  cbn [String.eqb Ascii.eqb Bool.eqb] in Hig.
  destruct (noncoherent_integration_gain_bounds 10 0.9 1e-6) as (G & HG & HG1 & HG2);
    [lia |].
  rewrite HG in Hig. injection Hig as <-.
  destruct (log10_bounds 10 1 1) as [_ HL]; [simpl; lra |].
  apply albersheim_snr_sample_bound in Hreq.
  change (IZR 3) with 3 in *. change (IZR 4) with 4 in *. change (IZR 5) with 5 in *.
  change (IZR 1) with 1 in *. change (IZR 2) with 2 in *.
  match type of Hdr with
  | (if Rltb (-40) ?x then _ else _) = _ => set (margin := x) in *
  end.
  assert (Hmargin : -40 < margin <= 200) by (unfold margin; lra).
  split; [lra |].
  rewrite Rltb_true in Hdr by lra.
  apply bind_Returns_inv in Hdr as (p & Hp & Hdr).
  apply pow10_Returns_inv in Hp. apply mret_Returns_inv in Hdr. subst p dr.
  pose proof (Rpower_10_le_pow (margin / 40) 5 ltac:(simpl; lra)) as Hpow.
  pose proof (Rpower_pos 10 (margin / 40)).
  apply Rle_trans with (IZR 5000000000).
  - simpl in Hpow. nra.
  - unfold DBL_MAX. apply IZR_le. vm_compute. discriminate.
Qed.

Lemma compute_detection_range_agrees_witness :
  exists m peak_power_w gain required d,
    RadarModel_result rational_erfc exponential_gammaincinv
      sample_architecture sample_scenario {[ "g_peak_db" := VNum 100 ]} = Returns m /\
    m !! "detection_range_m" = Some (VNum d) /\
    compute_detection_range peak_power_w 100 (freq_hz sample_scenario)
      (target_rcs_dbsm sample_scenario) (rx_noise_temp_k sample_scenario)
      (bandwidth_hz sample_scenario) (noise_figure_db (rf sample_architecture))
      (feed_loss_db (rf sample_architecture) + system_loss_db (rf sample_architecture))
      (required - gain)
    = Returns d.
Proof.
  destruct (RadarModel_result_in_range rational_erfc exponential_gammaincinv
              exponential_gammaincinv_nonneg _ _ 100 sample_in_range ltac:(lra))
    as [m Hm].
  destruct (sample_radar_margin m Hm)
    as (peak_power_w & gain & required & margin & d
        & Hpower & Hg & Hgain & Hreq & Hmargin & Hd & Hlt & Hmax).
  exists m, peak_power_w, gain, required, d.
  split; [exact Hm |]. split; [exact Hd |].
  exact (compute_detection_range_agrees rational_erfc exponential_gammaincinv
           sample_architecture sample_scenario _ m peak_power_w 100 gain required
           margin d Hm Hpower Hg Hgain Hreq Hmargin Hd Hlt Hmax).
Defined.
